(** * Agent-to-agent conversation orchestration: model and properties

    A shallow embedding of
    - [tests/multi_turn_with_agent.py]: [ConversationTurn], [MAX_TURNS] and
      the class [AgentToAgentConversation] (turn loop, transcript, summary);
    - [testinglib/azure_ai_agent_client.py]: the conversation history kept by
      [AzureAIAgentClient] and the operations on it.

    Python values are modelled as the code has them: a [str] is a sequence of
    Unicode code points, an [int] is an unbounded integer, objects that are
    mutated in place and shared (the history list and its dict entries) live
    in an explicit store, and an exception is an outcome of a call that
    leaves every mutation performed before it in place. *)

From Stdlib Require Import ZArith NArith List String Ascii Bool Lia DecimalString.
From stdpp Require Import base option list gmap.
Import ListNotations.

Set Default Proof Using "Type".
Set Warnings "-register-all".
Open Scope Z_scope.

(* ================================================================== *)
(** * Python strings *)
(* ================================================================== *)

(** A Python [str]: a finite sequence of code points. *)
Definition pystr : Type := list N.

(** A string literal of the source (all of them are ASCII). *)
Definition lit (s : string) : pystr := map N_of_ascii (list_ascii_of_string s).

(** [str(n)] for an [int], as an f-string field [{n}] renders it. *)
Definition str_of_int (n : Z) : pystr := lit (NilZero.string_of_int (Z.to_int n)).

(** [ch.isspace()], the test [str.strip()] applies to each end: CPython's
    table for the ASCII range and [_PyUnicode_IsWhitespace] above it. *)
Definition isspace (c : N) : bool :=
  ((9 <=? c) && (c <=? 13) || (28 <=? c) && (c <=? 32)
   || (c =? 133) || (c =? 160) || (c =? 5760)
   || (8192 <=? c) && (c <=? 8202)
   || (c =? 8232) || (c =? 8233) || (c =? 8239) || (c =? 8287)
   || (c =? 12288))%N.

Fixpoint lstrip (s : pystr) : pystr :=
  match s with
  | c :: s' => if isspace c then lstrip s' else s
  | [] => []
  end.

Definition rstrip (s : pystr) : pystr := rev (lstrip (rev s)).

(** [s.strip()] *)
Definition strip (s : pystr) : pystr := rstrip (lstrip s).

(** Truth value of a string: [not s] holds exactly for the empty string. *)
Definition str_bool (s : pystr) : bool :=
  match s with [] => false | _ :: _ => true end.

Definition str_eqb (a b : pystr) : bool := bool_decide (a = b).

(* ================================================================== *)
(** * Exceptions and the state-and-exception monad *)
(* ================================================================== *)

(** An exception object: its class, [str(e)], and the exception that was
    being handled when it was raised ([__context__], which Python sets on
    every [raise] executed inside an [except] block). *)
Inductive PyExc : Type :=
  | Exc (exc_class : pystr) (exc_str : pystr) (exc_context : option PyExc).

Definition exc_class (e : PyExc) : pystr := let 'Exc c _ _ := e in c.
Definition exc_str (e : PyExc) : pystr := let 'Exc _ s _ := e in s.
Definition exc_context (e : PyExc) : option PyExc := let 'Exc _ _ c := e in c.

(** How a call ends: it returns a value, it raises, or it does not come
    back. [OutOfFuel] stands for the last: an endpoint that never answers,
    or a loop of the model cut off by its iteration budget (which the turn
    loop is shown never to exhaust). *)
Inductive outcome (A : Type) : Type :=
  | Returned (a : A)
  | Raised (e : PyExc)
  | OutOfFuel.
Arguments Returned {A} a.
Arguments Raised {A} e.
Arguments OutOfFuel {A}.

(** A computation over a state [S]. The state is threaded through every
    outcome: a raised exception does not undo earlier mutations. *)
Definition M (S A : Type) : Type := S -> outcome A * S.

Definition ret {S A} (a : A) : M S A := fun s => (Returned a, s).

Definition bind {S A B} (m : M S A) (k : A -> M S B) : M S B :=
  fun s =>
    match m s with
    | (Returned a, s') => k a s'
    | (Raised e, s') => (Raised e, s')
    | (OutOfFuel, s') => (OutOfFuel, s')
    end.

Definition raise {S A} (e : PyExc) : M S A := fun s => (Raised e, s).
Definition out_of_fuel {S A} : M S A := fun s => (OutOfFuel, s).
Definition get {S} : M S S := fun s => (Returned s, s).
Definition gets {S A} (f : S -> A) : M S A := fun s => (Returned (f s), s).
Definition modify {S} (f : S -> S) : M S unit := fun s => (Returned tt, f s).

(** [try: m except Exception as e: h e]. Every exception of the model is
    an [Exception]; what is not (cancellation of the task, an interrupt) is
    outside the model. *)
Definition try_except {S A} (m : M S A) (h : PyExc -> M S A) : M S A :=
  fun s =>
    match m s with
    | (Raised e, s') => h e s'
    | r => r
    end.

(** A [raise] executed while [handled] is being handled. *)
Definition raise_from_handler {S A} (handled : PyExc) (cls msg : pystr) : M S A :=
  raise (Exc cls msg (Some handled)).

Declare Scope py_scope.
Delimit Scope py_scope with py.
Notation "x <- m ;; k" := (bind m (fun x => k))
  (at level 100, m at next level, right associativity) : py_scope.
Notation "m ;; k" := (bind m (fun _ => k))
  (at level 100, right associativity) : py_scope.
Open Scope py_scope.

(** [await asyncio.sleep(d)]: a scheduling point with no effect on any
    modelled state. *)
Definition asyncio_sleep {S} : M S unit := ret tt.

(* ================================================================== *)
(** * Data model of [multi_turn_with_agent.py] *)
(* ================================================================== *)

(** Maximum number of conversation turns allowed before termination. *)
Definition MAX_TURNS : Z := 20.

(** A Python [float], as the 64 bits of its IEEE 754 double. *)
Definition pyfloat : Type := Z.
Definition float_zero : pyfloat := 0.
Definition float_neg_zero : pyfloat := 2 ^ 63.

(** Truth value of a float: false exactly for [0.0] and [-0.0]. *)
Definition float_bool (f : pyfloat) : bool :=
  negb ((f =? float_zero)%Z || (f =? float_neg_zero)%Z).

Module ConversationTurn.
Record t : Type := Build {
  turn_number : Z;
  sender : pystr;
  message : pystr;
  timestamp : pyfloat
}.

(** [__init__]: [self.timestamp = timestamp or 0.0]. *)
Definition init (turn_number : Z) (sender message : pystr)
    (timestamp : option pyfloat) : t :=
  Build turn_number sender message
    (match timestamp with
     | Some f => if float_bool f then f else float_zero
     | None => float_zero
     end).
End ConversationTurn.

(** [ConversationTurn(n, sender, message)], the only form the orchestrator
    uses: the timestamp argument is left at its default [None]. *)
Definition Turn (n : Z) (s m : pystr) : ConversationTurn.t :=
  ConversationTurn.init n s m None.

Definition azure_ai_agent : pystr := lit "azure_ai_agent".
Definition copilot_studio : pystr := lit "copilot_studio".

(** Modelled from the spec: the kind of a streamed fragment. The class
    [ActivityTypes] of the Microsoft Agents SDK is not part of the sources;
    the code only compares a fragment's [type] with [ActivityTypes.message],
    and the spec describes the kinds as Message and Other. *)
Module ActivityTypes.
Inductive t : Type := message | other.

Definition eqb (a b : t) : bool :=
  match a, b with
  | message, message | other, other => true
  | _, _ => false
  end.
End ActivityTypes.

(** An activity yielded by [ask_question]: the two attributes the loop
    reads. [text] is [None] when the activity carries no text. *)
Module Activity.
Record t : Type := Build {
  type : ActivityTypes.t;
  text : option pystr
}.
End Activity.

(** The mutable attributes of an [AgentToAgentConversation] object. Its two
    client attributes are references to the endpoint objects, whose state is
    part of the environment below. *)
Module AgentToAgentConversation.
Record t : Type := Build {
  turns : list ConversationTurn.t;
  current_turn : Z
}.

(** [__init__] *)
Definition init : t := Build [] 0.
End AgentToAgentConversation.

(** What an observer of a run can see, in program order: every assignment
    to an attribute of the orchestrator (with the object as it is right
    after it) and every call made to an endpoint. *)
Inductive event : Type :=
  | Assigned (obj : AgentToAgentConversation.t)
  | AskQuestion (current_message : pystr)
  | ContinueConversation (other_agent_response : pystr) (turn_number : Z).

(** The two endpoints, as the orchestrator uses them. [E] is the state of
    everything behind them (client objects, remote services). A call may
    change that state, and either returns or raises.
    - [ask_question msg] stands for the complete consumption of the async
      generator [self.copilot_client.client.ask_question(msg)]: the finite
      sequence of activities it yields ([None] for a [None] item), or the
      exception that ends it;
    - [continue_conversation msg n] is
      [self.azure_ai_client.continue_conversation(msg, n)]. *)
Class Endpoints (E : Type) : Type := {
  ask_question : pystr -> M E (list (option Activity.t));
  continue_conversation : pystr -> Z -> M E pystr
}.

(** The state of a run: the orchestrator object, the environment of the
    endpoints, and the events observed so far (the last is bookkeeping of
    the model, not program state). *)
Record Run (E : Type) : Type := MkRun {
  self : AgentToAgentConversation.t;
  env : E;
  events : list event
}.
Arguments MkRun {E} self env events.
Arguments self {E} r.
Arguments env {E} r.
Arguments events {E} r.

(** A run that starts with nothing observed yet. *)
Definition fresh_run {E} (obj : AgentToAgentConversation.t) (e : E) : Run E :=
  MkRun obj e [].

Section Primitives.
Context {E : Type} {EP : Endpoints E}.
Import AgentToAgentConversation.

(** An assignment to an attribute of [self]. *)
Definition assign (f : AgentToAgentConversation.t -> AgentToAgentConversation.t)
    : M (Run E) unit :=
  modify (fun r =>
    let obj := f (self r) in
    MkRun obj (env r) (events r ++ [Assigned obj])).

(** [self.turns = l] *)
Definition set_turns (l : list ConversationTurn.t) : M (Run E) unit :=
  assign (fun o => Build l (current_turn o)).

(** [self.current_turn = n] *)
Definition set_current_turn (n : Z) : M (Run E) unit :=
  assign (fun o => Build (turns o) n).

(** [self.current_turn += 1] *)
Definition incr_current_turn : M (Run E) unit :=
  assign (fun o => Build (turns o) (current_turn o + 1)).

(** [self.turns.append(t)] *)
Definition turns_append (t : ConversationTurn.t) : M (Run E) unit :=
  assign (fun o => Build (turns o ++ [t]) (current_turn o)).

Definition get_current_turn : M (Run E) Z := gets (fun r => current_turn (self r)).
Definition get_turns : M (Run E) (list ConversationTurn.t) :=
  gets (fun r => turns (self r)).

(** [self.turns[-1]]; an [IndexError] on an empty list. *)
Definition last_turn : M (Run E) ConversationTurn.t :=
  l <- get_turns ;;
  match last l with
  | Some t => ret t
  | None => raise (Exc (lit "IndexError") (lit "list index out of range") None)
  end.

(** A call to an endpoint: it acts on the environment only. *)
Definition call {A} (ev : event) (m : M E A) : M (Run E) A :=
  fun r =>
    let '(o, e') := m (env r) in
    (o, MkRun (self r) e' (events r ++ [ev])).

Definition call_ask_question (msg : pystr) : M (Run E) (list (option Activity.t)) :=
  call (AskQuestion msg) (ask_question msg).

Definition call_continue_conversation (msg : pystr) (n : Z) : M (Run E) pystr :=
  call (ContinueConversation msg n) (continue_conversation msg n).
End Primitives.

(* ================================================================== *)
(** * [AgentToAgentConversation]: the turn loop and the two views *)
(* ================================================================== *)

(** How one pass through a loop body ends. *)
Inductive loop_exit : Type := Break | NextIteration.

Section Orchestrator.
Context {E : Type} {EP : Endpoints E}.
Import AgentToAgentConversation.

(** One step of the [async for]: the new value of [copilot_response]
    after [activity] has been received.
    [[
      if activity and activity.type == ActivityTypes.message:
          copilot_response += activity.text or ""
    ]] *)
Definition receive (copilot_response : pystr) (activity : option Activity.t) : pystr :=
  match activity with
  | Some a =>
      if ActivityTypes.eqb (Activity.type a) ActivityTypes.message
      then copilot_response ++
           match Activity.text a with
           | Some s => if str_bool s then s else lit ""
           | None => lit ""
           end
      else copilot_response
  | None => copilot_response
  end.

(** The Copilot Studio turn (lines 151-162): forward the last message,
    collect the answer, record it. Returns [copilot_response]. *)
Definition copilot_studio_turn : M (Run E) pystr :=
  t <- last_turn ;;
  let current_message := ConversationTurn.message t in
  activities <- call_ask_question current_message ;;
  let copilot_response := fold_left receive activities (lit "") in
  incr_current_turn ;;
  n <- get_current_turn ;;
  turns_append (Turn n copilot_studio (strip copilot_response)) ;;
  ret copilot_response.

(** The Azure AI Agent turn (lines 173-182), guarded by its own test. *)
Definition azure_ai_agent_turn (copilot_response : pystr) : M (Run E) unit :=
  n <- get_current_turn ;;
  if n <? MAX_TURNS then
    n <- get_current_turn ;;
    next_message <- call_continue_conversation (strip copilot_response) n ;;
    incr_current_turn ;;
    n <- get_current_turn ;;
    turns_append (Turn n azure_ai_agent next_message) ;;
    asyncio_sleep
  else ret tt.

(** The body of the [while] loop. *)
Definition loop_body : M (Run E) loop_exit :=
  copilot_response <- copilot_studio_turn ;;
  n <- get_current_turn ;;
  if (MAX_TURNS <=? n) || negb (str_bool (strip copilot_response)) then
    ret Break
  else
    azure_ai_agent_turn copilot_response ;;
    ret NextIteration.

(** [while self.current_turn < MAX_TURNS: ...], with an iteration budget. *)
Fixpoint while_loop (fuel : nat) : M (Run E) unit :=
  n <- get_current_turn ;;
  if n <? MAX_TURNS then
    match fuel with
    | O => out_of_fuel
    | S fuel' =>
        x <- loop_body ;;
        match x with
        | Break => ret tt
        | NextIteration => while_loop fuel'
        end
    end
  else ret tt.

(** [start_conversation(initial_topic)]. Every iteration that does not
    leave the loop adds at least one to [current_turn], so [MAX_TURNS]
    iterations are a budget the loop cannot exhaust. *)
Definition start_conversation (initial_topic : pystr)
    : M (Run E) (list ConversationTurn.t) :=
  set_turns [] ;;
  set_current_turn 0 ;;
  let initial_message := initial_topic in
  incr_current_turn ;;
  n <- get_current_turn ;;
  turns_append (Turn n azure_ai_agent initial_message) ;;
  asyncio_sleep ;;
  while_loop (Z.to_nat MAX_TURNS) ;;
  get_turns.

(** The text one turn adds to the transcript:
    [[
      sender_label = "Azure AI Agent" if turn.sender == "azure_ai_agent" else "Copilot Studio"
      conversation_text += f"Turn {turn.turn_number} - {sender_label}: {turn.message}\n\n"
    ]] *)
Definition add_turn_text (conversation_text : pystr) (turn : ConversationTurn.t) : pystr :=
  let sender_label :=
    if str_eqb (ConversationTurn.sender turn) (lit "azure_ai_agent")
    then lit "Azure AI Agent" else lit "Copilot Studio" in
  conversation_text ++
    (lit "Turn " ++ str_of_int (ConversationTurn.turn_number turn) ++ lit " - "
     ++ sender_label ++ lit ": " ++ ConversationTurn.message turn
     ++ [10%N; 10%N]).

(** [get_full_conversation_text()] *)
Definition get_full_conversation_text : M (Run E) pystr :=
  l <- get_turns ;;
  ret (fold_left add_turn_text l (lit "")).
End Orchestrator.

(** The dict that [get_conversation_summary] returns, and the dicts in its
    ["turns"] entry; a field per key. *)
Module TurnDict.
Record t : Type := Build {
  turn : Z;
  sender : pystr;
  message : pystr
}.
End TurnDict.

Module Summary.
Record t : Type := Build {
  total_turns : Z;
  azure_ai_turns : Z;
  copilot_studio_turns : Z;
  conversation_length : Z;
  turns : list TurnDict.t
}.
End Summary.

Section Summary.
Context {E : Type} {EP : Endpoints E}.

(** [len(x)] as a Python [int]. *)
Definition len {A} (l : list A) : Z := Z.of_nat (length l).

(** [get_conversation_summary()]. Each comprehension reads [self.turns]
    anew, and the transcript is rendered by a call to
    [get_full_conversation_text]. *)
Definition get_conversation_summary : M (Run E) Summary.t :=
  l1 <- get_turns ;;
  l2 <- get_turns ;;
  l3 <- get_turns ;;
  conversation_text <- get_full_conversation_text ;;
  l4 <- get_turns ;;
  ret (Summary.Build
         (len l1)
         (len (List.filter (fun t => str_eqb (ConversationTurn.sender t) (lit "azure_ai_agent")) l2))
         (len (List.filter (fun t => str_eqb (ConversationTurn.sender t) (lit "copilot_studio")) l3))
         (len conversation_text)
         (map (fun t => TurnDict.Build (ConversationTurn.turn_number t)
                          (ConversationTurn.sender t) (ConversationTurn.message t)) l4)).
End Summary.

(* ================================================================== *)
(** * The object store *)
(* ================================================================== *)

(** Values the client keeps in its history ([Dict[str, Any]] entries):
    immediate values, and references to mutable objects. *)
Inductive PyVal : Type :=
  | VNone
  | VInt (n : Z)
  | VStr (s : pystr)
  | VRef (l : nat).

(** Mutable objects: lists and dicts. *)
Inductive PyObj : Type :=
  | OList (items : list PyVal)
  | ODict (d : gmap pystr PyVal).

(** The store: the object at address [l] is the [l]-th element; allocation
    adds at the end. Objects are never freed. *)
Abbreviation store := (list PyObj).

Definition val_eqb (a b : PyVal) : bool :=
  match a, b with
  | VNone, VNone => true
  | VInt x, VInt y => (x =? y)%Z
  | VStr x, VStr y => str_eqb x y
  | VRef x, VRef y => (x =? y)%nat
  | _, _ => false
  end.

Definition TypeError (msg : string) : PyExc := Exc (lit "TypeError") (lit msg) None.
Definition KeyError (key : pystr) : PyExc :=
  Exc (lit "KeyError") (lit "'" ++ key ++ lit "'") None.
Definition IndexError (msg : string) : PyExc := Exc (lit "IndexError") (lit msg) None.

(** Store operations, over any state that contains a store. *)
Section Store.
Context {S : Type} (get_store : S -> store) (set_store : store -> S -> S).

(** Create a new object; its address is returned. *)
Definition alloc (o : PyObj) : M S nat :=
  fun s => (Returned (length (get_store s)), set_store (get_store s ++ [o]) s).

(** The items of the list object at [l]. *)
Definition list_items (l : nat) : M S (list PyVal) :=
  fun s =>
    match get_store s !! l with
    | Some (OList items) => (Returned items, s)
    | _ => (Raised (TypeError "not a list"), s)
    end.

(** [x.append(v)] for the list object at [l]. *)
Definition list_append (l : nat) (v : PyVal) : M S unit :=
  items <- list_items l ;;
  modify (fun s => set_store (<[l := OList (items ++ [v])]> (get_store s)) s).

(** [x[i]] for the list object at [l] and [0 <= i]. *)
Definition list_getitem (l : nat) (i : nat) : M S PyVal :=
  items <- list_items l ;;
  match items !! i with
  | Some v => ret v
  | None => raise (IndexError "list index out of range")
  end.

(** The dict object that the value [v] refers to. *)
Definition as_dict (v : PyVal) : M S (gmap pystr PyVal) :=
  fun s =>
    match v with
    | VRef l =>
        match get_store s !! l with
        | Some (ODict d) => (Returned d, s)
        | _ => (Raised (TypeError "not a dict"), s)
        end
    | _ => (Raised (TypeError "not subscriptable"), s)
    end.

(** [v[key]] *)
Definition dict_getitem (v : PyVal) (key : pystr) : M S PyVal :=
  d <- as_dict v ;;
  match d !! key with
  | Some x => ret x
  | None => raise (KeyError key)
  end.

(** [v[key] = x] *)
Definition dict_setitem (v : PyVal) (key : pystr) (x : PyVal) : M S unit :=
  d <- as_dict v ;;
  match v with
  | VRef l => modify (fun s => set_store (<[l := ODict (<[key := x]> d)]> (get_store s)) s)
  | _ => ret tt
  end.
End Store.

(* ================================================================== *)
(** * [AzureAIAgentClient] *)
(* ================================================================== *)

(** A message of the request sent to the completion API. *)
Module ChatMessage.
Record t : Type := Build {
  role : pystr;
  content : PyVal
}.
End ChatMessage.

(** The remote completion service behind [self.client]. [R] is its state.
    [create model messages] is the call
    [self.client.chat.completions.create(model=..., messages=...,
    temperature=0.7, max_tokens=500)]; it returns the [message.content] of
    each element of [response.choices], or raises. *)
Class ChatCompletions (R : Type) : Type := {
  create : pystr -> list ChatMessage.t -> M R (list pystr)
}.

Module AzureAIAgentClient.
(** The attributes the conversation methods use. [conversation_history]
    holds a reference to a list object of the store. *)
Record t : Type := Build {
  model : pystr;
  system_prompt : pystr;
  conversation_history : nat
}.

(** The state the methods act on: the store, the client object, and the
    remote service. *)
Record World (R : Type) : Type := MkWorld {
  heap : store;
  this : t;
  remote : R
}.
Arguments MkWorld {R} heap this remote.
Arguments heap {R} w.
Arguments this {R} w.
Arguments remote {R} w.

Section Methods.
Context {R : Type} {CC : ChatCompletions R}.

Definition set_heap (h : store) (w : World R) : World R :=
  MkWorld h (this w) (remote w).

(** [self.conversation_history = <the list at l>] *)
Definition set_conversation_history (l : nat) : M (World R) unit :=
  modify (fun w =>
    MkWorld (heap w) (Build (model (this w)) (system_prompt (this w)) l) (remote w)).

Definition get_this : M (World R) t := gets this.

(** The call to the remote service. *)
Definition call_create (mdl : pystr) (messages : list ChatMessage.t)
    : M (World R) (list pystr) :=
  fun w =>
    let '(o, r') := create mdl messages (remote w) in
    (o, MkWorld (heap w) (this w) r').

(** [response.choices[0].message.content] *)
Definition first_choice (choices : list pystr) : M (World R) pystr :=
  match choices with
  | c :: _ => ret c
  | [] => raise (IndexError "list index out of range")
  end.

(** A new history entry [{"role": r, "content": c, "turn": n}]. *)
Definition entry (r c : pystr) (n : Z) : gmap pystr PyVal :=
  <[lit "role" := VStr r]>
    (<[lit "content" := VStr c]> (<[lit "turn" := VInt n]> ∅)).

(** [[
      for entry in self.conversation_history:
          if entry["role"] == "assistant":
              messages.append({"role": "assistant", "content": entry["content"]})
          else:
              messages.append({"role": "user", "content": entry["content"]})
    ]] *)
Fixpoint add_history (entries : list PyVal) (messages : list ChatMessage.t)
    : M (World R) (list ChatMessage.t) :=
  match entries with
  | [] => ret messages
  | e :: rest =>
      r <- dict_getitem heap e (lit "role") ;;
      c <- dict_getitem heap e (lit "content") ;;
      if val_eqb r (VStr (lit "assistant"))
      then add_history rest (messages ++ [ChatMessage.Build (lit "assistant") c])
      else add_history rest (messages ++ [ChatMessage.Build (lit "user") c])
  end.

Definition default_topic : pystr :=
  lit "Hello! I'm looking for information about industrial safety equipment. Can you help me?".

(** [start_conversation(initial_topic)] *)
Definition start_conversation (initial_topic : option pystr) : M (World R) pystr :=
  let initial_topic :=
    match initial_topic with
    | Some s => if str_bool s then s else default_topic
    | None => default_topic
    end in
  l <- alloc heap set_heap (OList []) ;;
  set_conversation_history l ;;
  self <- get_this ;;
  let messages :=
    [ChatMessage.Build (lit "system") (VStr (system_prompt self));
     ChatMessage.Build (lit "user")
       (VStr (lit "Start a conversation about: " ++ initial_topic))] in
  try_except
    (self <- get_this ;;
     choices <- call_create (model self) messages ;;
     first_message <- first_choice choices ;;
     d <- alloc heap set_heap (ODict (entry (lit "assistant") first_message 1)) ;;
     self <- get_this ;;
     list_append heap set_heap (conversation_history self) (VRef d) ;;
     ret first_message)
    (fun e =>
       asyncio_sleep ;;
       raise_from_handler e (lit "Exception")
         (lit "Failed to start conversation: " ++ exc_str e)).

(** [continue_conversation(other_agent_response, turn_number)] *)
Definition continue_conversation (other_agent_response : pystr) (turn_number : Z)
    : M (World R) pystr :=
  d <- alloc heap set_heap (ODict (entry (lit "user") other_agent_response turn_number)) ;;
  self <- get_this ;;
  list_append heap set_heap (conversation_history self) (VRef d) ;;
  self <- get_this ;;
  let messages := [ChatMessage.Build (lit "system") (VStr (system_prompt self))] in
  self <- get_this ;;
  entries <- list_items heap (conversation_history self) ;;
  messages <- add_history entries messages ;;
  let messages := messages ++
    [ChatMessage.Build (lit "user")
       (VStr (lit "Continue the conversation based on the response above. This is turn "
              ++ str_of_int (turn_number + 1) ++ lit " of the conversation."))] in
  try_except
    (self <- get_this ;;
     choices <- call_create (model self) messages ;;
     next_message <- first_choice choices ;;
     d <- alloc heap set_heap (ODict (entry (lit "assistant") next_message (turn_number + 1))) ;;
     self <- get_this ;;
     list_append heap set_heap (conversation_history self) (VRef d) ;;
     ret next_message)
    (fun e =>
       asyncio_sleep ;;
       raise_from_handler e (lit "Exception")
         (lit "Failed to continue conversation: " ++ exc_str e)).

(** [get_conversation_history()]: [self.conversation_history.copy()],
    a new list object with the same items. *)
Definition get_conversation_history : M (World R) nat :=
  self <- get_this ;;
  items <- list_items heap (conversation_history self) ;;
  alloc heap set_heap (OList items).

(** [reset_conversation()] *)
Definition reset_conversation : M (World R) unit :=
  l <- alloc heap set_heap (OList []) ;;
  set_conversation_history l.

(** The contents of the internal history: the dict that each item of
    the list [self.conversation_history] refers to, in order. [None]
    if the attribute is not a list of dicts. *)
Definition history_entry (h : store) (v : PyVal) : option (gmap pystr PyVal) :=
  match v with
  | VRef l => match h !! l with Some (ODict d) => Some d | _ => None end
  | _ => None
  end.

Definition internal_history (w : World R) : option (list (gmap pystr PyVal)) :=
  match heap w !! conversation_history (this w) with
  | Some (OList items) => mapM (history_entry (heap w)) items
  | _ => None
  end.
End Methods.
End AzureAIAgentClient.

(* ================================================================== *)
(** * The turn-loop algorithm as the specification words it *)
(* ================================================================== *)

(** A second, independent definition, following the pseudocode of the
    specification (section 4.3) and its data model (section 3); it is
    compared with [start_conversation] below. *)
Module Spec.
Inductive Sender : Type := AgentA | AgentB.

Record TurnRecord : Type := Build {
  turnNumber : Z;
  sender : Sender;
  message : pystr;
  timestamp : Z
}.

(** "defaults to a sentinel (0) when not supplied" *)
Definition TurnRecord_ (n : Z) (s : Sender) (m : pystr) : TurnRecord := Build n s m 0.

(** "the Orchestrator concatenates only the fragments whose kind marks
    them as a message": what one fragment contributes. *)
Definition fragment_text (f : option Activity.t) : pystr :=
  match f with
  | Some (Activity.Build ActivityTypes.message (Some s)) => s
  | _ => []
  end.

Section Algorithm.
Context {E : Type} {EP : Endpoints E}.

(** [AgentB.respond_or_stream(lastMessage)] *)
Definition respond_or_stream (lastMessage : pystr) : M E pystr :=
  fragments <- ask_question lastMessage ;;
  ret (concat (map fragment_text fragments)).

(** [AgentA.respond(text, turnIndex)] *)
Definition respond (text : pystr) (turnIndex : Z) : M E pystr :=
  continue_conversation text turnIndex.

Definition last_message (turns : list TurnRecord) : pystr :=
  match last turns with
  | Some t => message t
  | None => []
  end.

(** The [while] loop, on the local variables [turns] and [current]. *)
Fixpoint loop (fuel : nat) (turns : list TurnRecord) (current : Z)
    : M E (list TurnRecord) :=
  if current <? MAX_TURNS then
    match fuel with
    | O => out_of_fuel
    | S fuel' =>
        let lastMessage := last_message turns in
        responseText <- respond_or_stream lastMessage ;;
        let current := current + 1 in
        let turns := turns ++ [TurnRecord_ current AgentB (strip responseText)] in
        if (MAX_TURNS <=? current) || bool_decide (strip responseText = [])
        then ret turns
        else
          if current <? MAX_TURNS then
            nextText <- respond (strip responseText) current ;;
            let current := current + 1 in
            let turns := turns ++ [TurnRecord_ current AgentA nextText] in
            loop fuel' turns current
          else loop fuel' turns current
    end
  else ret turns.

Definition start (topic : pystr) : M E (list TurnRecord) :=
  let turns := [TurnRecord_ 1 AgentA topic] in
  let current := 1 in
  loop (Z.to_nat MAX_TURNS) turns current.
End Algorithm.

(** The code's name for each role, and a Turn Record as the object the
    code builds for it (the sentinel 0 is the float [0.0], all bits zero). *)
Definition sender_name (s : Sender) : pystr :=
  match s with AgentA => azure_ai_agent | AgentB => copilot_studio end.

Definition to_turn (t : TurnRecord) : ConversationTurn.t :=
  ConversationTurn.Build (turnNumber t) (sender_name (sender t)) (message t)
    (timestamp t).
End Spec.

(* ================================================================== *)
(** * Vocabulary of the statements *)
(* ================================================================== *)

(** The successive states of the orchestrator object during a run. *)
Definition snapshots (evs : list event) : list AgentToAgentConversation.t :=
  omap (fun ev => match ev with Assigned o => Some o | _ => None end) evs.

(** The calls made to the endpoints during a run, in order. *)
Definition calls (evs : list event) : list event :=
  List.filter (fun ev => match ev with Assigned _ => false | _ => true end) evs.

(** The call that produces the turn after [t], the [i]-th turn (from 0):
    AgentB answers the even positions, AgentA the odd ones; each receives
    the message of [t], AgentA with the turn count so far. *)
Definition call_after (i : nat) (t : ConversationTurn.t) : event :=
  if Nat.even i then AskQuestion (ConversationTurn.message t)
  else ContinueConversation (ConversationTurn.message t) (Z.of_nat i + 1).

(** The sender of the [i]-th turn (from 0) under strict alternation. *)
Definition alternating_sender (i : nat) : pystr :=
  if Nat.even i then azure_ai_agent else copilot_studio.

(** An endpoint pair whose calls always come back (return or raise). *)
Definition responsive {E} (EP : Endpoints E) : Prop :=
  (∀ msg e, fst (ask_question msg e) ≠ OutOfFuel) ∧
  (∀ msg n e, fst (continue_conversation msg n e) ≠ OutOfFuel).

(** No whitespace at either end. *)
Definition stripped (s : pystr) : Prop :=
  (∀ c, head s = Some c → isspace c = false) ∧
  (∀ c, last s = Some c → isspace c = false).

(** A stream holding one message activity with the given text. *)
Definition say (s : pystr) : list (option Activity.t) :=
  [Some (Activity.Build ActivityTypes.message (Some s))].

(** The answer of the endpoints of Scenario D: ["echo:" + input]. *)
Definition echo (s : pystr) : pystr := lit "echo:" ++ s.

(** Both endpoints echo; the stream of AgentB is a single message. *)
Definition echo_endpoints : Endpoints unit := {|
  ask_question msg := ret (say (echo msg));
  continue_conversation msg _ := ret (echo msg)
|}.

(** [n] applications of [echo]. *)
Fixpoint echoes (n : nat) (s : pystr) : pystr :=
  match n with
  | O => s
  | S n' => echo (echoes n' s)
  end.

(** Every turn carries its 1-based position, the sender that strict
    alternation gives that position, and the default timestamp. *)
Definition shaped (ts : list ConversationTurn.t) : Prop :=
  ∀ (i : nat) t, ts !! i = Some t →
    ConversationTurn.turn_number t = Z.of_nat i + 1 ∧
    ConversationTurn.sender t = alternating_sender i ∧
    ConversationTurn.timestamp t = 0.

(** In a sequence of states of the orchestrator, each list of turns is
    kept as it is at the front of the next one. *)
Definition append_only (l : list AgentToAgentConversation.t) : Prop :=
  ∀ (i : nat) a b, l !! i = Some a → l !! S i = Some b →
    AgentToAgentConversation.turns a `prefix_of` AgentToAgentConversation.turns b.

(** [l] only grows and ends in the object [o]. *)
Definition grows_to (l : list AgentToAgentConversation.t)
    (o : AgentToAgentConversation.t) : Prop :=
  append_only l ∧ last l = Some o.

(** The result of the specification's algorithm, in the code's types. *)
Definition outcome_map {A B} (f : A → B) (o : outcome A) : outcome B :=
  match o with
  | Returned a => Returned (f a)
  | Raised x => Raised x
  | OutOfFuel => OutOfFuel
  end.

Definition in_code_terms {E} (res : outcome (list Spec.TurnRecord) * E)
    : outcome (list ConversationTurn.t) * E :=
  (outcome_map (map Spec.to_turn) (fst res), snd res).

(** What a run of the code yields to its caller and to the endpoints: the
    outcome, and the environment it leaves. *)
Definition observable {E A} (res : outcome A * Run E) : outcome A * E :=
  (fst res, env (snd res)).

(** The calls a conversation that produced the turns [l] has made: one
    per turn after the first, each carrying the message of the turn before
    it. *)
Definition expected_calls (l : list ConversationTurn.t) : list event :=
  imap call_after (removelast l).

(** AgentB answers with white space only; AgentA would answer ["ok"]. *)
Definition blank_endpoints : Endpoints unit := {|
  ask_question _ := ret (say (lit "  "));
  continue_conversation _ _ := ret (lit "ok")
|}.

(** An exception of a failed connection. *)
Definition connection_error : PyExc :=
  Exc (lit "ConnectionError") (lit "connection refused") None.

(** AgentB raises on every call; AgentA would answer ["ok"]. *)
Definition unreachable_endpoints : Endpoints unit := {|
  ask_question _ := raise connection_error;
  continue_conversation _ _ := ret (lit "ok")
|}.

(** The end of a line. *)
Definition newline : pystr := [10%N].

(** The display name of a sender. *)
Definition label (sender : pystr) : pystr :=
  if decide (sender = lit "azure_ai_agent")
  then lit "Azure AI Agent" else lit "Copilot Studio".

(** What one turn contributes to the transcript: the line
    "Turn {n} - {label}: {message}", its end of line, and an empty line. *)
Definition transcript_entry (t : ConversationTurn.t) : pystr :=
  (lit "Turn " ++ str_of_int (ConversationTurn.turn_number t) ++ lit " - "
   ++ label (ConversationTurn.sender t) ++ lit ": " ++ ConversationTurn.message t)
  ++ newline ++ newline.

(** The transcript of a list of turns: the entries, in the order of the
    list. *)
Definition transcript (l : list ConversationTurn.t) : pystr :=
  concat (map transcript_entry l).

(** A state with three turns, the last from a sender that is neither of
    the two agents. *)
Definition three_turns : Run unit :=
  fresh_run
    (AgentToAgentConversation.Build
       [Turn 1 azure_ai_agent (lit "Hello"); Turn 2 copilot_studio (lit "Hi");
        Turn (-3) (lit "observer") []]
       3)
    tt.

(** A turn reduced to the triple the summary lists. *)
Definition turn_dict (t : ConversationTurn.t) : TurnDict.t :=
  TurnDict.Build (ConversationTurn.turn_number t) (ConversationTurn.sender t)
    (ConversationTurn.message t).

(** The states of the orchestrator object that runs of
    [start_conversation] go through, from the first assignment to the state
    the run ends in (by returning, by an exception, or cut off). *)
Definition reachable {E} {EP : Endpoints E} (o : AgentToAgentConversation.t) : Prop :=
  ∃ initial_topic obj (e : E),
    o ∈ snapshots (events (snd (start_conversation initial_topic (fresh_run obj e)))).

(** A stream with every kind of item: [None], an activity that is not a
    message, a message without text, and two messages with text. *)
Definition mixed_stream : list (option Activity.t) :=
  [None;
   Some (Activity.Build ActivityTypes.other (Some (lit "typing")));
   Some (Activity.Build ActivityTypes.message None);
   Some (Activity.Build ActivityTypes.message (Some (lit "  Hi")));
   None;
   Some (Activity.Build ActivityTypes.message (Some (lit " there ")))].

Definition mixed_endpoints : Endpoints unit := {|
  ask_question _ := ret mixed_stream;
  continue_conversation _ _ := ret (lit "ok")
|}.

(** Every turn of [copilot_studio] is free of white space at both ends. *)
Definition answers_stripped (ts : list ConversationTurn.t) : Prop :=
  ∀ t, t ∈ ts → ConversationTurn.sender t = copilot_studio →
    stripped (ConversationTurn.message t).

(** The messages that the history contributes to a request: for each
    entry its content, under the role "assistant" if that is the entry's
    role and "user" otherwise. [None] if an entry lacks one of the keys. *)
Fixpoint chat_prompt (hs : list (gmap pystr PyVal)) : option (list ChatMessage.t) :=
  match hs with
  | [] => Some []
  | d :: rest =>
      match d !! lit "role", d !! lit "content", chat_prompt rest with
      | Some r, Some c, Some p =>
          Some (ChatMessage.Build
                  (if val_eqb r (VStr (lit "assistant")) then lit "assistant" else lit "user")
                  c :: p)
      | _, _, _ => None
      end
  end.

(** The request of [continue_conversation]: the system prompt, the
    history, and the instruction naming the next turn. *)
Definition continuation_request (system_prompt : pystr)
    (prompt : list ChatMessage.t) (turn_number : Z) : list ChatMessage.t :=
  [ChatMessage.Build (lit "system") (VStr system_prompt)] ++ prompt ++
  [ChatMessage.Build (lit "user")
     (VStr (lit "Continue the conversation based on the response above. This is turn "
            ++ str_of_int (turn_number + 1) ++ lit " of the conversation."))].

(** The exception that [continue_conversation] raises when [cause] was
    raised inside its [try] block. *)
Definition continuation_failure (cause : PyExc) : PyExc :=
  Exc (lit "Exception") (lit "Failed to continue conversation: " ++ exc_str cause)
    (Some cause).

(** A remote service that refuses every request. *)
Definition refusing : ChatCompletions unit := {|
  create _ _ := raise connection_error
|}.

(** A remote service that answers every request with "hello". *)
Definition greeting : ChatCompletions unit := {|
  create _ _ := ret [lit "hello"]
|}.

(** A client right after construction: an empty history list at address 0. *)
Definition new_client : AzureAIAgentClient.World unit :=
  AzureAIAgentClient.MkWorld [OList []]
    (AzureAIAgentClient.Build (lit "gpt-4o-mini") (lit "You are a Simulator AI Agent.") 0%nat)
    tt.

(** A client after [start_conversation()] against the greeting service:
    its history holds one entry, the first message "hello". *)
Definition greeted_client : AzureAIAgentClient.World unit :=
  snd (AzureAIAgentClient.start_conversation (CC := greeting) None new_client).

(** A caller that changes an entry of the list it was given:
    [[
      history = client.get_conversation_history()
      history[0]["content"] = "tampered"
    ]] *)
Definition tamper_with_first_entry {R} {CC : ChatCompletions R}
    : M (AzureAIAgentClient.World R) unit :=
  history <- AzureAIAgentClient.get_conversation_history ;;
  first <- list_getitem AzureAIAgentClient.heap history 0 ;;
  dict_setitem AzureAIAgentClient.heap AzureAIAgentClient.set_heap first
    (lit "content") (VStr (lit "tampered")).

(** The orchestrator wired to the client of [azure_ai_agent_client.py]
    and to a Copilot Studio service with state [C]: the environment is the
    pair of the client's world and that state. *)
Definition deployed {R C : Type} {CC : ChatCompletions R}
    (copilot : pystr → M C (list (option Activity.t)))
    : Endpoints (AzureAIAgentClient.World R * C) := {|
  ask_question msg := fun '(w, c) =>
    let '(o, c') := copilot msg c in (o, (w, c'));
  continue_conversation msg n := fun '(w, c) =>
    let '(o, w') := AzureAIAgentClient.continue_conversation msg n w in (o, (w', c))
|}.

(** Invariants of the turn loop, over the state of a run. *)
Section RunPredicates.
Context {E : Type} {EP : Endpoints E}.
Import AgentToAgentConversation.

(** The list of turns is within the cap. *)
Definition within_cap (o : AgentToAgentConversation.t) : Prop :=
  len (turns o) <= MAX_TURNS.

(** At the loop test: the counter mirrors the list, which is not empty
    and within the cap, as it was after every assignment so far. *)
Definition cap_inv (r : Run E) : Prop :=
  current_turn (self r) = len (turns (self r)) ∧
  turns (self r) ≠ [] ∧
  within_cap (self r) ∧
  Forall within_cap (snapshots (events r)).

(** At the loop test: the counter mirrors the list, and the last turn is
    AgentA's (the list has odd length). *)
Definition shape_inv (r : Run E) : Prop :=
  current_turn (self r) = len (turns (self r)) ∧
  Nat.even (length (turns (self r))) = false ∧
  shaped (turns (self r)) ∧
  Forall (fun o => shaped (turns o)) (snapshots (events r)).

(** When the loop is left: the shape holds now and held after every
    assignment. *)
Definition shape_post (r : Run E) : Prop :=
  shaped (turns (self r)) ∧
  Forall (fun o => shaped (turns o)) (snapshots (events r)).

(** At the loop test: the object has only grown, up to its present
    state. *)
Definition grows_inv (r : Run E) : Prop :=
  turns (self r) ≠ [] ∧ grows_to (snapshots (events r)) (self r).

(** At the loop test: the first turn is the topic, and the calls made so
    far are those that the turns after the first account for. *)
Definition threading_inv (initial_topic : pystr) (r : Run E) : Prop :=
  current_turn (self r) = len (turns (self r)) ∧
  Nat.even (length (turns (self r))) = false ∧
  turns (self r) !! 0%nat = Some (Turn 1 azure_ai_agent initial_topic) ∧
  calls (events r) = expected_calls (turns (self r)).

(** When the loop is left normally, the same holds. *)
Definition threading_post (initial_topic : pystr) (o : outcome unit) (r : Run E) : Prop :=
  match o with
  | Returned _ =>
      turns (self r) !! 0%nat = Some (Turn 1 azure_ai_agent initial_topic) ∧
      calls (events r) = expected_calls (turns (self r))
  | _ => True
  end.

(** No turn of AgentB recorded so far is empty. *)
Definition no_empty_answer (ts : list ConversationTurn.t) : Prop :=
  ∀ t, t ∈ ts → ConversationTurn.sender t = copilot_studio →
    ConversationTurn.message t ≠ [].

(** At the loop test. *)
Definition empty_inv (r : Run E) : Prop :=
  turns (self r) ≠ [] ∧ no_empty_answer (turns (self r)).

(** An empty turn of AgentB is the last turn, the call has returned, and
    recording that turn was the last thing that happened. *)
Definition empty_post (o : outcome unit) (r : Run E) : Prop :=
  ∀ (i : nat) t, turns (self r) !! i = Some t →
    ConversationTurn.sender t = copilot_studio →
    ConversationTurn.message t = [] →
    S i = length (turns (self r)) ∧
    o = Returned tt ∧
    last (events r) = Some (Assigned (self r)).

(** At the loop test, and when the loop is left. *)
Definition stripped_inv (r : Run E) : Prop :=
  turns (self r) ≠ [] ∧
  answers_stripped (turns (self r)) ∧
  Forall (fun o => answers_stripped (turns o)) (snapshots (events r)).

Definition stripped_post (r : Run E) : Prop :=
  answers_stripped (turns (self r)) ∧
  Forall (fun o => answers_stripped (turns o)) (snapshots (events r)).

End RunPredicates.

Section ClientPredicates.
Context {R : Type} {CC : ChatCompletions R}.
Import AzureAIAgentClient.

(** The store after [continue_conversation] has added the incoming
    message: a new dict at the end, and its address appended to the
    history list. *)
Definition with_incoming (w : World R) (items : list PyVal)
    (other_agent_response : pystr) (turn_number : Z) : store :=
  <[conversation_history (this w) :=
      OList (items ++ [VRef (length (heap w))])]>
    (heap w ++ [ODict (entry (lit "user") other_agent_response turn_number)]).

End ClientPredicates.

(* ================================================================== *)
(** * Construction of the client and of its settings *)
(* ================================================================== *)

(** [s.startswith(p)] *)
Fixpoint startswith (s p : pystr) : bool :=
  match p, s with
  | [], _ => true
  | c :: p', d :: s' => (c =? d)%N && startswith s' p'
  | _ :: _, [] => false
  end.

(** [s.endswith(p)] *)
Definition endswith (s p : pystr) : bool := startswith (rev s) (rev p).

(** [sub in s] *)
Fixpoint str_contains (s sub : pystr) : bool :=
  startswith s sub ||
  match s with
  | [] => false
  | _ :: s' => str_contains s' sub
  end.

(** [a or b] for two values of type [Optional[str]]: [a] if it is a
    non-empty string, else [b]. *)
Definition opt_or (a b : option pystr) : option pystr :=
  match a with
  | Some s => if str_bool s then a else b
  | None => b
  end.

(** [a or b] where [b] is a string. *)
Definition opt_or_str (a : option pystr) (b : pystr) : pystr :=
  match a with
  | Some s => if str_bool s then s else b
  | None => b
  end.

(** Truth value of an [Optional[str]]. *)
Definition opt_bool (a : option pystr) : bool :=
  match a with
  | Some s => str_bool s
  | None => false
  end.

(** [os.environ]: the environment variables that are set. *)
Abbreviation environ := (gmap pystr pystr).

(** [environ.get(key, default)] *)
Definition environ_get_default (env : environ) (key default : pystr) : pystr :=
  match env !! key with
  | Some v => v
  | None => default
  end.

Definition ValueError (msg : string) : PyExc := Exc (lit "ValueError") (lit msg) None.

Definition missing_api_key : PyExc :=
  ValueError "API key must be provided via parameter or environment variable (GITHUB_TOKEN or AZURE_API_KEY)".

(** The default system prompt of [AzureAIAgentClient.__init__]. *)
Definition client_default_system_prompt : pystr :=
  lit "You are a Simulator AI Agent having a structured conversation with a Product Advisor AI Agent." ++ newline ++
  lit "The Product Advisor will ask questions and provide numbered options (e.g., Option 1, Option 2, etc.)." ++ newline ++
  lit "Your task is to respond by selecting one of the provided options." ++ newline ++
  lit "If the Product Advisor provides a product recommendation, end the conversation immediately and do not respond further." ++ newline ++
  lit "" ++ newline ++
  lit "Sample Interaction: " ++ newline ++
  lit "The other agents question" ++ newline ++
  lit "  What level of cut resistance do you require for the gloves? Options:" ++ newline ++
  lit "    1. Level A (Minimal cut resistance)" ++ newline ++
  lit "    2. Level B (Low cut resistance)" ++ newline ++
  lit "    3. Level C (Moderate cut resistance)" ++ newline ++
  lit "    4. Level D (High cut resistance)" ++ newline ++
  lit "    5. Level E (Maximum cut resistance)" ++ newline ++
  lit "" ++ newline ++
  lit "    " ++ newline ++
  lit "Your response can be :" ++ newline ++
  lit "5" ++ newline ++
  lit "" ++ newline ++
  lit "Do not provide any explanation or commentary. Only respond with the selected option.".

(** [default_system_prompt] of [AzureAIAgentSettings.__init__]. *)
Definition settings_default_system_prompt : pystr :=
  lit "You are an AI agent designed to have conversations with another AI agent (Copilot Studio). " ++ newline ++
  lit "Your role is to ask questions, seek information, and engage in meaningful dialogue about industrial safety equipment and related topics." ++ newline ++
  lit "Be conversational, ask follow-up questions based on responses, and maintain context throughout the conversation." ++ newline ++
  lit "Keep your messages concise and focused.".

(** [AzureAIAgentSettings] of [config.py]. *)
Module AzureAIAgentSettings.
Record t : Type := Build {
  endpoint : pystr;
  model : pystr;
  api_key : option pystr;
  system_prompt : pystr
}.

(** [__init__]: the four attributes are set, then the key is checked. *)
Definition init (endpoint model api_key system_prompt : option pystr)
    (env : environ) : outcome t :=
  let endpoint := opt_or_str endpoint
    (environ_get_default env (lit "AZURE_AI_ENDPOINT") (lit "https://models.github.ai")) in
  let model := opt_or_str model
    (environ_get_default env (lit "AZURE_AI_MODEL") (lit "gpt-4o-mini")) in
  let api_key := opt_or (opt_or api_key (env !! lit "GITHUB_TOKEN"))
                   (env !! lit "AZURE_API_KEY") in
  let system_prompt := opt_or_str system_prompt
    (environ_get_default env (lit "AZURE_AI_SYSTEM_PROMPT") settings_default_system_prompt) in
  if negb (opt_bool api_key) then Raised missing_api_key
  else Returned (Build endpoint model api_key system_prompt).
End AzureAIAgentSettings.

(** The SDK client that [AzureAIAgentClient.__init__] creates, as the
    arguments it is created with. The constructors themselves belong to
    the [openai] package. *)
Inductive SdkClient : Type :=
  | AzureOpenAI (api_version azure_endpoint api_key : pystr)
  | OpenAI (api_key base_url : pystr).

(** A constructed [AzureAIAgentClient]: the attributes that the
    conversation methods use ([core]) and the others. *)
Module ClientObject.
Record t : Type := Build {
  endpoint : pystr;
  api_key : pystr;
  client : SdkClient;
  core : AzureAIAgentClient.t
}.
End ClientObject.

(** [AzureAIAgentClient.__init__], on the store: [self.conversation_history
    = []] creates a list object. *)
Definition AzureAIAgentClient_init (endpoint model api_key system_prompt : option pystr)
    (env : environ) : M store ClientObject.t :=
  let endpoint := opt_or_str endpoint
    (environ_get_default env (lit "AZURE_AI_ENDPOINT") (lit "https://models.github.ai")) in
  let model := opt_or_str model
    (environ_get_default env (lit "AZURE_AI_MODEL") (lit "gpt-4o-mini")) in
  let api_key := opt_or (opt_or api_key (env !! lit "GITHUB_TOKEN"))
                   (env !! lit "AZURE_API_KEY") in
  match api_key with
  | Some key =>
      if negb (str_bool key) then raise missing_api_key
      else
        let is_azure_endpoint := str_contains endpoint (lit "azure.com") in
        let client :=
          if is_azure_endpoint
          then AzureOpenAI (lit "2024-12-01-preview") endpoint key
          else OpenAI key
                 (endpoint ++ (if negb (endswith endpoint (lit "/v1"))
                               then lit "/v1" else lit "")) in
        let system_prompt := opt_or_str system_prompt client_default_system_prompt in
        history <- alloc (fun h : store => h) (fun h _ => h) (OList []) ;;
        ret (ClientObject.Build endpoint key client
               (AzureAIAgentClient.Build model system_prompt history))
  | None => raise missing_api_key
  end.



(** An environment with a token and an endpoint that already ends in
    "/v1". *)
Definition example_environ : environ :=
  <[lit "GITHUB_TOKEN" := lit "ghp_token"]>
    (<[lit "AZURE_AI_ENDPOINT" := lit "https://models.github.ai/v1"]> ∅).

(* ================================================================== *)
(** * The constraint checks of the test *)
(* ================================================================== *)

Definition AssertionError (msg : pystr) : PyExc := Exc (lit "AssertionError") msg None.

(** The four [assert] statements of [test_agent_to_agent_conversation]
    (lines 332-335), on the returned turns and the summary. *)
Definition constraint_validation (turns : list ConversationTurn.t)
    (summary : Summary.t) : outcome unit :=
  if negb (len turns <=? MAX_TURNS) then
    Raised (AssertionError (lit "Conversation exceeded maximum turns ("
                            ++ str_of_int MAX_TURNS ++ lit ")"))
  else if negb (2 <=? len turns) then
    Raised (AssertionError (lit "Conversation should have at least 2 turns"))
  else if negb (1 <=? Summary.azure_ai_turns summary) then
    Raised (AssertionError (lit "Azure AI Agent should participate in conversation"))
  else if negb (1 <=? Summary.copilot_studio_turns summary) then
    Raised (AssertionError (lit "Copilot Studio should participate in conversation"))
  else Returned tt.

(** The first part of [test_agent_to_agent_conversation] (lines 321-335):
    a new orchestrator is created, the conversation is run, the two views
    are taken, and the constraints are checked. *)
Definition conversation_and_constraints {E} {EP : Endpoints E}
    (initial_topic : pystr) : M (Run E) (Summary.t * pystr) :=
  modify (fun r => MkRun AgentToAgentConversation.init (env r) (events r)) ;;
  turns <- start_conversation initial_topic ;;
  summary <- get_conversation_summary ;;
  full_conversation <- get_full_conversation_text ;;
  (fun r => (constraint_validation turns summary, r)) ;;
  ret (summary, full_conversation).

(* ================================================================== *)
(** * More vocabulary *)
(* ================================================================== *)

(** An endpoint pair that never raises. *)
Definition never_raises {E} (EP : Endpoints E) : Prop :=
  (∀ msg e x, fst (ask_question msg e) ≠ Raised x) ∧
  (∀ msg n e x, fst (continue_conversation msg n e) ≠ Raised x).

(** The history entry that the client keeps for a turn of the
    conversation: what Copilot Studio said is stored as "user", what the
    client's model answered as "assistant", each with its turn number. *)
Definition entry_of_turn (t : ConversationTurn.t) : gmap pystr PyVal :=
  AzureAIAgentClient.entry
    (if decide (ConversationTurn.sender t = copilot_studio)
     then lit "user" else lit "assistant")
    (ConversationTurn.message t) (ConversationTurn.turn_number t).

(** The key whose absence stops the building of a request: the first
    entry that lacks "role" or, having it, lacks "content". *)
Fixpoint missing_key (hs : list (gmap pystr PyVal)) : option pystr :=
  match hs with
  | [] => None
  | d :: rest =>
      match d !! lit "role", d !! lit "content" with
      | None, _ => Some (lit "role")
      | Some _, None => Some (lit "content")
      | Some _, Some _ => missing_key rest
      end
  end.

(** The exception that [start_conversation] of the client raises when
    [cause] was raised inside its [try] block. *)
Definition start_failure (cause : PyExc) : PyExc :=
  Exc (lit "Exception") (lit "Failed to start conversation: " ++ exc_str cause)
    (Some cause).

(** The request of the client's [start_conversation]. *)
Definition start_request (system_prompt : pystr) (initial_topic : option pystr)
    : list ChatMessage.t :=
  [ChatMessage.Build (lit "system") (VStr system_prompt);
   ChatMessage.Build (lit "user")
     (VStr (lit "Start a conversation about: "
            ++ opt_or_str initial_topic AzureAIAgentClient.default_topic))].

(** A history entry without the key "role". *)
Definition damaged_entry : gmap pystr PyVal :=
  <[lit "content" := VStr (lit "hello")]> ∅.

(** A client whose history holds one damaged entry. *)
Definition damaged_client : AzureAIAgentClient.World unit :=
  AzureAIAgentClient.MkWorld [OList [VRef 1]; ODict damaged_entry]
    (AzureAIAgentClient.Build (lit "gpt-4o-mini") (lit "You are a Simulator AI Agent.") 0%nat)
    tt.

(** A service that answers with no choice at all. *)
Definition speechless : ChatCompletions unit := {|
  create _ _ := ret []
|}.

(** Further invariants of the turn loop. *)
Section RunPredicatesMore.
Context {E : Type} {EP : Endpoints E}.
Import AgentToAgentConversation.

(** At the loop test: the counter mirrors the list, the last turn is
    AgentA's, and the cap is respected. *)
Definition terminal_inv (r : Run E) : Prop :=
  current_turn (self r) = len (turns (self r)) ∧
  Nat.even (length (turns (self r))) = false ∧
  len (turns (self r)) <= MAX_TURNS.

(** When the loop is left: the counter mirrors the list; and if it is left
    normally, the last turn is AgentB's, and the list is full or that turn
    is empty. *)
Definition terminal_post (o : outcome unit) (r : Run E) : Prop :=
  current_turn (self r) = len (turns (self r)) ∧
  (o = Returned tt →
   ∃ t, last (turns (self r)) = Some t ∧
        ConversationTurn.sender t = copilot_studio ∧
        2 <= len (turns (self r)) <= MAX_TURNS ∧
        (len (turns (self r)) = MAX_TURNS ∨ ConversationTurn.message t = [])).

(** At the loop test: one call has been made per turn after the first,
    and the cap is respected. *)
Definition budget_inv (r : Run E) : Prop :=
  current_turn (self r) = len (turns (self r)) ∧
  turns (self r) ≠ [] ∧
  len (turns (self r)) <= MAX_TURNS ∧
  Z.of_nat (length (calls (events r))) = len (turns (self r)) - 1.

(** When the loop is left: fewer calls than [MAX_TURNS]. *)
Definition budget_post (r : Run E) : Prop :=
  Z.of_nat (length (calls (events r))) <= MAX_TURNS - 1.

End RunPredicatesMore.

Section ClientPredicatesMore.
Context {R : Type} {CC : ChatCompletions R}.
Import AzureAIAgentClient.

(** The store after [continue_conversation] has also recorded the answer:
    a second new dict, and its address appended to the history list. *)
Definition with_reply (w : World R) (items : list PyVal)
    (other_agent_response : pystr) (turn_number : Z) (next_message : pystr) : store :=
  <[conversation_history (this w) :=
      OList ((items ++ [VRef (length (heap w))]) ++ [VRef (S (length (heap w)))])]>
    (with_incoming w items other_agent_response turn_number ++
     [ODict (entry (lit "assistant") next_message (turn_number + 1))]).

End ClientPredicatesMore.

(** A Copilot Studio service that asks one question and is silent from
    then on; its state counts the calls. *)
Definition one_question (msg : pystr) : M nat (list (option Activity.t)) :=
  fun calls_so_far =>
    (Returned (if (calls_so_far =? 0)%nat then say (lit "Which size?") else say (lit "")),
     S calls_so_far).

(** Invariants of the turn loop when it drives the client. *)
Section DeployedPredicates.
Context {R C : Type} {CC : ChatCompletions R}.
Import AgentToAgentConversation.

(** At the loop test: the client's history is the earlier history [hs0]
    followed by the entries of all turns but the first. *)
Definition mirror_inv (hs0 : list (gmap pystr PyVal))
    (r : Run (AzureAIAgentClient.World R * C)) : Prop :=
  current_turn (self r) = len (turns (self r)) ∧
  Nat.even (length (turns (self r))) = false ∧
  len (turns (self r)) <= MAX_TURNS ∧
  AzureAIAgentClient.internal_history (fst (env r)) =
    Some (hs0 ++ map entry_of_turn (tail (turns (self r)))).

(** When the loop is left normally: the same, without the last turn. *)
Definition mirror_post (hs0 : list (gmap pystr PyVal)) (o : outcome unit)
    (r : Run (AzureAIAgentClient.World R * C)) : Prop :=
  o = Returned tt →
  AzureAIAgentClient.internal_history (fst (env r)) =
    Some (hs0 ++ map entry_of_turn (removelast (tail (turns (self r))))).

End DeployedPredicates.

(* ================================================================== *)
(** * The configuration check of [test_azure_ai_agent.py] *)
(* ================================================================== *)

(** The state of the script: the store, the remote service, and what has
    been printed, one item per call of [print]. *)
Module Script.
Record t (R : Type) : Type := Mk {
  heap : store;
  remote : R;
  stdout : list pystr
}.
Arguments Mk {R} heap remote stdout.
Arguments heap {R} t.
Arguments remote {R} t.
Arguments stdout {R} t.
End Script.


Section ScriptSteps.
Context {R : Type} {CC : ChatCompletions R}.






End ScriptSteps.


(* ================================================================== *)
(** * Strings *)
(* ================================================================== *)

Lemma lstrip_head s c : head (lstrip s) = Some c → isspace c = false.
Proof.
  induction s as [|a s IH]; simpl; [discriminate|].
  destruct (isspace a) eqn:Ha; [exact IH|].
  simpl. intros [= <-]. exact Ha.
Qed.

Lemma last_rev {A} (l : list A) : last (rev l) = head l.
Proof. destruct l as [|a l]; [reflexivity|]. simpl. apply last_snoc. Qed.

Lemma head_rev {A} (l : list A) : head (rev l) = last l.
Proof. rewrite <- (rev_involutive l) at 2. symmetry. apply last_rev. Qed.

Lemma lstrip_suffix s : ∃ k, s = k ++ lstrip s ∧ Forall (fun c => isspace c = true) k.
Proof.
  induction s as [|a s (k & Hk & Hsp)]; simpl.
  - exists []. split; [reflexivity|constructor].
  - destruct (isspace a) eqn:Ha.
    + exists (a :: k). split; [simpl; congruence|]. constructor; assumption.
    + exists []. split; [reflexivity|constructor].
Qed.

Lemma lstrip_last s c :
  last s = Some c → isspace c = false → last (lstrip s) = Some c.
Proof.
  intros Hl Hc. destruct (lstrip_suffix s) as (k & Hk & Hsp).
  destruct (lstrip s) as [|b u] eqn:Hu.
  - rewrite app_nil_r in Hk. subst k.
    assert (c ∈ s) as Hin.
    { apply list_elem_of_lookup. exists (pred (length s)).
      rewrite <- last_lookup. exact Hl. }
    rewrite Forall_forall in Hsp.
    specialize (Hsp c Hin). congruence.
  - rewrite Hk in Hl. rewrite last_app in Hl. simpl in Hl.
    destruct (last (b :: u)) eqn:Hb; [congruence|].
    apply last_None in Hb. discriminate.
Qed.

Lemma rstrip_last s c : last (rstrip s) = Some c → isspace c = false.
Proof. unfold rstrip. rewrite last_rev. apply lstrip_head. Qed.

Lemma rstrip_head s c :
  head s = Some c → isspace c = false → head (rstrip s) = Some c.
Proof.
  intros Hh Hc. unfold rstrip. rewrite head_rev.
  apply lstrip_last; [|exact Hc]. rewrite last_rev. exact Hh.
Qed.

Lemma rstrip_head_inv s c : head (rstrip s) = Some c → head s = Some c.
Proof.
  unfold rstrip. rewrite head_rev. intros H.
  destruct (lstrip_suffix (rev s)) as (k & Hk & _).
  assert (last (rev s) = Some c) as H'.
  { rewrite Hk, last_app, H. reflexivity. }
  rewrite last_rev in H'. exact H'.
Qed.

Lemma strip_stripped s : stripped (strip s).
Proof.
  split; intros c H.
  - unfold strip in H. apply rstrip_head_inv in H. eapply lstrip_head, H.
  - eapply rstrip_last, H.
Qed.

Lemma lstrip_id s : (∀ c, head s = Some c → isspace c = false) → lstrip s = s.
Proof.
  destruct s as [|a s]; [reflexivity|]. simpl. intros H.
  rewrite (H a eq_refl). reflexivity.
Qed.

Lemma strip_id s : stripped s → strip s = s.
Proof.
  intros [Hh Hl]. unfold strip. rewrite (lstrip_id s Hh).
  unfold rstrip. rewrite lstrip_id; [apply rev_involutive|].
  intros c. rewrite head_rev. apply Hl.
Qed.

Lemma strip_idemp s : strip (strip s) = strip s.
Proof. apply strip_id, strip_stripped. Qed.


(* ================================================================== *)
(** * One pass through the loop body *)
(* ================================================================== *)

Section LoopBody.
Context {E : Type} {EP : Endpoints E}.
Import AgentToAgentConversation.

(** What [loop_body] does, by the answers of the two endpoints. *)
Lemma loop_body_run (r : Run E) (t : ConversationTurn.t) :
  last (turns (self r)) = Some t →
  loop_body r =
    let o := self r in
    let n1 := current_turn o + 1 in
    let msg := ConversationTurn.message t in
    match ask_question msg (env r) with
    | (Returned acts, e1) =>
        let resp := strip (fold_left receive acts []) in
        let o2 := Build (turns o ++ [Turn n1 copilot_studio resp]) n1 in
        let ev2 := events r ++
          [AskQuestion msg; Assigned (Build (turns o) n1); Assigned o2] in
        if (MAX_TURNS <=? n1) || negb (str_bool resp)
        then (Returned Break, MkRun o2 e1 ev2)
        else if n1 <? MAX_TURNS then
          match continue_conversation resp n1 e1 with
          | (Returned next, e2) =>
              let o4 := Build (turns o2 ++ [Turn (n1 + 1) azure_ai_agent next]) (n1 + 1) in
              (Returned NextIteration,
               MkRun o4 e2 (ev2 ++ [ContinueConversation resp n1;
                                    Assigned (Build (turns o2) (n1 + 1)); Assigned o4]))
          | (Raised x, e2) =>
              (Raised x, MkRun o2 e2 (ev2 ++ [ContinueConversation resp n1]))
          | (OutOfFuel, e2) =>
              (OutOfFuel, MkRun o2 e2 (ev2 ++ [ContinueConversation resp n1]))
          end
        else (Returned NextIteration, MkRun o2 e1 ev2)
    | (Raised x, e1) => (Raised x, MkRun o e1 (events r ++ [AskQuestion msg]))
    | (OutOfFuel, e1) => (OutOfFuel, MkRun o e1 (events r ++ [AskQuestion msg]))
    end.
Proof.
  intros Hlast. destruct r as [[ts n] e evs]. simpl in *.
  unfold loop_body, copilot_studio_turn, last_turn, get_turns,
    call_ask_question, call, bind, gets. simpl. rewrite Hlast. simpl.
  destruct (ask_question (ConversationTurn.message t) e) as [[acts|x|] e1];
    [|reflexivity..].
  simpl. rewrite <- !app_assoc. simpl. change (lit "") with (@nil N).
  destruct ((MAX_TURNS <=? n + 1) || negb (str_bool (strip (fold_left receive acts []))));
    [reflexivity|].
  unfold azure_ai_agent_turn, bind, get_current_turn, gets. simpl.
  destruct (n + 1 <? MAX_TURNS); [|reflexivity].
  unfold call_continue_conversation, call. simpl.
  destruct (continue_conversation _ _ e1) as [[next|x|] e2]; simpl;
    rewrite <- ?app_assoc; reflexivity.
Qed.

(** The loop, one unfolding. *)
Lemma while_loop_unfold (fuel : nat) (r : Run E) :
  while_loop fuel r =
    if current_turn (self r) <? MAX_TURNS then
      match fuel with
      | O => (OutOfFuel, r)
      | S fuel' =>
          match loop_body r with
          | (Returned Break, r') => (Returned tt, r')
          | (Returned NextIteration, r') => while_loop fuel' r'
          | (Raised x, r') => (Raised x, r')
          | (OutOfFuel, r') => (OutOfFuel, r')
          end
      end
    else (Returned tt, r).
Proof.
  destruct fuel; simpl; unfold bind, get_current_turn, gets; simpl;
    destruct (current_turn (self r) <? MAX_TURNS); try reflexivity.
  destruct (loop_body r) as [[[]|x|] r']; reflexivity.
Qed.

(** Proof rule for the loop: [I] holds whenever the loop test is
    evaluated, [Q] when the loop is left, however that happens. *)
Lemma while_loop_rule (I : Run E → Prop) (Q : outcome unit → Run E → Prop) :
  (∀ r, I r → MAX_TURNS <= current_turn (self r) → Q (Returned tt) r) →
  (∀ r, I r → current_turn (self r) < MAX_TURNS → Q OutOfFuel r) →
  (∀ r, I r → current_turn (self r) < MAX_TURNS →
     match loop_body r with
     | (Returned NextIteration, r') => I r'
     | (Returned Break, r') => Q (Returned tt) r'
     | (Raised x, r') => Q (Raised x) r'
     | (OutOfFuel, r') => Q OutOfFuel r'
     end) →
  ∀ fuel r, I r → Q (fst (while_loop fuel r)) (snd (while_loop fuel r)).
Proof.
  intros Hexit Hfuel Hbody. induction fuel as [|fuel IH]; intros r HI;
    rewrite while_loop_unfold;
    destruct (Z.ltb_spec (current_turn (self r)) MAX_TURNS) as [Hlt|Hge];
    try (simpl; apply Hexit; assumption).
  - simpl. apply Hfuel; assumption.
  - specialize (Hbody r HI Hlt).
    destruct (loop_body r) as [[[]|x|] r']; simpl; auto.
Qed.

(** What [start_conversation] does before and after the loop. *)
Lemma start_conversation_run (initial_topic : pystr) (r : Run E) :
  start_conversation initial_topic r =
    let o := self r in
    let r0 := MkRun (Build [Turn 1 azure_ai_agent initial_topic] 1) (env r)
      (events r ++ [Assigned (Build [] (current_turn o)); Assigned (Build [] 0);
                    Assigned (Build [] 1);
                    Assigned (Build [Turn 1 azure_ai_agent initial_topic] 1)]) in
    match while_loop (Z.to_nat MAX_TURNS) r0 with
    | (Returned _, r') => (Returned (turns (self r')), r')
    | (Raised x, r') => (Raised x, r')
    | (OutOfFuel, r') => (OutOfFuel, r')
    end.
Proof.
  destruct r as [[ts n] e evs].
  unfold start_conversation, bind, set_turns, set_current_turn,
    incr_current_turn, turns_append, assign, modify, get_current_turn,
    get_turns, gets, asyncio_sleep, ret.
  cbn -[while_loop Z.to_nat MAX_TURNS Turn]. rewrite <- !app_assoc.
  cbn -[while_loop Z.to_nat MAX_TURNS Turn].
  destruct (while_loop (Z.to_nat MAX_TURNS) _) as [[[]|x|] r']; reflexivity.
Qed.
End LoopBody.

(* ================================================================== *)
(** * Lists, events *)
(* ================================================================== *)

Lemma len_snoc {A} (l : list A) (x : A) : len (l ++ [x]) = len l + 1.
Proof. unfold len. rewrite length_app. simpl. lia. Qed.

Lemma snapshots_app evs evs' : snapshots (evs ++ evs') = snapshots evs ++ snapshots evs'.
Proof. apply omap_app. Qed.

Lemma calls_app evs evs' : calls (evs ++ evs') = calls evs ++ calls evs'.
Proof. apply List.filter_app. Qed.

Lemma last_is_Some {A} (l : list A) : l ≠ [] → ∃ x, last l = Some x.
Proof.
  intros Hne. destruct (last l) eqn:Hl; [eauto|].
  apply last_None in Hl. contradiction.
Qed.

(** Case analysis of one pass through the loop body of run [r], whose last
    turn is known by [Hlast]: seven goals, in the order of
    [loop_body_run]. *)
Ltac loop_body_cases r Hlast :=
  rewrite (loop_body_run r _ Hlast); cbv zeta;
  let acts := fresh "acts" in
  let e1 := fresh "e1" in
  let e2 := fresh "e2" in
  let x := fresh "x" in
  let next := fresh "next" in
  let Hbrk := fresh "Hbrk" in
  let Hlt := fresh "Hlt" in
  destruct (ask_question _ (env r)) as [[acts|x|] e1];
  [ destruct (orb _ _) eqn:Hbrk;
    [ | destruct (Z.ltb_spec (AgentToAgentConversation.current_turn (self r) + 1) MAX_TURNS) as [Hlt|Hlt];
        [ destruct (continue_conversation _ _ e1) as [[next|x|] e2] | ] ]
  | | ].

(* ================================================================== *)
(** * C1: the cap on the number of turns *)
(* ================================================================== *)

Section Cap.
Context {E : Type} {EP : Endpoints E}.
Import AgentToAgentConversation.

Lemma cap_loop (fuel : nat) (r : Run E) :
  cap_inv r →
  within_cap (self (snd (while_loop fuel r))) ∧
  Forall within_cap (snapshots (events (snd (while_loop fuel r)))).
Proof.
  apply (while_loop_rule cap_inv
           (fun _ r' => within_cap (self r') ∧ Forall within_cap (snapshots (events r')))).
  - intros r0 (_ & _ & H1 & H2) _. auto.
  - intros r0 (_ & _ & H1 & H2) _. auto.
  - intros r0 (Hcur & Hne & Hcap & Hsn) Hlt.
    destruct (last_is_Some _ Hne) as [t Hlast].
    unfold cap_inv, within_cap in *.
    loop_body_cases r0 Hlast; simpl;
      rewrite ?snapshots_app, ?Forall_app; simpl;
      rewrite ?len_snoc; repeat split;
      repeat (apply Forall_cons; split); try apply Forall_nil;
      simpl; rewrite ?len_snoc; try assumption; try lia;
      try (intros Hnil; apply app_eq_nil in Hnil; destruct Hnil; discriminate).
Qed.
End Cap.

Section CapTheorem.
Context {E : Type} {EP : Endpoints E}.
Import AgentToAgentConversation.

(** The state a run ends in is the one the loop ends in. *)
Lemma start_conversation_final (initial_topic : pystr) (r : Run E) :
  snd (start_conversation initial_topic r) =
  snd (while_loop (Z.to_nat MAX_TURNS)
         (MkRun (Build [Turn 1 azure_ai_agent initial_topic] 1) (env r)
            (events r ++ [Assigned (Build [] (current_turn (self r)));
                          Assigned (Build [] 0); Assigned (Build [] 1);
                          Assigned (Build [Turn 1 azure_ai_agent initial_topic] 1)]))).
Proof.
  rewrite start_conversation_run. cbv zeta.
  destruct (while_loop _ _) as [[[]|x|] r']; reflexivity.
Qed.

(** C1. In every run of [start_conversation], whatever the endpoints
    answer (text, an exception, or nothing at all): after each assignment
    to the orchestrator object the list [turns] has at most [MAX_TURNS]
    elements, and so has the list in the state the run ends in.
    [MAX_TURNS] is 20. *)
Theorem turns_never_exceed_MAX_TURNS (initial_topic : pystr)
    (obj : AgentToAgentConversation.t) (e : E) :
  let r := snd (start_conversation initial_topic (fresh_run obj e)) in
  MAX_TURNS = 20 ∧
  Forall (fun o => len (turns o) <= MAX_TURNS) (snapshots (events r)) ∧
  len (turns (self r)) <= MAX_TURNS.
Proof.
  cbv zeta. split; [reflexivity|].
  rewrite start_conversation_final.
  apply and_comm, cap_loop. unfold cap_inv, within_cap. simpl.
  repeat split; try discriminate; unfold MAX_TURNS, len; simpl; try lia.
  repeat (apply Forall_cons; split); try apply Forall_nil; simpl; lia.
Qed.
End CapTheorem.


(* ================================================================== *)
(** * The shape of the turn list *)
(* ================================================================== *)

Lemma shaped_nil : shaped [].
Proof. intros i t H. destruct i; discriminate. Qed.

Lemma shaped_snoc ts n s m :
  shaped ts → n = len ts + 1 → s = alternating_sender (length ts) →
  shaped (ts ++ [Turn n s m]).
Proof.
  intros Hts Hn Hs i t Hi. apply lookup_snoc_Some in Hi as [[_ Hi]|[-> <-]].
  - exact (Hts i t Hi).
  - simpl. unfold len in Hn. auto.
Qed.

Lemma length_snoc {A} (l : list A) (x : A) : length (l ++ [x]) = S (length l).
Proof. rewrite length_app. simpl. lia. Qed.

Section Shape.
Context {E : Type} {EP : Endpoints E}.
Import AgentToAgentConversation.

Lemma even_false_nonempty {A} (l : list A) : Nat.even (length l) = false → l ≠ [].
Proof. intros H ->. discriminate. Qed.

Lemma shape_loop (fuel : nat) (r : Run E) :
  shape_inv r → shape_post (snd (while_loop fuel r)).
Proof.
  apply (while_loop_rule shape_inv (fun _ r' => shape_post r')).
  - intros r0 (_ & _ & H1 & H2) _. split; assumption.
  - intros r0 (_ & _ & H1 & H2) _. split; assumption.
  - intros r0 (Hcur & Hodd & Hsh & Hsn) Hlt.
    destruct (last_is_Some _ (even_false_nonempty _ Hodd)) as [t Hlast].
    assert (∀ m, shaped (turns (self r0) ++
              [Turn (current_turn (self r0) + 1) copilot_studio m])) as Hb.
    { intros m. apply shaped_snoc; [assumption|lia|].
      unfold alternating_sender. rewrite Hodd. reflexivity. }
    assert (∀ m m', shaped ((turns (self r0) ++
              [Turn (current_turn (self r0) + 1) copilot_studio m]) ++
              [Turn (current_turn (self r0) + 1 + 1) azure_ai_agent m'])) as Ha.
    { intros m m'. apply shaped_snoc; [apply Hb|rewrite len_snoc; lia|].
      unfold alternating_sender.
      rewrite length_snoc, Nat.even_succ, <- Nat.negb_even, Hodd. reflexivity. }
    unfold shape_inv, shape_post.
    loop_body_cases r0 Hlast; simpl;
      rewrite ?snapshots_app, ?Forall_app; simpl;
      repeat first [ assumption | apply Hb | apply Ha | apply Forall_nil
                   | apply Forall_cons; split | split ];
      rewrite ?len_snoc, ?length_snoc; try lia.
    simpl. exact Hodd.
Qed.

(** The shape holds in the state a run ends in and after each of its
    assignments. *)
Lemma start_conversation_shaped (initial_topic : pystr)
    (obj : AgentToAgentConversation.t) (e : E) :
  shape_post (snd (start_conversation initial_topic (fresh_run obj e))).
Proof.
  rewrite start_conversation_final. apply shape_loop.
  assert (shaped [Turn 1 azure_ai_agent initial_topic]) as H1.
  { apply (shaped_snoc [] 1 azure_ai_agent initial_topic shaped_nil); reflexivity. }
  unfold shape_inv. simpl.
  repeat first [ exact H1 | exact shaped_nil | reflexivity | apply Forall_nil
               | apply Forall_cons; split | split ].
Qed.

(** A returned list is the list of the final state. *)
Lemma start_conversation_returned (initial_topic : pystr) (r : Run E) l :
  fst (start_conversation initial_topic r) = Returned l →
  l = turns (self (snd (start_conversation initial_topic r))).
Proof.
  rewrite start_conversation_run. cbv zeta.
  destruct (while_loop _ _) as [[[]|x|] r']; simpl; congruence.
Qed.
End Shape.

(* ================================================================== *)
(** * C2: turn numbers, and a list that only grows *)
(* ================================================================== *)

Lemma grows_to_snoc l o o' :
  grows_to l o →
  AgentToAgentConversation.turns o `prefix_of` AgentToAgentConversation.turns o' →
  grows_to (l ++ [o']) o'.
Proof.
  intros [Hl Hlast] Hpre. split; [|apply last_snoc].
  intros i a b Ha Hb.
  apply lookup_snoc_Some in Hb as [[Hlt Hb]|[Hi <-]].
  - rewrite lookup_app_l in Ha by lia. exact (Hl i a b Ha Hb).
  - rewrite lookup_app_l in Ha by lia.
    rewrite last_lookup, <- Hi in Hlast. simpl in Hlast.
    rewrite Ha in Hlast. injection Hlast as ->. exact Hpre.
Qed.

Lemma grows_to_snoc2 l o o1 o2 :
  grows_to l o →
  AgentToAgentConversation.turns o `prefix_of` AgentToAgentConversation.turns o1 →
  AgentToAgentConversation.turns o1 `prefix_of` AgentToAgentConversation.turns o2 →
  grows_to (l ++ [o1; o2]) o2.
Proof.
  intros H H1 H2. change (l ++ [o1; o2]) with (l ++ [o1] ++ [o2]).
  rewrite app_assoc. eauto using grows_to_snoc.
Qed.

Lemma append_only_singleton o : grows_to [o] o.
Proof.
  split; [|reflexivity]. intros i a b Ha Hb. destruct i; discriminate.
Qed.

Section Contiguous.
Context {E : Type} {EP : Endpoints E}.
Import AgentToAgentConversation.

Lemma grows_loop (fuel : nat) (r : Run E) :
  grows_inv r →
  grows_to (snapshots (events (snd (while_loop fuel r))))
    (self (snd (while_loop fuel r))).
Proof.
  apply (while_loop_rule grows_inv
           (fun _ r' => grows_to (snapshots (events r')) (self r'))).
  - intros r0 [_ H] _. exact H.
  - intros r0 [_ H] _. exact H.
  - intros r0 [Hne Hg] Hlt.
    destruct (last_is_Some _ Hne) as [t Hlast].
    unfold grows_inv.
    loop_body_cases r0 Hlast; simpl;
      rewrite ?snapshots_app; simpl; rewrite ?app_nil_r;
      try assumption;
      repeat match goal with
      | |- _ ∧ _ => split
      | |- _ ++ [_] ≠ [] =>
          let H := fresh in
          intros H; apply app_eq_nil in H; destruct H; discriminate
      | |- grows_to ((_ ++ [_; _]) ++ [_; _]) _ =>
          eapply grows_to_snoc2; simpl
      | |- grows_to (_ ++ [_; _]) _ =>
          eapply grows_to_snoc2; [eassumption| |]; simpl
      | |- ?l `prefix_of` ?l => reflexivity
      | |- ?l `prefix_of` ?l ++ _ => apply prefix_app_r; reflexivity
      | |- _ `prefix_of` _ => progress simpl
      end.
Qed.

(** From its first assignment on, the object only grows, up to the state
    the run ends in. *)
Lemma start_conversation_grows (initial_topic : pystr)
    (obj : AgentToAgentConversation.t) (e : E) :
  let res := start_conversation initial_topic (fresh_run obj e) in
  grows_to (snapshots (events (snd res))) (self (snd res)).
Proof.
  cbv zeta. rewrite start_conversation_final. apply grows_loop.
  split; [discriminate|]. simpl.
  change [?a; ?b; ?c; ?d] with ([a] ++ [b; c] ++ [d]).
  rewrite app_assoc.
  apply grows_to_snoc with (o := Build [] 1); [|simpl; apply prefix_nil].
  eapply grows_to_snoc2; [apply append_only_singleton|reflexivity|reflexivity].
Qed.

(** C2. The list a run of [start_conversation] returns is the list of the
    state the run ends in, and its turn numbers are 1, 2, 3, ... without a
    gap: the turn at 0-based index [i] has number [i + 1]. During the run
    the list only grows: from the first assignment [self.turns = []] on,
    the list after an assignment is the list before it, unchanged, with at
    most new records added behind. *)
Theorem turn_numbers_contiguous_and_append_only (initial_topic : pystr)
    (obj : AgentToAgentConversation.t) (e : E) :
  let res := start_conversation initial_topic (fresh_run obj e) in
  (∀ l, fst res = Returned l →
     l = turns (self (snd res)) ∧
     ∀ (i : nat) t, l !! i = Some t →
       ConversationTurn.turn_number t = Z.of_nat i + 1) ∧
  append_only (snapshots (events (snd res))) ∧
  last (snapshots (events (snd res))) = Some (self (snd res)).
Proof.
  cbv zeta. split.
  - intros l Hl. apply start_conversation_returned in Hl.
    split; [exact Hl|]. intros i t Hi.
    destruct (start_conversation_shaped initial_topic obj e) as [Hsh _].
    rewrite Hl in Hi. apply (Hsh i t Hi).
  - apply start_conversation_grows.
Qed.
End Contiguous.

(** The theorem applied to the run of Scenario D: its fifth turn has
    number 5. *)
Lemma turn_numbers_contiguous_witness :
  ∃ l t,
    fst (start_conversation (EP := echo_endpoints) (lit "Hello")
           (fresh_run AgentToAgentConversation.init tt)) = Returned l ∧
    l !! 4%nat = Some t ∧
    ConversationTurn.turn_number t = 5.
Proof.
  eexists _, _. split; [vm_compute; reflexivity|].
  split; [vm_compute; reflexivity|].
  refine (proj2 (proj1 (turn_numbers_contiguous_and_append_only
            (EP := echo_endpoints) (lit "Hello") AgentToAgentConversation.init tt)
            _ _) 4%nat _ _); vm_compute; reflexivity.
Defined.

(* ================================================================== *)
(** * C3: the loop against the pseudocode of the specification *)
(* ================================================================== *)

(** The [async for] accumulates the texts of the message activities. *)
Lemma receive_fragment_text acc a : receive acc a = acc ++ Spec.fragment_text a.
Proof.
  destruct a as [[[] [[|c s]|]]|]; simpl; rewrite ?app_nil_r; reflexivity.
Qed.

Lemma fold_receive acts acc :
  fold_left receive acts acc = acc ++ concat (map Spec.fragment_text acts).
Proof.
  revert acc. induction acts as [|a acts IH]; intros acc; simpl.
  - rewrite app_nil_r. reflexivity.
  - rewrite IH, receive_fragment_text, <- app_assoc. reflexivity.
Qed.

Lemma negb_str_bool s : negb (str_bool s) = bool_decide (s = []).
Proof. destruct s; reflexivity. Qed.

Lemma last_removelast {A} (l : list A) x : last l = Some x → l = removelast l ++ [x].
Proof.
  intros H. destruct (decide (l = [])) as [->|Hne]; [discriminate|].
  destruct (exists_last Hne) as (l' & y & ->).
  rewrite last_snoc in H. injection H as ->.
  rewrite removelast_last. reflexivity.
Qed.

Lemma last_map {A B} (f : A → B) (l : list A) : last (map f l) = f <$> last l.
Proof. apply fmap_last. Qed.

Section Refinement.
Context {E : Type} {EP : Endpoints E}.
Import AgentToAgentConversation.

Lemma spec_loop_unfold (fuel : nat) (ts : list Spec.TurnRecord) (cur : Z) (e : E) :
  Spec.loop (S fuel) ts cur e =
    if cur <? MAX_TURNS then
      match ask_question (Spec.last_message ts) e with
      | (Returned acts, e1) =>
          let resp := strip (concat (map Spec.fragment_text acts)) in
          let ts2 := ts ++ [Spec.TurnRecord_ (cur + 1) Spec.AgentB resp] in
          if (MAX_TURNS <=? cur + 1) || bool_decide (resp = [])
          then (Returned ts2, e1)
          else if cur + 1 <? MAX_TURNS then
            match continue_conversation resp (cur + 1) e1 with
            | (Returned next, e2) =>
                Spec.loop fuel
                  (ts2 ++ [Spec.TurnRecord_ (cur + 1 + 1) Spec.AgentA next])
                  (cur + 1 + 1) e2
            | (Raised x, e2) => (Raised x, e2)
            | (OutOfFuel, e2) => (OutOfFuel, e2)
            end
          else Spec.loop fuel ts2 (cur + 1) e1
      | (Raised x, e1) => (Raised x, e1)
      | (OutOfFuel, e1) => (OutOfFuel, e1)
      end
    else (Returned ts, e).
Proof.
  cbn [Spec.loop]. destruct (cur <? MAX_TURNS); [|reflexivity].
  unfold bind, Spec.respond_or_stream, Spec.respond, bind, ret.
  destruct (ask_question (Spec.last_message ts) e) as [[acts|x|] e1];
    [|reflexivity..].
  destruct (orb _ _); [reflexivity|].
  destruct (cur + 1 <? MAX_TURNS); [|reflexivity].
  destruct (continue_conversation _ _ e1) as [[next|x|] e2]; reflexivity.
Qed.

(** The loop of the code and the loop of the pseudocode, started from
    matching states with the same budget, end alike. *)
Lemma while_loop_refines (fuel : nat) :
  ∀ (r : Run E) (ts : list Spec.TurnRecord),
    turns (self r) = map Spec.to_turn ts →
    ts ≠ [] →
    (outcome_map (fun _ => turns (self (snd (while_loop fuel r))))
       (fst (while_loop fuel r)),
     env (snd (while_loop fuel r))) =
    in_code_terms (Spec.loop fuel ts (current_turn (self r)) (env r)).
Proof.
  induction fuel as [|fuel IH]; intros r ts Hts Hne.
  - rewrite while_loop_unfold. cbn [Spec.loop].
    destruct (current_turn (self r) <? MAX_TURNS); simpl; rewrite ?Hts; reflexivity.
  - rewrite while_loop_unfold, spec_loop_unfold. cbv zeta.
    destruct (Z.ltb_spec (current_turn (self r)) MAX_TURNS) as [Hlt|Hge];
      [|simpl; rewrite Hts; reflexivity].
    destruct (last_is_Some _ Hne) as [t Hlast].
    assert (last (turns (self r)) = Some (Spec.to_turn t)) as Hlast'.
    { rewrite Hts, last_map, Hlast. reflexivity. }
    assert (Spec.last_message ts = ConversationTurn.message (Spec.to_turn t)) as ->.
    { unfold Spec.last_message. rewrite Hlast. reflexivity. }
    rewrite (loop_body_run r _ Hlast'). cbv zeta.
    destruct (ask_question _ (env r)) as [[acts|x|] e1]; [|reflexivity..].
    rewrite fold_receive, app_nil_l, negb_str_bool.
    set (resp := strip (concat (map Spec.fragment_text acts))).
    destruct (orb _ _).
    { simpl. unfold in_code_terms. simpl. rewrite Hts, map_app. reflexivity. }
    destruct (current_turn (self r) + 1 <? MAX_TURNS).
    + destruct (continue_conversation resp _ e1) as [[next|x|] e2];
        [|reflexivity..].
      match goal with |- context [while_loop fuel ?r'] =>
        rewrite (IH r' (ts ++ [Spec.TurnRecord_ (current_turn (self r) + 1) Spec.AgentB resp]
                           ++ [Spec.TurnRecord_ (current_turn (self r) + 1 + 1) Spec.AgentA next]))
      end.
      * simpl. rewrite <- app_assoc. reflexivity.
      * simpl. rewrite Hts, !map_app, <- app_assoc. reflexivity.
      * intros H. apply app_eq_nil in H. destruct H; discriminate.
    + match goal with |- context [while_loop fuel ?r'] =>
        rewrite (IH r' (ts ++ [Spec.TurnRecord_ (current_turn (self r) + 1) Spec.AgentB resp]))
      end.
      * reflexivity.
      * simpl. rewrite Hts, map_app. reflexivity.
      * intros H. apply app_eq_nil in H. destruct H; discriminate.
Qed.

(** [start_conversation] and the algorithm of the specification are the
    same function of the topic and the environment. *)
Lemma start_conversation_refines (initial_topic : pystr) (r : Run E) :
  observable (start_conversation initial_topic r) =
  in_code_terms (Spec.start initial_topic (env r)).
Proof.
  rewrite start_conversation_run. cbv zeta. unfold Spec.start.
  match goal with |- context [while_loop ?f ?r'] =>
    pose proof (while_loop_refines f r' [Spec.TurnRecord_ 1 Spec.AgentA initial_topic]
                  eq_refl ltac:(discriminate)) as H
  end.
  refine (eq_trans _ H). unfold observable.
  destruct (while_loop _ _) as [[[]|x|] r']; reflexivity.
Qed.
End Refinement.

Section Threading.
Context {E : Type} {EP : Endpoints E}.
Import AgentToAgentConversation.

Lemma expected_calls_snoc l t :
  expected_calls (l ++ [t]) = imap call_after l.
Proof. unfold expected_calls. rewrite removelast_last. reflexivity. Qed.

Lemma imap_snoc {A B} (f : nat → A → B) (l : list A) (x : A) :
  imap f (l ++ [x]) = imap f l ++ [f (length l) x].
Proof. rewrite imap_app. simpl. rewrite Nat.add_0_r. reflexivity. Qed.

Lemma threading_loop (initial_topic : pystr) (fuel : nat) (r : Run E) :
  threading_inv initial_topic r →
  threading_post initial_topic (fst (while_loop fuel r)) (snd (while_loop fuel r)).
Proof.
  apply (while_loop_rule (threading_inv initial_topic) (threading_post initial_topic)).
  - intros r0 (_ & _ & H1 & H2) _. split; assumption.
  - intros r0 _ _. exact I.
  - intros r0 (Hcur & Hodd & Hhd & Hcalls) Hlt.
    destruct (last_is_Some _ (even_false_nonempty _ Hodd)) as [t Hlast].
    assert (calls (events r0) ++ [AskQuestion (ConversationTurn.message t)]
            = imap call_after (turns (self r0))) as Hask.
    { rewrite (last_removelast _ _ Hlast) at 1. rewrite imap_snoc, Hcalls.
      unfold expected_calls, call_after at 3.
      assert (Nat.even (length (removelast (turns (self r0)))) = true) as ->;
        [|reflexivity].
      pose proof (f_equal length (last_removelast _ _ Hlast)) as Hlen.
      rewrite length_snoc in Hlen. rewrite Hlen, Nat.even_succ in Hodd.
      rewrite <- Nat.negb_odd, Hodd. reflexivity. }
    assert (∀ m, (turns (self r0) ++ [m]) !! 0%nat
                 = Some (Turn 1 azure_ai_agent initial_topic)) as Hhd'.
    { intros m. rewrite lookup_app_l; [exact Hhd|].
      apply lookup_lt_Some in Hhd. exact Hhd. }
    unfold threading_inv, threading_post.
    loop_body_cases r0 Hlast; simpl; try exact I;
      rewrite ?calls_app; simpl; rewrite ?app_nil_r, ?expected_calls_snoc;
      rewrite ?len_snoc, ?length_snoc; repeat split;
      try assumption; try lia; try apply Hhd'.
    + rewrite lookup_app_l; [apply Hhd'|]. rewrite length_snoc. lia.
    + rewrite imap_snoc, <- Hask. unfold call_after.
      rewrite Hodd. simpl. unfold len in Hcur. rewrite Hcur. reflexivity.
Qed.

(** The loop cannot use up its budget: a pass that goes on to the next
    iteration has raised the counter, which the test bounds by
    [MAX_TURNS]. *)
Lemma while_loop_total (fuel : nat) :
  responsive EP →
  ∀ r : Run E,
    turns (self r) ≠ [] →
    MAX_TURNS - current_turn (self r) <= Z.of_nat fuel →
    fst (while_loop fuel r) ≠ OutOfFuel.
Proof.
  intros [HB HA]. induction fuel as [|fuel IH]; intros r Hne Hfuel;
    rewrite while_loop_unfold;
    destruct (Z.ltb_spec (current_turn (self r)) MAX_TURNS) as [Hlt|Hge];
    try discriminate; [lia|].
  destruct (last_is_Some _ Hne) as [t Hlast].
  rewrite (loop_body_run r _ Hlast). cbv zeta.
  pose proof (HB (ConversationTurn.message t) (env r)) as HB'.
  destruct (ask_question _ (env r)) as [[acts|x|] e1];
    [|discriminate|contradiction].
  destruct (orb _ _); [discriminate|].
  destruct (current_turn (self r) + 1 <? MAX_TURNS).
  - match goal with |- context [continue_conversation ?m ?n e1] =>
      pose proof (HA m n e1) as HA' end.
    destruct (continue_conversation _ _ e1) as [[next|x|] e2];
      [|discriminate|contradiction].
    apply IH; simpl; [|lia].
    intros H. apply app_eq_nil in H. destruct H; discriminate.
  - apply IH; simpl; [|lia].
    intros H. apply app_eq_nil in H. destruct H; discriminate.
Qed.

Lemma start_conversation_total (initial_topic : pystr) (r : Run E) :
  responsive EP → fst (start_conversation initial_topic r) ≠ OutOfFuel.
Proof.
  intros Hresp. rewrite start_conversation_run. cbv zeta.
  match goal with |- context [while_loop ?f ?r'] =>
    pose proof (while_loop_total f Hresp r') as H
  end.
  destruct (while_loop _ _) as [[[]|x|] r']; try discriminate.
  exfalso. apply H; simpl; [discriminate|lia|reflexivity].
Qed.

Lemma start_conversation_threading (initial_topic : pystr) (r : Run E) l :
  events r = [] →
  fst (start_conversation initial_topic r) = Returned l →
  l !! 0%nat = Some (Turn 1 azure_ai_agent initial_topic) ∧
  calls (events (snd (start_conversation initial_topic r))) = expected_calls l.
Proof.
  intros Hev. rewrite start_conversation_run. cbv zeta.
  match goal with |- context [while_loop ?f ?r'] =>
    pose proof (threading_loop initial_topic f r') as H
  end.
  destruct (while_loop _ _) as [[[]|x|] r']; simpl; try discriminate.
  intros [= <-]. apply H. unfold threading_inv. simpl. rewrite Hev.
  repeat split.
Qed.
End Threading.

Lemma echo_endpoints_responsive : responsive echo_endpoints.
Proof. split; intros; discriminate. Qed.

(** C3. For any pair of endpoints (any environment type, any behaviour):
    - [start_conversation] yields the same outcome and leaves the same
      environment as the algorithm of the specification, [Spec.start];
    - if the endpoints always answer, the run ends (it returns or raises);
    - in a returned list the first turn is the topic itself, attributed to
      AgentA; senders alternate AgentA, AgentB, AgentA, ...; and the calls
      made are exactly one per later turn, to AgentB for the turns at odd
      positions and to AgentA for the others, each with the message of the
      turn before it. So no call stands behind turn 1.
    With the echo endpoints and topic "Hello" the run returns 20 turns,
    the turn at position [i] holding "Hello" behind [i] copies of "echo:". *)
Theorem start_conversation_refines_spec_algorithm :
  (∀ (E : Type) (EP : Endpoints E) (initial_topic : pystr)
     (obj : AgentToAgentConversation.t) (e : E),
     let res := start_conversation initial_topic (fresh_run obj e) in
     observable res = in_code_terms (Spec.start initial_topic e) ∧
     (responsive EP → fst res ≠ OutOfFuel) ∧
     ∀ l, fst res = Returned l →
       l !! 0%nat = Some (Turn 1 azure_ai_agent initial_topic) ∧
       (∀ (i : nat) t, l !! i = Some t →
          ConversationTurn.sender t = alternating_sender i) ∧
       calls (events (snd res)) = expected_calls l) ∧
  fst (start_conversation (EP := echo_endpoints) (lit "Hello")
         (fresh_run AgentToAgentConversation.init tt)) =
    Returned (map (fun i : nat =>
                     Turn (Z.of_nat i + 1) (alternating_sender i)
                       (echoes i (lit "Hello")))
                (seq 0 20)).
Proof.
  split; [|vm_compute; reflexivity].
  intros E EP initial_topic obj e. cbv zeta. split; [|split].
  - apply (start_conversation_refines initial_topic (fresh_run obj e)).
  - apply start_conversation_total.
  - intros l Hl.
    destruct (start_conversation_threading initial_topic (fresh_run obj e) l
                eq_refl Hl) as [Hhd Hcalls].
    split; [exact Hhd|]. split; [|exact Hcalls].
    intros i t Hi. apply start_conversation_returned in Hl. subst l.
    destruct (start_conversation_shaped initial_topic obj e) as [Hsh _].
    apply (Hsh i t Hi).
Qed.

(** The theorem applied to the echo endpoints, which always answer. *)
Lemma start_conversation_refines_spec_algorithm_witness :
  let res := start_conversation (EP := echo_endpoints) (lit "Hello")
               (fresh_run AgentToAgentConversation.init tt) in
  fst res ≠ OutOfFuel ∧
  ∃ l, fst res = Returned l ∧
       l !! 0%nat = Some (Turn 1 azure_ai_agent (lit "Hello")) ∧
       calls (events (snd res)) = expected_calls l.
Proof.
  cbv zeta.
  pose proof (proj1 start_conversation_refines_spec_algorithm unit echo_endpoints
                (lit "Hello") AgentToAgentConversation.init tt) as H.
  cbv zeta in H. destruct H as (_ & Htotal & Hret).
  split; [exact (Htotal echo_endpoints_responsive)|].
  eexists. split; [vm_compute; reflexivity|].
  match goal with |- ?l !! _ = _ ∧ _ =>
    destruct (Hret l ltac:(vm_compute; reflexivity)) as (H0 & _ & Hc)
  end.
  split; [exact H0|exact Hc].
Defined.

(* ================================================================== *)
(** * C4: an empty answer of AgentB ends the conversation *)
(* ================================================================== *)

Lemma senders_differ : azure_ai_agent ≠ copilot_studio.
Proof. discriminate. Qed.

Section EmptyAnswer.
Context {E : Type} {EP : Endpoints E}.
Import AgentToAgentConversation.

Lemma no_empty_answer_post (o : outcome unit) (r : Run E) :
  no_empty_answer (turns (self r)) → empty_post o r.
Proof.
  intros H i t Hi Hs Hm. exfalso. apply (H t); [|assumption..].
  apply list_elem_of_lookup. eauto.
Qed.

Lemma no_empty_answer_snoc ts n s m :
  no_empty_answer ts → (s = copilot_studio → m ≠ []) →
  no_empty_answer (ts ++ [Turn n s m]).
Proof.
  intros Hts Hm t Ht. apply elem_of_app in Ht as [Ht|Ht].
  - apply Hts, Ht.
  - apply list_elem_of_singleton in Ht as ->. exact Hm.
Qed.

Lemma empty_loop (fuel : nat) (r : Run E) :
  empty_inv r →
  empty_post (fst (while_loop fuel r)) (snd (while_loop fuel r)).
Proof.
  apply (while_loop_rule empty_inv empty_post).
  - intros r0 [_ H] _. apply no_empty_answer_post, H.
  - intros r0 [_ H] _. apply no_empty_answer_post, H.
  - intros r0 [Hne Hno] Hlt.
    destruct (last_is_Some _ Hne) as [t Hlast].
    assert (∀ (o : outcome unit) (e1 : E) evs (acts : list (option Activity.t)),
              str_bool (strip (fold_left receive acts [])) = true →
              empty_post o (MkRun
                (Build (turns (self r0) ++
                   [Turn (current_turn (self r0) + 1) copilot_studio
                      (strip (fold_left receive acts []))])
                   (current_turn (self r0) + 1)) e1 evs)) as Hraised.
    { intros o e1 evs acts Hb. apply no_empty_answer_post. simpl.
      apply no_empty_answer_snoc; [exact Hno|]. intros _ H.
      rewrite H in Hb. discriminate. }
    loop_body_cases r0 Hlast.
    + (* the loop is left after the turn of AgentB *)
      intros i u Hi Hs Hm. simpl in Hi.
      apply lookup_snoc_Some in Hi as [[_ Hi]|[-> <-]].
      * exfalso. apply (Hno u); [|assumption..].
        apply list_elem_of_lookup. eauto.
      * simpl. rewrite length_snoc. repeat split.
        rewrite last_app. reflexivity.
    + (* AgentA has answered: the turn of AgentB was not empty *)
      apply orb_false_iff in Hbrk as [_ Hbrk].
      apply negb_false_iff in Hbrk.
      split; simpl.
      * intros H. apply app_eq_nil in H. destruct H; discriminate.
      * apply no_empty_answer_snoc; [apply no_empty_answer_snoc|].
        -- exact Hno.
        -- intros _ H. rewrite H in Hbrk. discriminate.
        -- intros H. destruct (senders_differ H).
    + apply orb_false_iff in Hbrk as [_ Hbrk]. apply negb_false_iff in Hbrk.
      apply Hraised, Hbrk.
    + apply orb_false_iff in Hbrk as [_ Hbrk]. apply negb_false_iff in Hbrk.
      apply Hraised, Hbrk.
    + apply orb_false_iff in Hbrk as [Hbrk _]. apply Z.leb_gt in Hbrk. lia.
    + apply no_empty_answer_post, Hno.
    + apply no_empty_answer_post, Hno.
Qed.

(** The first pass through the loop when AgentB's first answer is empty
    after trimming. *)
Lemma empty_first_answer (initial_topic : pystr) (r : Run E) acts e' :
  ask_question initial_topic (env r) = (Returned acts, e') →
  strip (concat (map Spec.fragment_text acts)) = [] →
  fst (start_conversation initial_topic r) =
    Returned [Turn 1 azure_ai_agent initial_topic; Turn 2 copilot_studio []].
Proof.
  intros Hask Hempty. rewrite start_conversation_run. cbv zeta.
  change (Z.to_nat MAX_TURNS) with 20%nat.
  rewrite while_loop_unfold.
  match goal with |- context [loop_body ?r0] =>
    rewrite (loop_body_run r0 (Turn 1 azure_ai_agent initial_topic) eq_refl)
  end.
  cbv zeta. simpl env. simpl ConversationTurn.message. rewrite Hask.
  rewrite fold_receive, app_nil_l, Hempty. reflexivity.
Qed.
End EmptyAnswer.

(** C4. In the state any run of [start_conversation] ends in: a turn of
    [copilot_studio] with the empty message is the last turn of the list,
    the call has returned that list, and the assignment that recorded the
    turn is the last event of the run, so that no endpoint was called after
    it. In particular, if the first answer of AgentB is empty once
    trimmed, the call returns exactly two turns: the topic, from
    [azure_ai_agent], and the empty message, from [copilot_studio]. *)
Theorem empty_answer_ends_conversation (E : Type) (EP : Endpoints E)
    (initial_topic : pystr) (obj : AgentToAgentConversation.t) (e : E) :
  let res := start_conversation initial_topic (fresh_run obj e) in
  let final := AgentToAgentConversation.turns (self (snd res)) in
  (∀ (i : nat) t, final !! i = Some t →
     ConversationTurn.sender t = copilot_studio →
     ConversationTurn.message t = [] →
     S i = length final ∧
     fst res = Returned final ∧
     last (events (snd res)) = Some (Assigned (self (snd res)))) ∧
  (∀ acts e',
     ask_question initial_topic e = (Returned acts, e') →
     strip (concat (map Spec.fragment_text acts)) = [] →
     fst res = Returned [Turn 1 azure_ai_agent initial_topic;
                         Turn 2 copilot_studio []]).
Proof.
  cbv zeta. split.
  - rewrite start_conversation_run. cbv zeta.
    match goal with |- context [while_loop ?f ?r'] =>
      assert (empty_inv r') as Hinv;
      [|pose proof (empty_loop f r' Hinv) as H; clear Hinv]
    end.
    { split; [discriminate|]. cbn [self AgentToAgentConversation.turns].
      apply (no_empty_answer_snoc [] 1 azure_ai_agent initial_topic).
      - intros t0 Ht0. inversion Ht0.
      - intros Heq. destruct (senders_differ Heq). }
    destruct (while_loop _ _) as [[[]|x|] r']; cbn [fst snd] in *;
      intros i t Hi Hs Hm; destruct (H i t Hi Hs Hm) as (H1 & H2 & H3);
      repeat split; try assumption; discriminate.
  - intros acts e'. apply (empty_first_answer initial_topic (fresh_run obj e)).
Qed.

(** The theorem applied to [blank_endpoints] and the topic "Hello". *)
Lemma empty_answer_ends_conversation_witness :
  fst (start_conversation (EP := blank_endpoints) (lit "Hello")
         (fresh_run AgentToAgentConversation.init tt)) =
    Returned [Turn 1 azure_ai_agent (lit "Hello"); Turn 2 copilot_studio []].
Proof.
  refine (proj2 (empty_answer_ends_conversation unit blank_endpoints (lit "Hello")
            AgentToAgentConversation.init tt) (say (lit "  ")) tt _ _);
    vm_compute; reflexivity.
Defined.

(* ================================================================== *)
(** * C6: AgentB raises on its first call *)
(* ================================================================== *)

(** C6. If the first call to AgentB raises, [start_conversation] ends by
    raising that same exception. The state it leaves holds exactly one
    turn, number 1, from [azure_ai_agent], with the topic as message; the
    counter is 1; and the failed call is the only call made to an endpoint
    (there is no second attempt, and AgentA is not called). *)
Theorem first_call_error_propagates (E : Type) (EP : Endpoints E)
    (initial_topic : pystr) (obj : AgentToAgentConversation.t) (e e' : E)
    (x : PyExc) :
  ask_question initial_topic e = (Raised x, e') →
  let res := start_conversation initial_topic (fresh_run obj e) in
  fst res = Raised x ∧
  AgentToAgentConversation.turns (self (snd res)) =
    [ConversationTurn.Build 1 (lit "azure_ai_agent") initial_topic 0] ∧
  AgentToAgentConversation.current_turn (self (snd res)) = 1 ∧
  calls (events (snd res)) = [AskQuestion initial_topic] ∧
  env (snd res) = e'.
Proof.
  intros Hask. cbv zeta. rewrite start_conversation_run. cbv zeta.
  change (Z.to_nat MAX_TURNS) with 20%nat.
  rewrite while_loop_unfold.
  match goal with |- context [loop_body ?r0] =>
    rewrite (loop_body_run r0 (Turn 1 azure_ai_agent initial_topic) eq_refl)
  end.
  cbv zeta. simpl env. simpl ConversationTurn.message. rewrite Hask.
  repeat split.
Qed.

(** The theorem applied to [unreachable_endpoints] and the topic "Hello". *)
Lemma first_call_error_propagates_witness :
  let res := start_conversation (EP := unreachable_endpoints) (lit "Hello")
               (fresh_run AgentToAgentConversation.init tt) in
  fst res = Raised connection_error ∧
  AgentToAgentConversation.turns (self (snd res)) =
    [ConversationTurn.Build 1 (lit "azure_ai_agent") (lit "Hello") 0] ∧
  AgentToAgentConversation.current_turn (self (snd res)) = 1 ∧
  calls (events (snd res)) = [AskQuestion (lit "Hello")] ∧
  env (snd res) = tt.
Proof.
  exact (first_call_error_propagates unit unreachable_endpoints (lit "Hello")
           AgentToAgentConversation.init tt tt connection_error eq_refl).
Defined.

(* ================================================================== *)
(** * C8: the transcript *)
(* ================================================================== *)

Lemma add_turn_text_entry acc t : add_turn_text acc t = acc ++ transcript_entry t.
Proof.
  unfold add_turn_text, transcript_entry, label, str_eqb.
  destruct (decide _) as [Heq|Hne].
  - rewrite bool_decide_eq_true_2 by exact Heq.
    rewrite <- !app_assoc. reflexivity.
  - rewrite bool_decide_eq_false_2 by exact Hne.
    rewrite <- !app_assoc. reflexivity.
Qed.

Lemma fold_add_turn_text l acc :
  fold_left add_turn_text l acc = acc ++ transcript l.
Proof.
  revert acc. induction l as [|t l IH]; intros acc; simpl.
  - unfold transcript. simpl. rewrite app_nil_r. reflexivity.
  - rewrite IH, add_turn_text_entry. unfold transcript. simpl.
    rewrite <- app_assoc. reflexivity.
Qed.

Lemma get_full_conversation_text_run {E} (r : Run E) :
  get_full_conversation_text r =
    (Returned (transcript (AgentToAgentConversation.turns (self r))), r).
Proof.
  unfold get_full_conversation_text, bind, get_turns, gets, ret.
  rewrite fold_add_turn_text. reflexivity.
Qed.

(** C8. In every state, [get_full_conversation_text] returns the entries of
    the turns, in the order in which [turns] stores them, each entry being
    the line "Turn {n} - {label}: {message}" followed by a blank line, with
    the label "Azure AI Agent" for the sender [azure_ai_agent] and "Copilot
    Studio" for any other; it leaves the state as it was (object,
    environment and events), so that a second call returns the same
    string. On [three_turns] the text is the three entries written out. *)
Theorem get_full_conversation_text_renders_in_order :
  (∀ (E : Type) (r : Run E),
     get_full_conversation_text r =
       (Returned (concat (map transcript_entry
                            (AgentToAgentConversation.turns (self r)))), r) ∧
     (get_full_conversation_text ;; get_full_conversation_text) r =
       get_full_conversation_text r) ∧
  (label (lit "azure_ai_agent") = lit "Azure AI Agent" ∧
   ∀ s, s ≠ lit "azure_ai_agent" → label s = lit "Copilot Studio") ∧
  fst (get_full_conversation_text three_turns) =
    Returned (lit "Turn 1 - Azure AI Agent: Hello" ++ [10; 10]%N
              ++ lit "Turn 2 - Copilot Studio: Hi" ++ [10; 10]%N
              ++ lit "Turn -3 - Copilot Studio: " ++ [10; 10]%N).
Proof.
  split; [|split; [split|]].
  - intros E r. split; [apply get_full_conversation_text_run|].
    unfold bind. rewrite !get_full_conversation_text_run. reflexivity.
  - reflexivity.
  - intros s Hs. unfold label. destruct (decide _); [contradiction|reflexivity].
  - vm_compute. reflexivity.
Qed.

(** The theorem applied to the sender name [copilot_studio]. *)
Lemma get_full_conversation_text_witness :
  label copilot_studio = lit "Copilot Studio".
Proof.
  apply (proj2 (proj1 (proj2 get_full_conversation_text_renders_in_order))).
  discriminate.
Defined.

(* ================================================================== *)
(** * C7: the summary *)
(* ================================================================== *)

Lemma count_two_senders (l : list ConversationTurn.t) :
  (∀ t, t ∈ l → ConversationTurn.sender t = azure_ai_agent ∨
                ConversationTurn.sender t = copilot_studio) →
  len (List.filter (fun t => str_eqb (ConversationTurn.sender t) (lit "azure_ai_agent")) l)
  + len (List.filter (fun t => str_eqb (ConversationTurn.sender t) (lit "copilot_studio")) l)
  = len l.
Proof.
  induction l as [|t l IH]; intros H; [reflexivity|].
  assert (∀ u, u ∈ l → ConversationTurn.sender u = azure_ai_agent ∨
                       ConversationTurn.sender u = copilot_studio) as Hl.
  { intros u Hu. apply H. right. exact Hu. }
  specialize (IH Hl). unfold len in *. simpl.
  destruct (H t ltac:(left)) as [-> | ->]; simpl; lia.
Qed.

Lemma shaped_two_senders (l : list ConversationTurn.t) :
  shaped l →
  ∀ t, t ∈ l → ConversationTurn.sender t = azure_ai_agent ∨
               ConversationTurn.sender t = copilot_studio.
Proof.
  intros Hsh t Ht. apply list_elem_of_lookup in Ht as [i Hi].
  destruct (Hsh i t Hi) as (_ & -> & _). unfold alternating_sender.
  destruct (Nat.even i); auto.
Qed.

Lemma reachable_shaped {E} {EP : Endpoints E} (o : AgentToAgentConversation.t) :
  reachable o → shaped (AgentToAgentConversation.turns o).
Proof.
  intros (topic & obj & e & Ho).
  destruct (start_conversation_shaped topic obj e) as [_ Hsn].
  rewrite Forall_forall in Hsn. apply (Hsn o Ho).
Qed.

Lemma final_state_reachable {E} {EP : Endpoints E} (initial_topic : pystr)
    (obj : AgentToAgentConversation.t) (e : E) :
  reachable (self (snd (start_conversation initial_topic (fresh_run obj e)))).
Proof.
  exists initial_topic, obj, e.
  destruct (start_conversation_grows initial_topic obj e) as [_ Hlast].
  apply list_elem_of_lookup. eexists. rewrite <- last_lookup. exact Hlast.
Qed.

Lemma get_conversation_summary_run {E} (r : Run E) :
  get_conversation_summary r =
    (Returned
       (let l := AgentToAgentConversation.turns (self r) in
        Summary.Build (len l)
          (len (List.filter (fun t => str_eqb (ConversationTurn.sender t) (lit "azure_ai_agent")) l))
          (len (List.filter (fun t => str_eqb (ConversationTurn.sender t) (lit "copilot_studio")) l))
          (len (transcript l))
          (map turn_dict l)),
     r).
Proof.
  unfold get_conversation_summary, bind, get_turns, gets, ret.
  rewrite get_full_conversation_text_run. reflexivity.
Qed.

(** C7. In every state, [get_conversation_summary] returns a summary [s]
    and leaves the state as it was. [s] is determined by [turns] alone (a
    state with the same list gives the same summary); [total_turns] is the
    length of [turns]; [conversation_length] is the length of the text
    that [get_full_conversation_text] returns in that state; [turns] lists
    the triples of turn number, sender and message in the stored order;
    and in every state that a run of [start_conversation] reaches, the two
    per-sender counts add up to [total_turns]. *)
Theorem get_conversation_summary_correct (E : Type) (EP : Endpoints E) (r : Run E) :
  ∃ s : Summary.t,
    get_conversation_summary r = (Returned s, r) ∧
    (∀ r' : Run E,
       AgentToAgentConversation.turns (self r') = AgentToAgentConversation.turns (self r) →
       fst (get_conversation_summary r') = Returned s) ∧
    Summary.total_turns s = len (AgentToAgentConversation.turns (self r)) ∧
    (∀ text, fst (get_full_conversation_text r) = Returned text →
       Summary.conversation_length s = len text) ∧
    Summary.turns s = map turn_dict (AgentToAgentConversation.turns (self r)) ∧
    (reachable (self r) →
       Summary.azure_ai_turns s + Summary.copilot_studio_turns s
       = Summary.total_turns s).
Proof.
  eexists. split; [apply get_conversation_summary_run|]. cbv zeta.
  split; [|split; [|split; [|split]]].
  - intros r' Hr'. rewrite get_conversation_summary_run. cbv zeta.
    rewrite Hr'. reflexivity.
  - reflexivity.
  - intros text. rewrite get_full_conversation_text_run. simpl.
    intros [= <-]. reflexivity.
  - reflexivity.
  - intros Hreach. simpl. apply count_two_senders, shaped_two_senders, reachable_shaped, Hreach.
Qed.

(** The theorem applied to the state in which the run of Scenario D ends:
    ten turns of each agent. *)
Lemma get_conversation_summary_witness :
  let r := snd (start_conversation (EP := echo_endpoints) (lit "Hello")
                  (fresh_run AgentToAgentConversation.init tt)) in
  ∃ s : Summary.t,
    fst (get_conversation_summary r) = Returned s ∧
    Summary.azure_ai_turns s + Summary.copilot_studio_turns s = Summary.total_turns s.
Proof.
  cbv zeta.
  destruct (get_conversation_summary_correct unit echo_endpoints
              (snd (start_conversation (EP := echo_endpoints) (lit "Hello")
                      (fresh_run AgentToAgentConversation.init tt))))
    as (s & Hs & _ & _ & _ & _ & Hsum).
  exists s. split; [rewrite Hs; reflexivity|].
  apply Hsum, final_state_reachable.
Defined.

(** Outside the reachable states the counts need not add up: the third
    sender of [three_turns] is counted in neither. *)
Example summary_of_three_turns :
  fst (get_conversation_summary three_turns) =
    Returned (Summary.Build 3 1 1 (len (transcript (AgentToAgentConversation.turns (self three_turns))))
                (map turn_dict (AgentToAgentConversation.turns (self three_turns)))).
Proof. reflexivity. Qed.

(* ================================================================== *)
(** * C10: the text of a Copilot Studio turn *)
(* ================================================================== *)

Lemma answers_stripped_nil : answers_stripped [].
Proof. intros t Ht. inversion Ht. Qed.

Lemma answers_stripped_snoc ts n s m :
  answers_stripped ts → (s = copilot_studio → stripped m) →
  answers_stripped (ts ++ [Turn n s m]).
Proof.
  intros Hts Hm t Ht. apply elem_of_app in Ht as [Ht|Ht].
  - apply Hts, Ht.
  - apply list_elem_of_singleton in Ht as ->. exact Hm.
Qed.

Section CopilotText.
Context {E : Type} {EP : Endpoints E}.
Import AgentToAgentConversation.

Lemma stripped_loop (fuel : nat) (r : Run E) :
  stripped_inv r → stripped_post (snd (while_loop fuel r)).
Proof.
  apply (while_loop_rule stripped_inv (fun _ r' => stripped_post r')).
  - intros r0 (_ & H1 & H2) _. split; assumption.
  - intros r0 (_ & H1 & H2) _. split; assumption.
  - intros r0 (Hne & Hst & Hsn) Hlt.
    destruct (last_is_Some _ Hne) as [t Hlast].
    assert (∀ n m, answers_stripped (turns (self r0) ++
              [Turn n copilot_studio (strip m)])) as Hb.
    { intros n m. apply answers_stripped_snoc; [assumption|].
      intros _. apply strip_stripped. }
    assert (∀ n m n' m', answers_stripped ((turns (self r0) ++
              [Turn n copilot_studio (strip m)]) ++
              [Turn n' azure_ai_agent m'])) as Ha.
    { intros n m n' m'. apply answers_stripped_snoc; [apply Hb|].
      intros H. destruct (senders_differ H). }
    unfold stripped_inv, stripped_post.
    loop_body_cases r0 Hlast; simpl;
      rewrite ?snapshots_app, ?Forall_app; simpl;
      repeat first [ assumption | apply Hb | apply Ha | apply Forall_nil
                   | apply Forall_cons; split | split ];
      intros H; apply app_eq_nil in H; destruct H; discriminate.
Qed.

Lemma start_conversation_stripped (initial_topic : pystr)
    (obj : AgentToAgentConversation.t) (e : E) :
  stripped_post (snd (start_conversation initial_topic (fresh_run obj e))).
Proof.
  rewrite start_conversation_final. apply stripped_loop.
  assert (answers_stripped [Turn 1 azure_ai_agent initial_topic]) as H1.
  { apply (answers_stripped_snoc [] 1 azure_ai_agent initial_topic answers_stripped_nil).
    intros H. destruct (senders_differ H). }
  unfold stripped_inv. simpl.
  split; [discriminate|].
  repeat first [ exact H1 | exact answers_stripped_nil | apply Forall_nil
               | apply Forall_cons; split | split ].
Qed.

(** The Copilot Studio turn, when the stream ends normally. *)
Lemma copilot_studio_turn_run (r : Run E) t acts e' :
  last (turns (self r)) = Some t →
  ask_question (ConversationTurn.message t) (env r) = (Returned acts, e') →
  copilot_studio_turn r =
    (Returned (concat (map Spec.fragment_text acts)),
     let n := current_turn (self r) + 1 in
     let o2 := Build (turns (self r) ++
                 [Turn n copilot_studio (strip (concat (map Spec.fragment_text acts)))]) n in
     MkRun o2 e'
       (events r ++ [AskQuestion (ConversationTurn.message t);
                     Assigned (Build (turns (self r)) n); Assigned o2])).
Proof.
  intros Hlast Hask. destruct r as [[ts n] e evs]. simpl in *.
  unfold copilot_studio_turn, last_turn, get_turns, call_ask_question, call,
    bind, gets. simpl. rewrite Hlast. simpl. rewrite Hask. simpl.
  change (lit "") with (@nil N). rewrite fold_receive, app_nil_l.
  rewrite <- !app_assoc. reflexivity.
Qed.
End CopilotText.

(** C10. What the loop makes of the stream of AgentB:
    - a [None] item, an activity whose type is not [message], and a message
      whose text is [None] each leave the collected text as it is; a
      message with a text appends that text;
    - when the stream ends normally, the turn recorded for
      [copilot_studio] carries the concatenation of the texts of the
      message activities, stripped, and the turn number one above the last;
    - the strip leaves no white space at either end, and this holds for
      every [copilot_studio] turn of every state that a run of
      [start_conversation] goes through or ends in.
    A message is a [pystr] throughout, so it is never [None]. *)
Theorem copilot_turn_is_stripped_concatenation :
  (∀ acc : pystr,
     receive acc None = acc ∧
     (∀ a, Activity.type a ≠ ActivityTypes.message → receive acc (Some a) = acc) ∧
     receive acc (Some (Activity.Build ActivityTypes.message None)) = acc ∧
     (∀ s, receive acc (Some (Activity.Build ActivityTypes.message (Some s))) = acc ++ s)) ∧
  (∀ (E : Type) (EP : Endpoints E) (r : Run E) t acts e',
     last (AgentToAgentConversation.turns (self r)) = Some t →
     ask_question (ConversationTurn.message t) (env r) = (Returned acts, e') →
     AgentToAgentConversation.turns (self (snd (copilot_studio_turn r))) =
       AgentToAgentConversation.turns (self r) ++
       [ConversationTurn.Build
          (AgentToAgentConversation.current_turn (self r) + 1)
          (lit "copilot_studio")
          (strip (concat (map Spec.fragment_text acts))) 0]) ∧
  (∀ s, stripped (strip s)) ∧
  (∀ (E : Type) (EP : Endpoints E) initial_topic obj (e : E),
     let r := snd (start_conversation initial_topic (fresh_run obj e)) in
     ∀ o, o = self r ∨ o ∈ snapshots (events r) →
       ∀ t, t ∈ AgentToAgentConversation.turns o →
         ConversationTurn.sender t = lit "copilot_studio" →
         stripped (ConversationTurn.message t)).
Proof.
  split; [|split; [|split]].
  - intros acc. split; [reflexivity|]. split; [|split].
    + intros [[] txt] Hty; [contradiction|reflexivity].
    + apply (app_nil_r acc).
    + intros [|c s]; reflexivity.
  - intros E EP r t acts e' Hlast Hask.
    rewrite (copilot_studio_turn_run r t acts e' Hlast Hask). reflexivity.
  - apply strip_stripped.
  - intros E EP initial_topic obj e. cbv zeta.
    destruct (start_conversation_stripped initial_topic obj e) as [Hfin Hsn].
    intros o [-> | Ho]; [exact Hfin|].
    rewrite Forall_forall in Hsn. apply (Hsn o Ho).
Qed.

(** The theorem applied to [mixed_stream], received after the first turn:
    the recorded message is "Hi there". *)
Lemma copilot_turn_is_stripped_concatenation_witness :
  AgentToAgentConversation.turns
    (self (snd (copilot_studio_turn (EP := mixed_endpoints)
                  (fresh_run (AgentToAgentConversation.Build
                                [Turn 1 azure_ai_agent (lit "Hello")] 1) tt)))) =
    [Turn 1 azure_ai_agent (lit "Hello"); Turn 2 copilot_studio (lit "Hi there")].
Proof.
  exact (proj1 (proj2 copilot_turn_is_stripped_concatenation) unit mixed_endpoints
           (fresh_run (AgentToAgentConversation.Build
                         [Turn 1 azure_ai_agent (lit "Hello")] 1) tt)
           (Turn 1 azure_ai_agent (lit "Hello")) mixed_stream tt eq_refl eq_refl).
Defined.

(* ================================================================== *)
(** * C5: [continue_conversation] when the remote call raises *)
(* ================================================================== *)

Section ClientHistory.
Context {R : Type} {CC : ChatCompletions R}.
Import AzureAIAgentClient.

Lemma internal_history_inv (w : World R) hs :
  internal_history w = Some hs →
  ∃ items, heap w !! conversation_history (this w) = Some (OList items) ∧
           Forall2 (fun v d => history_entry (heap w) v = Some d) items hs.
Proof.
  unfold internal_history.
  destruct (heap w !! conversation_history (this w)) as [[items|d]|] eqn:Hl;
    try discriminate.
  intros H. exists items. split; [reflexivity|]. apply mapM_Some. exact H.
Qed.

Lemma internal_history_intro (w : World R) items hs :
  heap w !! conversation_history (this w) = Some (OList items) →
  Forall2 (fun v d => history_entry (heap w) v = Some d) items hs →
  internal_history w = Some hs.
Proof.
  intros Hl H. unfold internal_history. rewrite Hl. apply mapM_Some. exact H.
Qed.

(** An entry read through the store is not affected by a change of a
    list object or by a later allocation. *)
Lemma history_entry_frame (h h' : store) (v : PyVal) (d : gmap pystr PyVal) :
  (∀ l o, h !! l = Some (ODict o) → h' !! l = Some (ODict o)) →
  history_entry h v = Some d → history_entry h' v = Some d.
Proof.
  intros Hframe. destruct v as [| | |l]; simpl; try discriminate.
  destruct (h !! l) as [[items|o]|] eqn:Hl; try discriminate.
  intros [= <-]. rewrite (Hframe l o Hl). reflexivity.
Qed.

Lemma dict_frame_append (h : store) (hist : nat) (items items' : list PyVal) (new : PyObj) :
  h !! hist = Some (OList items) →
  ∀ l o, h !! l = Some (ODict o) →
    (<[hist := OList items']> (h ++ [new])) !! l = Some (ODict o).
Proof.
  intros Hhist l o Hl.
  assert (hist ≠ l) as Hne by (intros ->; congruence).
  rewrite list_lookup_insert_ne by exact Hne.
  rewrite lookup_app_l; [exact Hl|]. eapply lookup_lt_Some, Hl.
Qed.

Lemma dict_getitem_run (w : World R) v d key x :
  history_entry (heap w) v = Some d → d !! key = Some x →
  dict_getitem heap v key w = (Returned x, w).
Proof.
  intros Hv Hk. destruct v as [| | |l]; simpl in Hv; try discriminate.
  destruct (heap w !! l) as [[items|o]|] eqn:Hl; try discriminate.
  injection Hv as ->.
  unfold dict_getitem, as_dict, bind. rewrite Hl, Hk. reflexivity.
Qed.

Lemma add_history_run (w : World R) items hs :
  Forall2 (fun v d => history_entry (heap w) v = Some d) items hs →
  ∀ p messages, chat_prompt hs = Some p →
    add_history items messages w = (Returned (messages ++ p), w).
Proof.
  induction 1 as [|v d items hs Hv _ IH]; intros p messages Hp; simpl in *.
  - injection Hp as <-. rewrite app_nil_r. reflexivity.
  - destruct (d !! lit "role") as [r|] eqn:Hr; [|discriminate].
    destruct (d !! lit "content") as [c|] eqn:Hc; [|discriminate].
    destruct (chat_prompt hs) as [p'|] eqn:Hp'; [|discriminate].
    injection Hp as <-.
    unfold bind. rewrite (dict_getitem_run w v d _ r Hv Hr).
    rewrite (dict_getitem_run w v d _ c Hv Hc).
    destruct (val_eqb r (VStr (lit "assistant")));
      rewrite (IH p' _ eq_refl), <- app_assoc; reflexivity.
Qed.

Lemma with_incoming_history (w : World R) items hs msg n :
  heap w !! conversation_history (this w) = Some (OList items) →
  Forall2 (fun v d => history_entry (heap w) v = Some d) items hs →
  Forall2 (fun v d => history_entry (with_incoming w items msg n) v = Some d)
    (items ++ [VRef (length (heap w))]) (hs ++ [entry (lit "user") msg n]).
Proof.
  intros Hhist Hitems. apply Forall2_app.
  - eapply Forall2_impl; [exact Hitems|]. intros v d.
    apply history_entry_frame. apply (dict_frame_append _ _ items). exact Hhist.
  - constructor; [|constructor]. unfold with_incoming, history_entry.
    rewrite list_lookup_insert_ne.
    + rewrite list_lookup_middle; reflexivity.
    + apply lookup_lt_Some in Hhist. lia.
Qed.

Lemma bind_returned {S A B} (m : M S A) (k : A → M S B) s a s' :
  m s = (Returned a, s') → bind m k s = k a s'.
Proof. intros H. unfold bind. rewrite H. reflexivity. Qed.

Lemma bind_raised {S A B} (m : M S A) (k : A → M S B) s x s' :
  m s = (Raised x, s') → bind m k s = (Raised x, s').
Proof. intros H. unfold bind. rewrite H. reflexivity. Qed.

Lemma list_items_run (w : World R) l items :
  heap w !! l = Some (OList items) → list_items heap l w = (Returned items, w).
Proof. intros H. unfold list_items. rewrite H. reflexivity. Qed.

Lemma list_append_run (w : World R) l items v :
  heap w !! l = Some (OList items) →
  list_append heap set_heap l v w =
    (Returned tt, set_heap (<[l := OList (items ++ [v])]> (heap w)) w).
Proof.
  intros H. unfold list_append.
  rewrite (bind_returned _ _ _ _ _ (list_items_run w l items H)). reflexivity.
Qed.

(** What [continue_conversation] does when the request is refused. *)
Lemma continue_conversation_refused (w : World R) hs items p msg n x r' :
  heap w !! conversation_history (this w) = Some (OList items) →
  Forall2 (fun v d => history_entry (heap w) v = Some d) items hs →
  chat_prompt (hs ++ [entry (lit "user") msg n]) = Some p →
  create (model (this w)) (continuation_request (system_prompt (this w)) p n)
    (remote w) = (Raised x, r') →
  continue_conversation msg n w =
    (Raised (continuation_failure x),
     MkWorld (with_incoming w items msg n) (this w) r').
Proof.
  intros Hhist Hitems Hp Hcreate.
  pose proof (with_incoming_history w items hs msg n Hhist Hitems) as Hnew.
  assert (conversation_history (this w) < length (heap w))%nat as Hlt
    by (eapply lookup_lt_Some, Hhist).
  unfold continue_conversation.
  erewrite bind_returned by reflexivity.
  erewrite bind_returned by reflexivity.
  erewrite bind_returned.
  2:{ apply (list_append_run _ _ items). cbn [heap set_heap this].
      rewrite lookup_app_l by exact Hlt. exact Hhist. }
  erewrite bind_returned by reflexivity.
  erewrite bind_returned by reflexivity.
  erewrite bind_returned.
  2:{ apply list_items_run. cbn [heap set_heap this].
      apply list_lookup_insert_eq. rewrite length_app. simpl. lia. }
  erewrite bind_returned.
  2:{ eapply add_history_run; [|exact Hp]. exact Hnew. }
  unfold try_except.
  erewrite bind_returned by reflexivity.
  erewrite bind_raised.
  2:{ unfold call_create. cbn [heap set_heap this remote].
      unfold continuation_request in Hcreate. cbn [app] in Hcreate |- *.
      rewrite Hcreate. reflexivity. }
  reflexivity.
Qed.
End ClientHistory.

(** C5, as the code has it. When the request that [continue_conversation]
    sends is refused with the exception [x]: the call raises an
    [Exception] whose text is "Failed to continue conversation: " followed
    by [str(x)] and whose context is [x]; the client object is otherwise
    as before; and the internal history is the history before the call
    followed by one entry, the incoming message with role "user" and the
    given turn number. No entry for an answer is added. *)
Theorem continue_conversation_failure_wraps_and_keeps_incoming (R : Type)
    (CC : ChatCompletions R) (w : AzureAIAgentClient.World R)
    (hs : list (gmap pystr PyVal)) (p : list ChatMessage.t)
    (other_agent_response : pystr) (turn_number : Z) (x : PyExc) (r' : R) :
  AzureAIAgentClient.internal_history w = Some hs →
  chat_prompt (hs ++ [AzureAIAgentClient.entry (lit "user") other_agent_response turn_number])
    = Some p →
  create (AzureAIAgentClient.model (AzureAIAgentClient.this w))
    (continuation_request (AzureAIAgentClient.system_prompt (AzureAIAgentClient.this w))
       p turn_number)
    (AzureAIAgentClient.remote w) = (Raised x, r') →
  let res := AzureAIAgentClient.continue_conversation other_agent_response turn_number w in
  fst res =
    Raised (Exc (lit "Exception")
              (lit "Failed to continue conversation: " ++ exc_str x) (Some x)) ∧
  AzureAIAgentClient.internal_history (snd res) =
    Some (hs ++ [AzureAIAgentClient.entry (lit "user") other_agent_response turn_number]) ∧
  AzureAIAgentClient.this (snd res) = AzureAIAgentClient.this w ∧
  AzureAIAgentClient.remote (snd res) = r'.
Proof.
  intros Hhs Hp Hcreate. cbv zeta.
  destruct (internal_history_inv w hs Hhs) as (items & Hhist & Hitems).
  rewrite (continue_conversation_refused w hs items p _ _ x r' Hhist Hitems Hp Hcreate).
  cbn [fst snd AzureAIAgentClient.this AzureAIAgentClient.remote].
  repeat split.
  eapply internal_history_intro.
  - cbn [AzureAIAgentClient.heap AzureAIAgentClient.this]. unfold with_incoming.
    apply list_lookup_insert_eq. rewrite length_app. simpl.
    apply lookup_lt_Some in Hhist. lia.
  - apply (with_incoming_history w items hs _ _ Hhist Hitems).
Qed.

(** The theorem applied to a new client whose service refuses the
    request. *)
Lemma continue_conversation_failure_witness :
  let res := AzureAIAgentClient.continue_conversation (CC := refusing)
               (lit "hi") 2 new_client in
  fst res =
    Raised (Exc (lit "Exception")
              (lit "Failed to continue conversation: connection refused")
              (Some connection_error)) ∧
  AzureAIAgentClient.internal_history (snd res) =
    Some ([] ++ [AzureAIAgentClient.entry (lit "user") (lit "hi") 2]) ∧
  AzureAIAgentClient.this (snd res) = AzureAIAgentClient.this new_client ∧
  AzureAIAgentClient.remote (snd res) = tt.
Proof.
  exact (continue_conversation_failure_wraps_and_keeps_incoming unit refusing
           new_client [] [ChatMessage.Build (lit "user") (VStr (lit "hi"))]
           (lit "hi") 2 connection_error tt eq_refl eq_refl eq_refl).
Defined.

(** C5 as the specification words it does not hold: on a new client (empty history)
    whose service refuses the request, the call raises the wrapping
    exception, and the internal history afterwards is not the one before:
    it holds the incoming message. *)
Lemma continue_conversation_leaks_incoming_message :
  let res := AzureAIAgentClient.continue_conversation (CC := refusing)
               (lit "hi") 2 new_client in
  fst res = Raised (continuation_failure connection_error) ∧
  AzureAIAgentClient.internal_history new_client = Some [] ∧
  AzureAIAgentClient.internal_history (snd res) =
    Some [AzureAIAgentClient.entry (lit "user") (lit "hi") 2] ∧
  AzureAIAgentClient.internal_history (snd res) ≠
    AzureAIAgentClient.internal_history new_client.
Proof.
  cbv zeta.
  assert (AzureAIAgentClient.internal_history
            (snd (AzureAIAgentClient.continue_conversation (CC := refusing)
                    (lit "hi") 2 new_client)) =
          Some [AzureAIAgentClient.entry (lit "user") (lit "hi") 2]) as H
    by (vm_compute; reflexivity).
  split; [vm_compute; reflexivity|]. split; [reflexivity|]. split; [exact H|].
  rewrite H. discriminate.
Qed.

(* ================================================================== *)
(** * C9: the list that [get_conversation_history] returns *)
(* ================================================================== *)

Section HistoryCopy.
Context {R : Type} {CC : ChatCompletions R}.
Import AzureAIAgentClient.

(** The internal history reads only objects that exist: a store that
    keeps them gives the same history. *)
Lemma internal_history_frame (w : World R) (h' : store) hs :
  (∀ l, (l < length (heap w))%nat → h' !! l = heap w !! l) →
  internal_history w = Some hs →
  internal_history (set_heap h' w) = Some hs.
Proof.
  intros Hsame Hhs.
  destruct (internal_history_inv w hs Hhs) as (items & Hhist & Hitems).
  apply (internal_history_intro _ items).
  - cbn [heap set_heap this]. rewrite Hsame; [exact Hhist|].
    eapply lookup_lt_Some, Hhist.
  - cbn [heap set_heap]. eapply Forall2_impl; [exact Hitems|]. intros v d.
    apply history_entry_frame. intros l o Hl.
    rewrite Hsame; [exact Hl|]. eapply lookup_lt_Some, Hl.
Qed.

Lemma get_conversation_history_run (w : World R) items :
  heap w !! conversation_history (this w) = Some (OList items) →
  get_conversation_history w =
    (Returned (length (heap w)), set_heap (heap w ++ [OList items]) w).
Proof.
  intros Hhist. unfold get_conversation_history.
  erewrite bind_returned by reflexivity.
  erewrite bind_returned by (apply list_items_run; exact Hhist).
  reflexivity.
Qed.
End HistoryCopy.

(** C9, as the code has it. [get_conversation_history] returns a new list
    object holding the items of the internal list, and changes nothing
    else. Whatever the caller then does to that list object (and to objects
    created after the call) leaves the internal history as it was: every
    store that keeps the objects that existed before the call gives the
    same internal history. *)
Theorem get_conversation_history_returns_new_list (R : Type)
    (CC : ChatCompletions R) (w : AzureAIAgentClient.World R)
    (hs : list (gmap pystr PyVal)) :
  AzureAIAgentClient.internal_history w = Some hs →
  let res := AzureAIAgentClient.get_conversation_history w in
  let returned := length (AzureAIAgentClient.heap w) in
  fst res = Returned returned ∧
  returned ≠ AzureAIAgentClient.conversation_history (AzureAIAgentClient.this w) ∧
  AzureAIAgentClient.heap (snd res) !! returned =
    AzureAIAgentClient.heap w !!
      AzureAIAgentClient.conversation_history (AzureAIAgentClient.this w) ∧
  AzureAIAgentClient.internal_history (snd res) = Some hs ∧
  ∀ h' : store,
    (∀ l, (l < returned)%nat → h' !! l = AzureAIAgentClient.heap w !! l) →
    AzureAIAgentClient.internal_history (AzureAIAgentClient.set_heap h' (snd res))
    = Some hs.
Proof.
  intros Hhs. cbv zeta.
  destruct (internal_history_inv w hs Hhs) as (items & Hhist & Hitems).
  rewrite (get_conversation_history_run w items Hhist).
  cbn [fst snd]. split; [reflexivity|].
  pose proof (lookup_lt_Some _ _ _ Hhist) as Hlt.
  split; [lia|]. split.
  { cbn [AzureAIAgentClient.heap AzureAIAgentClient.set_heap].
    rewrite list_lookup_middle by reflexivity. symmetry. exact Hhist. }
  assert (∀ h' : store,
            (∀ l, (l < length (AzureAIAgentClient.heap w))%nat →
                  h' !! l = AzureAIAgentClient.heap w !! l) →
            AzureAIAgentClient.internal_history
              (AzureAIAgentClient.set_heap h'
                 (AzureAIAgentClient.set_heap
                    (AzureAIAgentClient.heap w ++ [OList items]) w)) = Some hs) as Hframe.
  { intros h' Hsame.
    apply (internal_history_frame w h' hs Hsame Hhs). }
  split; [|exact Hframe].
  apply (Hframe (AzureAIAgentClient.heap w ++ [OList items])).
  intros l Hl. apply lookup_app_l. exact Hl.
Qed.

(** The theorem applied to [greeted_client], whose caller then empties the
    list it was given. *)
Lemma get_conversation_history_witness :
  let res := AzureAIAgentClient.get_conversation_history greeted_client in
  fst res = Returned 3%nat ∧
  AzureAIAgentClient.internal_history
    (AzureAIAgentClient.set_heap
       (<[3%nat := OList []]> (AzureAIAgentClient.heap (snd res))) (snd res))
  = Some [AzureAIAgentClient.entry (lit "assistant") (lit "hello") 1].
Proof.
  cbv zeta.
  destruct (get_conversation_history_returns_new_list unit greeting greeted_client
              [AzureAIAgentClient.entry (lit "assistant") (lit "hello") 1]
              ltac:(vm_compute; reflexivity)) as (Hret & _ & _ & _ & Hframe).
  split; [exact Hret|]. apply Hframe.
  intros l Hl. destruct l as [|[|[|l]]]; [reflexivity..|].
  vm_compute in Hl. lia.
Defined.

(** C9 as the specification words it does not hold: the entries of the returned list are
    the dict objects of the internal history. After a caller has assigned
    to a key of the first entry of the returned list, the internal history
    holds the assigned value. *)
Lemma get_conversation_history_shares_entries :
  let res := tamper_with_first_entry (CC := greeting) greeted_client in
  fst res = Returned tt ∧
  AzureAIAgentClient.internal_history greeted_client =
    Some [AzureAIAgentClient.entry (lit "assistant") (lit "hello") 1] ∧
  AzureAIAgentClient.internal_history (snd res) =
    Some [AzureAIAgentClient.entry (lit "assistant") (lit "tampered") 1] ∧
  AzureAIAgentClient.internal_history (snd res) ≠
    AzureAIAgentClient.internal_history greeted_client.
Proof.
  cbv zeta.
  assert (AzureAIAgentClient.internal_history greeted_client =
          Some [AzureAIAgentClient.entry (lit "assistant") (lit "hello") 1]) as H0
    by (vm_compute; reflexivity).
  assert (AzureAIAgentClient.internal_history
            (snd (tamper_with_first_entry (CC := greeting) greeted_client)) =
          Some [AzureAIAgentClient.entry (lit "assistant") (lit "tampered") 1]) as H1
    by (vm_compute; reflexivity).
  split; [vm_compute; reflexivity|]. split; [exact H0|]. split; [exact H1|].
  rewrite H0, H1. intros H.
  apply (f_equal (fun o => l ← o; d ← l !! 0%nat; d !! lit "content")) in H.
  vm_compute in H. discriminate.
Qed.

(* ================================================================== *)
(** * The orchestrator and the client together *)
(* ================================================================== *)

(** A conversation in which Copilot Studio answers and the completion
    service then refuses: the call ends in the client's wrapping exception,
    two turns are recorded, and the client's history holds the one message
    it was given. *)
Example deployed_run_with_refusing_service :
  let res := start_conversation
               (EP := deployed (CC := refusing) (fun _ => ret (say (lit "Which size?"))))
               (lit "Hello")
               (fresh_run AgentToAgentConversation.init (new_client, tt)) in
  fst res = Raised (continuation_failure connection_error) ∧
  AgentToAgentConversation.turns (self (snd res)) =
    [Turn 1 azure_ai_agent (lit "Hello"); Turn 2 copilot_studio (lit "Which size?")] ∧
  AzureAIAgentClient.internal_history (fst (env (snd res))) =
    Some [AzureAIAgentClient.entry (lit "user") (lit "Which size?") 2].
Proof. cbv zeta. repeat split; vm_compute; reflexivity. Qed.

(* ================================================================== *)
(** * How a conversation ends *)
(* ================================================================== *)

Section Terminal.
Context {E : Type} {EP : Endpoints E}.
Import AgentToAgentConversation.

Lemma odd_length_not_MAX_TURNS {A} (l : list A) :
  Nat.even (length l) = false → len l ≠ MAX_TURNS.
Proof.
  intros Hodd Hlen. unfold len, MAX_TURNS in Hlen.
  assert (length l = 20%nat) as H by lia. rewrite H in Hodd. discriminate.
Qed.

Lemma odd_length_pos {A} (l : list A) : Nat.even (length l) = false → 1 <= len l.
Proof. destruct l; [discriminate|]. unfold len. simpl. lia. Qed.

Lemma terminal_loop (fuel : nat) (r : Run E) :
  terminal_inv r →
  terminal_post (fst (while_loop fuel r)) (snd (while_loop fuel r)).
Proof.
  apply (while_loop_rule terminal_inv terminal_post).
  - intros r0 (Hcur & Hodd & Hcap) Hge. exfalso.
    apply (odd_length_not_MAX_TURNS _ Hodd). lia.
  - intros r0 (Hcur & _) _. split; [exact Hcur|discriminate].
  - intros r0 (Hcur & Hodd & Hcap) Hlt.
    destruct (last_is_Some _ (even_false_nonempty _ Hodd)) as [t Hlast].
    pose proof (odd_length_pos _ Hodd) as Hpos.
    unfold terminal_inv, terminal_post.
    loop_body_cases r0 Hlast; cbn [self turns current_turn];
      rewrite ?len_snoc, ?length_snoc.
    + split; [lia|]. intros _. eexists. split; [apply last_snoc|].
      split; [reflexivity|]. split; [lia|].
      apply orb_true_iff in Hbrk as [Hbrk|Hbrk].
      * left. apply Z.leb_le in Hbrk. lia.
      * right. apply negb_true_iff in Hbrk. simpl.
        destruct (strip _); [reflexivity|discriminate].
    + split; [lia|]. split; [|lia].
      rewrite Nat.even_succ, <- Nat.negb_even, Nat.even_succ, <- Nat.negb_even.
      rewrite Hodd. reflexivity.
    + split; [lia|discriminate].
    + split; [lia|discriminate].
    + apply orb_false_iff in Hbrk as [Hbrk _]. apply Z.leb_gt in Hbrk. lia.
    + split; [exact Hcur|discriminate].
    + split; [exact Hcur|discriminate].
Qed.

Lemma start_conversation_terminal (initial_topic : pystr) (r : Run E) :
  let res := start_conversation initial_topic r in
  current_turn (self (snd res)) = len (turns (self (snd res))) ∧
  ∀ l, fst res = Returned l →
    ∃ t, last l = Some t ∧
         ConversationTurn.sender t = copilot_studio ∧
         2 <= len l <= MAX_TURNS ∧
         (len l = MAX_TURNS ∨ ConversationTurn.message t = []).
Proof.
  cbv zeta. rewrite start_conversation_run. cbv zeta.
  match goal with |- context [while_loop ?f ?r'] =>
    assert (terminal_inv r') as Hinv;
    [|pose proof (terminal_loop f r' Hinv) as [H1 H2]; clear Hinv]
  end.
  { unfold terminal_inv. cbn [self turns current_turn].
    repeat split. unfold len, MAX_TURNS. simpl. lia. }
  destruct (while_loop _ _) as [[[]|x|] r']; cbn [fst snd] in *;
    (split; [exact H1|]); intros l Hl; try discriminate.
  injection Hl as <-. apply H2. reflexivity.
Qed.

Lemma budget_loop (fuel : nat) (r : Run E) :
  budget_inv r → budget_post (snd (while_loop fuel r)).
Proof.
  apply (while_loop_rule budget_inv (fun _ r' => budget_post r')).
  - intros r0 (Hcur & Hne & Hcap & Hcalls) _. unfold budget_post. lia.
  - intros r0 (Hcur & Hne & Hcap & Hcalls) _. unfold budget_post. lia.
  - intros r0 (Hcur & Hne & Hcap & Hcalls) Hlt.
    destruct (last_is_Some _ Hne) as [t Hlast].
    unfold budget_inv, budget_post.
    loop_body_cases r0 Hlast; cbn [self turns current_turn events];
      rewrite ?calls_app; cbn [calls List.filter];
      rewrite ?length_app; cbn [length]; rewrite ?len_snoc;
      try (apply orb_false_iff in Hbrk as [Hbrk _]; apply Z.leb_gt in Hbrk);
      try lia.
    repeat split; try lia.
    intros H. apply app_eq_nil in H. destruct H; discriminate.
Qed.

(** No exception originates in the loop itself. *)
Lemma no_own_exception_loop (fuel : nat) (r : Run E) :
  never_raises EP →
  turns (self r) ≠ [] →
  ∀ x, fst (while_loop fuel r) ≠ Raised x.
Proof.
  intros [HB HA] Hne x. revert r Hne.
  induction fuel as [|fuel IH]; intros r Hne; rewrite while_loop_unfold;
    destruct (current_turn (self r) <? MAX_TURNS); try discriminate.
  destruct (last_is_Some _ Hne) as [t Hlast].
  rewrite (loop_body_run r _ Hlast). cbv zeta.
  pose proof (HB (ConversationTurn.message t) (env r)) as HB'.
  destruct (ask_question _ (env r)) as [[acts|y|] e1]; cbn [fst] in HB';
    [|destruct (HB' y eq_refl)|discriminate].
  destruct (orb _ _); [discriminate|].
  destruct (current_turn (self r) + 1 <? MAX_TURNS).
  - match goal with |- context [continue_conversation ?m ?n e1] =>
      pose proof (HA m n e1) as HA' end.
    destruct (continue_conversation _ _ e1) as [[next|y|] e2]; cbn [fst] in HA';
      [|destruct (HA' y eq_refl)|discriminate].
    apply IH. cbn [self turns].
    intros H. apply app_eq_nil in H. destruct H; discriminate.
  - apply IH. cbn [self turns].
    intros H. apply app_eq_nil in H. destruct H; discriminate.
Qed.
End Terminal.

(** The outcome of a run and what it does to the endpoints depend on the
    environment only. *)
Lemma start_conversation_observable_env {E} {EP : Endpoints E}
    (initial_topic : pystr) (r r' : Run E) :
  env r = env r' →
  observable (start_conversation initial_topic r) =
  observable (start_conversation initial_topic r').
Proof.
  intros Henv. rewrite !start_conversation_refines, Henv. reflexivity.
Qed.

(** X3. [start_conversation] starts afresh: the list it returns or the
    exception it raises, and the state it leaves the endpoints in, are the
    same whatever turns, counter and history of events the orchestrator
    object had before the call. Nothing of an earlier conversation is
    carried over. *)
Theorem start_conversation_forgets_previous_state (E : Type) (EP : Endpoints E)
    (initial_topic : pystr) (r r' : Run E) :
  env r = env r' →
  fst (start_conversation initial_topic r) = fst (start_conversation initial_topic r') ∧
  env (snd (start_conversation initial_topic r)) =
  env (snd (start_conversation initial_topic r')).
Proof.
  intros Henv.
  pose proof (start_conversation_observable_env initial_topic r r' Henv) as H.
  unfold observable in H. injection H as H1 H2. split; assumption.
Qed.

(** The theorem applied to the echo endpoints: an orchestrator that holds
    the three turns of [three_turns] and a new one. *)
Lemma start_conversation_forgets_previous_state_witness :
  fst (start_conversation (EP := echo_endpoints) (lit "Hello") three_turns) =
  fst (start_conversation (EP := echo_endpoints) (lit "Hello")
         (fresh_run AgentToAgentConversation.init tt)).
Proof.
  exact (proj1 (start_conversation_forgets_previous_state unit echo_endpoints
                  (lit "Hello") three_turns
                  (fresh_run AgentToAgentConversation.init tt) eq_refl)).
Defined.

(** X2. A list that [start_conversation] returns ends with a turn of
    [copilot_studio]; it has at least 2 and at most [MAX_TURNS] turns; and
    it has fewer than [MAX_TURNS] turns only if its last message is
    empty. *)
Theorem returned_conversation_ends_on_copilot_turn (E : Type) (EP : Endpoints E)
    (initial_topic : pystr) (r : Run E) (l : list ConversationTurn.t) :
  fst (start_conversation initial_topic r) = Returned l →
  ∃ t, last l = Some t ∧
       ConversationTurn.sender t = lit "copilot_studio" ∧
       2 <= len l <= MAX_TURNS ∧
       (len l < MAX_TURNS → ConversationTurn.message t = []).
Proof.
  intros Hl.
  destruct (start_conversation_terminal initial_topic r) as [_ H].
  destruct (H l Hl) as (t & Hlast & Hs & Hlen & Hend).
  exists t. repeat split; try assumption; try lia.
  intros Hlt. destruct Hend as [Hfull|Hempty]; [lia|exact Hempty].
Qed.

(** The theorem applied to the run with [blank_endpoints]. *)
Lemma returned_conversation_ends_on_copilot_turn_witness :
  ∃ t, last [Turn 1 azure_ai_agent (lit "Hello"); Turn 2 copilot_studio []] = Some t ∧
       ConversationTurn.sender t = lit "copilot_studio" ∧
       2 <= len [Turn 1 azure_ai_agent (lit "Hello"); Turn 2 copilot_studio []]
         <= MAX_TURNS ∧
       (len [Turn 1 azure_ai_agent (lit "Hello"); Turn 2 copilot_studio []] < MAX_TURNS →
        ConversationTurn.message t = []).
Proof.
  exact (returned_conversation_ends_on_copilot_turn unit blank_endpoints (lit "Hello")
           (fresh_run AgentToAgentConversation.init tt) _ eq_refl).
Defined.

(** X4. However a run of [start_conversation] ends (it returns, an
    endpoint raises, an endpoint never answers), [current_turn] equals the
    number of recorded turns in the state it leaves. *)
Theorem current_turn_mirrors_turns (E : Type) (EP : Endpoints E)
    (initial_topic : pystr) (r : Run E) :
  let final := self (snd (start_conversation initial_topic r)) in
  AgentToAgentConversation.current_turn final =
  len (AgentToAgentConversation.turns final).
Proof.
  cbv zeta. apply (start_conversation_terminal initial_topic r).
Qed.

(** X5. A run of [start_conversation] makes at most [MAX_TURNS - 1 = 19]
    calls to the endpoints, however it ends. *)
Theorem endpoint_calls_bounded (E : Type) (EP : Endpoints E)
    (initial_topic : pystr) (obj : AgentToAgentConversation.t) (e : E) :
  let res := start_conversation initial_topic (fresh_run obj e) in
  Z.of_nat (length (calls (events (snd res)))) <= MAX_TURNS - 1 ∧
  MAX_TURNS - 1 = 19.
Proof.
  cbv zeta. split; [|reflexivity].
  rewrite start_conversation_final. apply budget_loop.
  unfold budget_inv. cbn [self events AgentToAgentConversation.turns
    AgentToAgentConversation.current_turn fresh_run].
  repeat split; try discriminate; unfold len, MAX_TURNS; simpl; lia.
Qed.

(** X6. If neither endpoint ever raises, [start_conversation] does not
    raise: the orchestrator has no failure of its own (in particular
    [self.turns[-1]] always finds a turn). *)
Theorem no_exception_of_its_own (E : Type) (EP : Endpoints E)
    (initial_topic : pystr) (r : Run E) (x : PyExc) :
  never_raises EP →
  fst (start_conversation initial_topic r) ≠ Raised x.
Proof.
  intros Hnever. rewrite start_conversation_run. cbv zeta.
  match goal with |- context [while_loop ?f ?r'] =>
    pose proof (no_own_exception_loop f r' Hnever ltac:(discriminate)) as H
  end.
  destruct (while_loop _ _) as [[[]|y|] r']; cbn [fst] in *; try discriminate.
  destruct (H y eq_refl).
Qed.

Lemma echo_endpoints_never_raise : never_raises echo_endpoints.
Proof. split; intros; discriminate. Qed.

(** The theorem applied to the echo endpoints. *)
Lemma no_exception_of_its_own_witness :
  fst (start_conversation (EP := echo_endpoints) (lit "Hello")
         (fresh_run AgentToAgentConversation.init tt)) ≠ Raised connection_error.
Proof.
  exact (no_exception_of_its_own unit echo_endpoints (lit "Hello")
           (fresh_run AgentToAgentConversation.init tt) connection_error
           echo_endpoints_never_raise).
Defined.

(* ================================================================== *)
(** * The constraint checks of the test never fail *)
(* ================================================================== *)

Lemma filter_count_pos {A} (f : A → bool) (l : list A) (a : A) :
  a ∈ l → f a = true → 1 <= len (List.filter f l).
Proof.
  intros Hin Hf. induction l as [|b l IH]; [inversion Hin|].
  unfold len in *. simpl. apply elem_of_cons in Hin as [<-|Hin].
  - rewrite Hf. simpl. lia.
  - specialize (IH Hin). destruct (f b); simpl; lia.
Qed.

Lemma returned_first_turn {E} {EP : Endpoints E} (initial_topic : pystr)
    (r : Run E) (l : list ConversationTurn.t) :
  fst (start_conversation initial_topic r) = Returned l →
  l !! 0%nat = Some (Turn 1 azure_ai_agent initial_topic).
Proof.
  intros Hl.
  pose proof (start_conversation_observable_env initial_topic r
                (fresh_run AgentToAgentConversation.init (env r)) eq_refl) as H.
  unfold observable in H. injection H as H _. rewrite Hl in H. symmetry in H.
  apply (start_conversation_threading initial_topic
           (fresh_run AgentToAgentConversation.init (env r)) l eq_refl H).
Qed.

Lemma constraints_hold {E} {EP : Endpoints E} (initial_topic : pystr)
    (r : Run E) (l : list ConversationTurn.t) (s : Summary.t) :
  fst (start_conversation initial_topic r) = Returned l →
  fst (get_conversation_summary (snd (start_conversation initial_topic r))) = Returned s →
  constraint_validation l s = Returned tt.
Proof.
  intros Hl Hs.
  pose proof (returned_first_turn initial_topic r l Hl) as Hfirst.
  destruct (start_conversation_terminal initial_topic r) as [_ Hterm].
  destruct (Hterm l Hl) as (t & Hlast & Hsender & [Hlo Hhi] & _).
  rewrite get_conversation_summary_run in Hs. cbv zeta in Hs. cbn [fst] in Hs.
  rewrite <- (start_conversation_returned initial_topic r l Hl) in Hs.
  injection Hs as <-. unfold constraint_validation.
  cbn [Summary.azure_ai_turns Summary.copilot_studio_turns].
  assert (1 <= len (List.filter
            (fun t => str_eqb (ConversationTurn.sender t) (lit "azure_ai_agent")) l)) as Ha.
  { apply (filter_count_pos _ l (Turn 1 azure_ai_agent initial_topic)).
    - apply list_elem_of_lookup. eauto.
    - reflexivity. }
  assert (1 <= len (List.filter
            (fun t => str_eqb (ConversationTurn.sender t) (lit "copilot_studio")) l)) as Hc.
  { apply (filter_count_pos _ l t).
    - apply list_elem_of_lookup. exists (pred (length l)).
      rewrite <- last_lookup. exact Hlast.
    - rewrite Hsender. reflexivity. }
  apply Z.leb_le in Hlo, Hhi, Ha, Hc. rewrite Hlo, Hhi, Ha, Hc. reflexivity.
Qed.

(** X1. The constraint checks of [test_agent_to_agent_conversation] cannot
    fail: whenever [start_conversation] returns, the returned list and the
    summary pass all four [assert] statements (at most [MAX_TURNS] turns,
    at least 2, at least one turn of each agent). So the first part of
    the test ends as the conversation does: it returns when the
    conversation returns, and it raises only what an endpoint raised. *)
Theorem conversation_constraints_never_fail (E : Type) (EP : Endpoints E)
    (initial_topic : pystr) (r : Run E) :
  let started := start_conversation initial_topic
                   (MkRun AgentToAgentConversation.init (env r) (events r)) in
  (∀ l s, fst started = Returned l →
          fst (get_conversation_summary (snd started)) = Returned s →
          constraint_validation l s = Returned tt) ∧
  match fst started with
  | Returned l =>
      ∃ s txt, fst (conversation_and_constraints initial_topic r) = Returned (s, txt) ∧
               Summary.total_turns s = len l ∧
               1 <= Summary.azure_ai_turns s ∧ 1 <= Summary.copilot_studio_turns s
  | Raised x => fst (conversation_and_constraints initial_topic r) = Raised x
  | OutOfFuel => fst (conversation_and_constraints initial_topic r) = OutOfFuel
  end.
Proof.
  cbv zeta. split; [intros l s; apply constraints_hold|].
  unfold conversation_and_constraints.
  erewrite bind_returned by reflexivity.
  set (r0 := MkRun AgentToAgentConversation.init (env r) (events r)).
  pose proof (constraints_hold initial_topic r0) as Hok.
  pose proof (start_conversation_returned initial_topic r0) as Hret.
  destruct (start_conversation initial_topic r0) as [[l|x|] r1] eqn:Hrun;
    cbn [fst snd] in *.
  - erewrite bind_returned by exact Hrun.
    erewrite bind_returned by apply get_conversation_summary_run.
    erewrite bind_returned by apply get_full_conversation_text_run.
    specialize (Hok l _ eq_refl ltac:(rewrite get_conversation_summary_run; reflexivity)).
    erewrite bind_returned by (rewrite Hok; reflexivity).
    eexists _, _. split; [reflexivity|].
    cbv zeta. cbn [Summary.total_turns Summary.azure_ai_turns Summary.copilot_studio_turns].
    rewrite <- (Hret l eq_refl).
    unfold constraint_validation in Hok.
    cbn [Summary.azure_ai_turns Summary.copilot_studio_turns] in Hok.
    rewrite <- (Hret l eq_refl) in Hok.
    split; [reflexivity|].
    destruct (len l <=? MAX_TURNS); [|discriminate].
    destruct (2 <=? len l); [|discriminate]. cbn [negb] in Hok.
    destruct (Z.leb_spec 1 (len (List.filter
       (fun t => str_eqb (ConversationTurn.sender t) (lit "azure_ai_agent")) l)));
      [|discriminate].
    destruct (Z.leb_spec 1 (len (List.filter
       (fun t => str_eqb (ConversationTurn.sender t) (lit "copilot_studio")) l)));
      [|discriminate].
    split; assumption.
  - erewrite bind_raised by exact Hrun. reflexivity.
  - unfold bind at 1. rewrite Hrun. reflexivity.
Qed.

(** The theorem applied to the run of Scenario D. *)
Lemma conversation_constraints_never_fail_witness :
  ∃ l s,
    fst (start_conversation (EP := echo_endpoints) (lit "Hello")
           (fresh_run AgentToAgentConversation.init tt)) = Returned l ∧
    constraint_validation l s = Returned tt.
Proof.
  pose proof (conversation_constraints_never_fail unit echo_endpoints
                (lit "Hello") (fresh_run AgentToAgentConversation.init tt)) as H.
  cbv zeta in H. destruct H as [H _].
  eexists _, _. split; [vm_compute; reflexivity|].
  apply H; [vm_compute; reflexivity|].
  rewrite get_conversation_summary_run. reflexivity.
Defined.

(* ================================================================== *)
(** * The views on an arbitrary state *)
(* ================================================================== *)

Lemma count_senders_split (l : list ConversationTurn.t) :
  len (List.filter (fun t => str_eqb (ConversationTurn.sender t) (lit "azure_ai_agent")) l)
  + len (List.filter (fun t => str_eqb (ConversationTurn.sender t) (lit "copilot_studio")) l)
  + len (List.filter (fun t => negb (str_eqb (ConversationTurn.sender t) (lit "azure_ai_agent"))
                            && negb (str_eqb (ConversationTurn.sender t) (lit "copilot_studio"))) l)
  = len l.
Proof.
  induction l as [|t l IH]; [reflexivity|].
  unfold len in *. simpl. unfold str_eqb in *.
  destruct (decide (ConversationTurn.sender t = lit "azure_ai_agent")) as [Ha|Ha].
  - rewrite (bool_decide_eq_true_2 _ Ha).
    rewrite bool_decide_eq_false_2 by (rewrite Ha; discriminate).
    simpl. lia.
  - rewrite (bool_decide_eq_false_2 _ Ha).
    destruct (bool_decide (ConversationTurn.sender t = lit "copilot_studio"));
      simpl; lia.
Qed.

Lemma no_other_sender (l : list ConversationTurn.t) :
  len (List.filter (fun t => negb (str_eqb (ConversationTurn.sender t) (lit "azure_ai_agent"))
                            && negb (str_eqb (ConversationTurn.sender t) (lit "copilot_studio"))) l)
  = 0 ↔
  ∀ t, t ∈ l → ConversationTurn.sender t = lit "azure_ai_agent" ∨
               ConversationTurn.sender t = lit "copilot_studio".
Proof.
  induction l as [|t l IH]; simpl.
  - split; [intros _ t Ht; inversion Ht|reflexivity].
  - unfold str_eqb in *.
    destruct (decide (ConversationTurn.sender t = lit "azure_ai_agent")) as [Ha|Ha];
      [rewrite (bool_decide_eq_true_2 _ Ha)|rewrite (bool_decide_eq_false_2 _ Ha)];
      simpl.
    + rewrite IH. split.
      * intros H u Hu. apply elem_of_cons in Hu as [->|Hu]; [left; exact Ha|apply H, Hu].
      * intros H u Hu. apply H. right. exact Hu.
    + destruct (decide (ConversationTurn.sender t = lit "copilot_studio")) as [Hc|Hc];
        [rewrite (bool_decide_eq_true_2 _ Hc)|rewrite (bool_decide_eq_false_2 _ Hc)];
        simpl.
      * rewrite IH. split.
        -- intros H u Hu. apply elem_of_cons in Hu as [->|Hu]; [right; exact Hc|apply H, Hu].
        -- intros H u Hu. apply H. right. exact Hu.
      * split.
        -- intros H. exfalso. unfold len in H. simpl in H. lia.
        -- intros H. destruct (H t ltac:(left)) as [?|?]; contradiction.
Qed.

(** X7. In every state, the two per-sender counts of the summary add up
    to at most [total_turns]; they add up to exactly [total_turns] if and
    only if every stored turn has one of the two sender names. A turn with
    any other sender is counted in the total only. *)
Theorem summary_counts_any_state (E : Type) (r : Run E) (s : Summary.t) :
  fst (get_conversation_summary r) = Returned s →
  Summary.azure_ai_turns s + Summary.copilot_studio_turns s <= Summary.total_turns s ∧
  (Summary.azure_ai_turns s + Summary.copilot_studio_turns s = Summary.total_turns s ↔
   ∀ t, t ∈ AgentToAgentConversation.turns (self r) →
        ConversationTurn.sender t = lit "azure_ai_agent" ∨
        ConversationTurn.sender t = lit "copilot_studio").
Proof.
  rewrite get_conversation_summary_run. cbv zeta. cbn [fst]. intros [= <-].
  cbn [Summary.azure_ai_turns Summary.copilot_studio_turns Summary.total_turns].
  pose proof (count_senders_split (AgentToAgentConversation.turns (self r))) as Hsplit.
  pose proof (no_other_sender (AgentToAgentConversation.turns (self r))) as Hother.
  match type of Hsplit with _ + _ + ?o = _ =>
    assert (0 <= o) as Ho by (unfold len; lia)
  end.
  split; [lia|]. rewrite <- Hother. lia.
Qed.

(** The theorem applied to [three_turns]: 1 + 1 < 3. *)
Lemma summary_counts_any_state_witness :
  1 + 1 <= 3 ∧
  (1 + 1 = 3 ↔
   ∀ t, t ∈ AgentToAgentConversation.turns (self three_turns) →
        ConversationTurn.sender t = lit "azure_ai_agent" ∨
        ConversationTurn.sender t = lit "copilot_studio").
Proof.
  exact (summary_counts_any_state unit three_turns
           (Summary.Build 3 1 1
              (len (transcript (AgentToAgentConversation.turns (self three_turns))))
              (map turn_dict (AgentToAgentConversation.turns (self three_turns))))
           eq_refl).
Defined.

Lemma transcript_entry_nonempty t : transcript_entry t ≠ [].
Proof. unfold transcript_entry. discriminate. Qed.

(** X8. The transcript is the empty string exactly when there are no
    turns, and so [conversation_length] is 0 exactly when [total_turns]
    is 0; the transcript of a list of turns followed by another is the
    transcript of the first followed by that of the second. *)
Theorem transcript_empty_iff_no_turns :
  (∀ (E : Type) (r : Run E),
     fst (get_full_conversation_text r) = Returned [] ↔
     AgentToAgentConversation.turns (self r) = []) ∧
  (∀ (E : Type) (r : Run E) (s : Summary.t),
     fst (get_conversation_summary r) = Returned s →
     (Summary.conversation_length s = 0 ↔ Summary.total_turns s = 0)) ∧
  (∀ (E : Type) (e : E) evs l1 l2 n1 n2 t1 t2 t,
     fst (get_full_conversation_text (MkRun (AgentToAgentConversation.Build l1 n1) e evs))
       = Returned t1 →
     fst (get_full_conversation_text (MkRun (AgentToAgentConversation.Build l2 n2) e evs))
       = Returned t2 →
     fst (get_full_conversation_text
            (MkRun (AgentToAgentConversation.Build (l1 ++ l2) (n1 + n2)) e evs))
       = Returned t →
     t = t1 ++ t2).
Proof.
  assert (∀ l, transcript l = [] ↔ l = []) as Hnil.
  { intros [|t l]; [split; reflexivity|]. split; [|discriminate].
    unfold transcript. cbn [map concat]. intros H. apply app_eq_nil in H as [H _].
    destruct (transcript_entry_nonempty t H). }
  split; [|split].
  - intros E r. rewrite get_full_conversation_text_run. cbn [fst].
    rewrite <- Hnil. split; [intros [= H]; exact H|intros ->; reflexivity].
  - intros E r s. rewrite get_conversation_summary_run. cbv zeta. cbn [fst].
    intros [= <-]. cbn [Summary.conversation_length Summary.total_turns].
    unfold len.
    split; intros H.
    + assert (transcript (AgentToAgentConversation.turns (self r)) = []) as H0
        by (apply length_zero_iff_nil; lia).
      apply Hnil in H0. rewrite H0. reflexivity.
    + assert (AgentToAgentConversation.turns (self r) = []) as H0
        by (apply length_zero_iff_nil; lia).
      rewrite H0. reflexivity.
  - intros E e evs l1 l2 n1 n2 t1 t2 t.
    rewrite !get_full_conversation_text_run. cbn [fst self AgentToAgentConversation.turns].
    intros [= <-] [= <-] [= <-]. unfold transcript. rewrite map_app, concat_app.
    reflexivity.
Qed.

(** The theorem applied to a new orchestrator. *)
Lemma transcript_empty_iff_no_turns_witness :
  fst (get_full_conversation_text (fresh_run AgentToAgentConversation.init tt))
  = Returned [].
Proof.
  apply (proj2 (proj1 transcript_empty_iff_no_turns unit
                  (fresh_run AgentToAgentConversation.init tt))).
  reflexivity.
Defined.

(* ================================================================== *)
(** * [continue_conversation], every way it can end *)
(* ================================================================== *)

Section ClientCases.
Context {R : Type} {CC : ChatCompletions R}.
Import AzureAIAgentClient.

Lemma bind_out_of_fuel {S A B} (m : M S A) (k : A → M S B) s s' :
  m s = (OutOfFuel, s') → bind m k s = (OutOfFuel, s').
Proof. intros H. unfold bind. rewrite H. reflexivity. Qed.

Lemma user_entry_keys msg n :
  entry (lit "user") msg n !! lit "role" = Some (VStr (lit "user")) ∧
  entry (lit "user") msg n !! lit "content" = Some (VStr msg).
Proof.
  unfold entry. split.
  - apply lookup_insert_eq.
  - rewrite lookup_insert_ne by discriminate. apply lookup_insert_eq.
Qed.

Lemma missing_key_app hs d :
  missing_key (hs ++ [d]) =
    match missing_key hs with
    | Some k => Some k
    | None => missing_key [d]
    end.
Proof.
  induction hs as [|h hs IH]; [simpl; destruct (missing_key [d]); reflexivity|].
  simpl. destruct (h !! lit "role"); [|reflexivity].
  destruct (h !! lit "content"); [exact IH|reflexivity].
Qed.

Lemma missing_key_incoming hs msg n :
  missing_key (hs ++ [entry (lit "user") msg n]) = missing_key hs.
Proof.
  rewrite missing_key_app. destruct (missing_key hs); [reflexivity|].
  destruct (user_entry_keys msg n) as [Hr Hc]. simpl. rewrite Hr, Hc. reflexivity.
Qed.

Lemma chat_prompt_or_missing_key hs :
  (∃ p, chat_prompt hs = Some p ∧ missing_key hs = None) ∨
  (∃ k, chat_prompt hs = None ∧ missing_key hs = Some k).
Proof.
  induction hs as [|d hs IH]; simpl; [left; eauto|].
  destruct (d !! lit "role"); [|right; eauto].
  destruct (d !! lit "content"); [|right; eauto].
  destruct IH as [(q & -> & ->)|(k & -> & ->)]; [left|right]; eauto.
Qed.

Lemma add_history_missing_key (w : World R) items hs :
  Forall2 (fun v d => history_entry (heap w) v = Some d) items hs →
  ∀ k messages, missing_key hs = Some k →
    add_history items messages w = (Raised (KeyError k), w).
Proof.
  induction 1 as [|v d items hs Hv _ IH]; intros k messages Hk; simpl in *;
    [discriminate|].
  destruct v as [| | |l]; simpl in Hv; try discriminate.
  destruct (heap w !! l) as [[its|o]|] eqn:Hl; try discriminate.
  injection Hv as ->.
  unfold bind at 1. unfold dict_getitem at 1, bind at 1, as_dict at 1. rewrite Hl.
  destruct (d !! lit "role") as [r|] eqn:Hr.
  - unfold ret at 1.
    unfold bind at 1. unfold dict_getitem at 1, bind at 1, as_dict at 1. rewrite Hl.
    destruct (d !! lit "content") as [c|] eqn:Hc.
    + unfold ret at 1. destruct (val_eqb r _); apply IH; exact Hk.
    + injection Hk as <-. reflexivity.
  - injection Hk as <-. reflexivity.
Qed.

Lemma with_reply_history (w : World R) items hs msg n c :
  heap w !! conversation_history (this w) = Some (OList items) →
  Forall2 (fun v d => history_entry (heap w) v = Some d) items hs →
  Forall2 (fun v d => history_entry (with_reply w items msg n c) v = Some d)
    ((items ++ [VRef (length (heap w))]) ++ [VRef (S (length (heap w)))])
    (hs ++ [entry (lit "user") msg n; entry (lit "assistant") c (n + 1)]).
Proof.
  intros Hhist Hitems.
  pose proof (with_incoming_history w items hs msg n Hhist Hitems) as Hnew.
  pose proof (lookup_lt_Some _ _ _ Hhist) as Hlt.
  assert (length (with_incoming w items msg n) = S (length (heap w))) as Hlen.
  { unfold with_incoming. rewrite length_insert, length_app. simpl. lia. }
  assert (with_incoming w items msg n !! conversation_history (this w) =
          Some (OList (items ++ [VRef (length (heap w))]))) as Hhist'.
  { unfold with_incoming. apply list_lookup_insert_eq.
    rewrite length_app. simpl. lia. }
  change (hs ++ [entry (lit "user") msg n; entry (lit "assistant") c (n + 1)])
    with (hs ++ [entry (lit "user") msg n] ++ [entry (lit "assistant") c (n + 1)]).
  rewrite (app_assoc hs). apply Forall2_app.
  - eapply Forall2_impl; [exact Hnew|]. intros v d.
    apply history_entry_frame. unfold with_reply.
    apply (dict_frame_append _ _ (items ++ [VRef (length (heap w))])). exact Hhist'.
  - constructor; [|constructor]. unfold with_reply, history_entry.
    rewrite list_lookup_insert_ne by lia.
    rewrite list_lookup_middle by (symmetry; exact Hlen). reflexivity.
Qed.

(** The steps of [continue_conversation] up to the building of the
    request, which are the same in every case. *)
Ltac record_incoming Hhist Hlt items :=
  unfold continue_conversation;
  erewrite bind_returned by reflexivity;
  erewrite bind_returned by reflexivity;
  erewrite bind_returned;
  [|apply (list_append_run _ _ items); cbn [heap set_heap this];
    rewrite lookup_app_l by exact Hlt; exact Hhist];
  erewrite bind_returned by reflexivity;
  erewrite bind_returned by reflexivity;
  erewrite bind_returned;
  [|apply list_items_run; cbn [heap set_heap this];
    apply list_lookup_insert_eq; rewrite length_app; simpl; lia].

(** A damaged entry: the [KeyError] is raised before the [try], so it is
    not wrapped, and the service is not called. *)
Lemma continue_conversation_missing_key (w : World R) hs items msg n k :
  heap w !! conversation_history (this w) = Some (OList items) →
  Forall2 (fun v d => history_entry (heap w) v = Some d) items hs →
  missing_key hs = Some k →
  continue_conversation msg n w =
    (Raised (KeyError k), set_heap (with_incoming w items msg n) w).
Proof.
  intros Hhist Hitems Hk.
  pose proof (with_incoming_history w items hs msg n Hhist Hitems) as Hnew.
  pose proof (lookup_lt_Some _ _ _ Hhist) as Hlt.
  record_incoming Hhist Hlt items.
  erewrite bind_raised; [reflexivity|].
  eapply add_history_missing_key; [exact Hnew|].
  rewrite missing_key_incoming. exact Hk.
Qed.

(** The request is sent, and the service answers, raises, or stays
    silent. *)
Lemma continue_conversation_sent (w : World R) hs items p msg n o r' :
  heap w !! conversation_history (this w) = Some (OList items) →
  Forall2 (fun v d => history_entry (heap w) v = Some d) items hs →
  chat_prompt (hs ++ [entry (lit "user") msg n]) = Some p →
  create (model (this w)) (continuation_request (system_prompt (this w)) p n)
    (remote w) = (o, r') →
  continue_conversation msg n w =
    match o with
    | Returned (c :: _) =>
        (Returned c, MkWorld (with_reply w items msg n c) (this w) r')
    | Returned [] =>
        (Raised (continuation_failure (IndexError "list index out of range")),
         MkWorld (with_incoming w items msg n) (this w) r')
    | Raised x =>
        (Raised (continuation_failure x),
         MkWorld (with_incoming w items msg n) (this w) r')
    | OutOfFuel => (OutOfFuel, MkWorld (with_incoming w items msg n) (this w) r')
    end.
Proof.
  intros Hhist Hitems Hp Hcreate.
  pose proof (with_incoming_history w items hs msg n Hhist Hitems) as Hnew.
  pose proof (lookup_lt_Some _ _ _ Hhist) as Hlt.
  assert (∀ h, call_create (model (this w))
                 ([ChatMessage.Build (lit "system") (VStr (system_prompt (this w)))] ++ p ++
                  [ChatMessage.Build (lit "user")
                     (VStr (lit "Continue the conversation based on the response above. This is turn "
                            ++ str_of_int (n + 1) ++ lit " of the conversation."))])
                 (MkWorld h (this w) (remote w)) = (o, MkWorld h (this w) r')) as Hcall.
  { intros h. unfold call_create. cbn [heap this remote].
    unfold continuation_request in Hcreate. rewrite Hcreate. reflexivity. }
  record_incoming Hhist Hlt items.
  erewrite bind_returned.
  2:{ eapply add_history_run; [|exact Hp]. exact Hnew. }
  unfold try_except.
  erewrite bind_returned by reflexivity.
  cbn [this set_heap heap remote].
  destruct o as [[|c cs]|x|].
  - erewrite bind_returned.
    2:{ rewrite <- app_assoc. apply Hcall. }
    reflexivity.
  - erewrite bind_returned.
    2:{ rewrite <- app_assoc. apply Hcall. }
    erewrite bind_returned by reflexivity.
    erewrite bind_returned by reflexivity.
    erewrite bind_returned by reflexivity.
    erewrite bind_returned.
    2:{ apply (list_append_run _ _ (items ++ [VRef (length (heap w))])).
        cbn [heap set_heap this].
        rewrite lookup_app_l.
        - apply list_lookup_insert_eq. rewrite length_app. simpl. lia.
        - rewrite length_insert, length_app. simpl. lia. }
    cbn [heap set_heap this remote ret].
    unfold with_reply, with_incoming.
    rewrite length_insert, length_app. simpl length.
    replace (length (heap w) + 1)%nat with (S (length (heap w))) by lia.
    reflexivity.
  - erewrite bind_raised.
    2:{ rewrite <- app_assoc. apply Hcall. }
    reflexivity.
  - erewrite bind_out_of_fuel.
    2:{ rewrite <- app_assoc. apply Hcall. }
    reflexivity.
Qed.

(** In every case: the client object keeps its attributes, and the store
    is the one with the incoming message, or, exactly when the call
    returns, the one with the answer as well. *)
Lemma continue_conversation_store (w : World R) hs items msg n :
  heap w !! conversation_history (this w) = Some (OList items) →
  Forall2 (fun v d => history_entry (heap w) v = Some d) items hs →
  let res := continue_conversation msg n w in
  this (snd res) = this w ∧
  heap (snd res) =
    match fst res with
    | Returned c => with_reply w items msg n c
    | _ => with_incoming w items msg n
    end.
Proof.
  intros Hhist Hitems. cbv zeta.
  destruct (chat_prompt_or_missing_key (hs ++ [entry (lit "user") msg n]))
    as [(p & Hp & _)|(k & _ & Hk)].
  - destruct (create (model (this w))
                (continuation_request (system_prompt (this w)) p n) (remote w))
      as [o r'] eqn:Hcreate.
    rewrite (continue_conversation_sent w hs items p msg n o r' Hhist Hitems Hp Hcreate).
    destruct o as [[|c cs]|x|]; split; reflexivity.
  - rewrite missing_key_incoming in Hk.
    rewrite (continue_conversation_missing_key w hs items msg n k Hhist Hitems Hk).
    split; reflexivity.
Qed.
End ClientCases.

Section ClientFrame.
Context {R : Type} {CC : ChatCompletions R}.
Import AzureAIAgentClient.

Lemma with_incoming_frame (w : World R) items msg n (l : nat) :
  (l < length (heap w))%nat → l ≠ conversation_history (this w) →
  with_incoming w items msg n !! l = heap w !! l.
Proof.
  intros Hlt Hne. unfold with_incoming.
  rewrite list_lookup_insert_ne by congruence. apply lookup_app_l. exact Hlt.
Qed.

Lemma with_incoming_length (w : World R) items msg n :
  length (with_incoming w items msg n) = S (length (heap w)).
Proof. unfold with_incoming. rewrite length_insert, length_app. simpl. lia. Qed.

Lemma with_reply_frame (w : World R) items msg n c (l : nat) :
  (l < length (heap w))%nat → l ≠ conversation_history (this w) →
  with_reply w items msg n c !! l = heap w !! l.
Proof.
  intros Hlt Hne. unfold with_reply.
  rewrite list_lookup_insert_ne by congruence.
  rewrite lookup_app_l by (rewrite with_incoming_length; lia).
  apply with_incoming_frame; assumption.
Qed.

Lemma continue_conversation_frame (w : World R) hs msg n (l : nat) :
  internal_history w = Some hs →
  (l < length (heap w))%nat → l ≠ conversation_history (this w) →
  heap (snd (continue_conversation msg n w)) !! l = heap w !! l.
Proof.
  intros Hhs Hlt Hne.
  destruct (internal_history_inv w hs Hhs) as (items & Hhist & Hitems).
  destruct (continue_conversation_store w hs items msg n Hhist Hitems) as [_ ->].
  destruct (fst (continue_conversation msg n w));
    auto using with_incoming_frame, with_reply_frame.
Qed.

Lemma continue_conversation_history (w : World R) hs msg n :
  internal_history w = Some hs →
  internal_history (snd (continue_conversation msg n w)) =
    Some (hs ++ match fst (continue_conversation msg n w) with
                | Returned c => [entry (lit "user") msg n;
                                 entry (lit "assistant") c (n + 1)]
                | _ => [entry (lit "user") msg n]
                end).
Proof.
  intros Hhs.
  destruct (internal_history_inv w hs Hhs) as (items & Hhist & Hitems).
  destruct (continue_conversation_store w hs items msg n Hhist Hitems) as [Hthis Hheap].
  pose proof (lookup_lt_Some _ _ _ Hhist) as Hlt.
  destruct (fst (continue_conversation msg n w)) as [c|x|].
  - eapply internal_history_intro.
    + rewrite Hheap, Hthis. unfold with_reply. apply list_lookup_insert_eq.
      rewrite length_app, with_incoming_length. simpl. lia.
    + rewrite Hheap. apply with_reply_history; assumption.
  - eapply internal_history_intro.
    + rewrite Hheap, Hthis. unfold with_incoming. apply list_lookup_insert_eq.
      rewrite length_app. simpl. lia.
    + rewrite Hheap. apply with_incoming_history; assumption.
  - eapply internal_history_intro.
    + rewrite Hheap, Hthis. unfold with_incoming. apply list_lookup_insert_eq.
      rewrite length_app. simpl. lia.
    + rewrite Hheap. apply with_incoming_history; assumption.
Qed.
End ClientFrame.

(** X9. What [continue_conversation] does to the internal history, in
    every case (the service answers, answers without a choice, refuses,
    never answers, or an entry of the history is damaged): the incoming
    message is appended as a "user" entry with the given turn number; and
    exactly when the call returns [c], an "assistant" entry with [c] and the
    next turn number follows it. Nothing else is added, and no entry is
    removed or changed. *)
Theorem continue_conversation_history_effect (R : Type) (CC : ChatCompletions R)
    (w : AzureAIAgentClient.World R) (hs : list (gmap pystr PyVal))
    (other_agent_response : pystr) (turn_number : Z) :
  AzureAIAgentClient.internal_history w = Some hs →
  let res := AzureAIAgentClient.continue_conversation other_agent_response turn_number w in
  AzureAIAgentClient.this (snd res) = AzureAIAgentClient.this w ∧
  AzureAIAgentClient.internal_history (snd res) =
    Some (hs ++
          match fst res with
          | Returned c =>
              [AzureAIAgentClient.entry (lit "user") other_agent_response turn_number;
               AzureAIAgentClient.entry (lit "assistant") c (turn_number + 1)]
          | _ => [AzureAIAgentClient.entry (lit "user") other_agent_response turn_number]
          end).
Proof.
  intros Hhs. cbv zeta. split.
  - destruct (internal_history_inv w hs Hhs) as (items & Hhist & Hitems).
    apply (continue_conversation_store w hs items _ _ Hhist Hitems).
  - apply continue_conversation_history. exact Hhs.
Qed.

(** The theorem applied to [greeted_client] and the greeting service: the
    history grows from one entry to three. *)
Lemma continue_conversation_history_effect_witness :
  AzureAIAgentClient.internal_history
    (snd (AzureAIAgentClient.continue_conversation (CC := greeting)
            (lit "Which size?") 2 greeted_client)) =
  Some [AzureAIAgentClient.entry (lit "assistant") (lit "hello") 1;
        AzureAIAgentClient.entry (lit "user") (lit "Which size?") 2;
        AzureAIAgentClient.entry (lit "assistant") (lit "hello") 3].
Proof.
  exact (proj2 (continue_conversation_history_effect unit greeting greeted_client
                  [AzureAIAgentClient.entry (lit "assistant") (lit "hello") 1]
                  (lit "Which size?") 2 eq_refl)).
Defined.

(** X10. [continue_conversation] changes no object that existed before
    the call other than the internal history list, and removes none. So a
    list that [get_conversation_history] returned before the call still
    holds the items it held, however the call ends. *)
Theorem continue_conversation_leaves_other_objects (R : Type) (CC : ChatCompletions R)
    (w : AzureAIAgentClient.World R) (hs : list (gmap pystr PyVal))
    (other_agent_response : pystr) (turn_number : Z) :
  AzureAIAgentClient.internal_history w = Some hs →
  (∀ l : nat,
     (l < length (AzureAIAgentClient.heap w))%nat →
     l ≠ AzureAIAgentClient.conversation_history (AzureAIAgentClient.this w) →
     AzureAIAgentClient.heap
       (snd (AzureAIAgentClient.continue_conversation other_agent_response turn_number w))
     !! l = AzureAIAgentClient.heap w !! l) ∧
  (let taken := AzureAIAgentClient.get_conversation_history w in
   let res := AzureAIAgentClient.continue_conversation other_agent_response turn_number
                (snd taken) in
   ∀ copy, fst taken = Returned copy →
     AzureAIAgentClient.heap (snd res) !! copy =
     AzureAIAgentClient.heap w !!
       AzureAIAgentClient.conversation_history (AzureAIAgentClient.this w)).
Proof.
  intros Hhs. split.
  - intros l Hlt Hne. apply (continue_conversation_frame w hs); assumption.
  - cbv zeta. intros copy.
    destruct (internal_history_inv w hs Hhs) as (items & Hhist & Hitems).
    pose proof (lookup_lt_Some _ _ _ Hhist) as Hlt.
    rewrite (get_conversation_history_run w items Hhist). cbn [fst snd].
    intros [= <-].
    rewrite (continue_conversation_frame _ hs).
    + cbn [AzureAIAgentClient.heap AzureAIAgentClient.set_heap].
      rewrite list_lookup_middle by reflexivity. symmetry. exact Hhist.
    + apply (internal_history_frame w _ hs); [|exact Hhs].
      intros l Hl. apply lookup_app_l. exact Hl.
    + cbn [AzureAIAgentClient.heap AzureAIAgentClient.set_heap].
      rewrite length_app. simpl. lia.
    + cbn [AzureAIAgentClient.this AzureAIAgentClient.set_heap]. lia.
Qed.

(** The theorem applied to [greeted_client]: the copy taken before the
    call still holds the one entry. *)
Lemma continue_conversation_leaves_other_objects_witness :
  AzureAIAgentClient.heap
    (snd (AzureAIAgentClient.continue_conversation (CC := greeting) (lit "Which size?") 2
            (snd (AzureAIAgentClient.get_conversation_history greeted_client))))
  !! 3%nat = Some (OList [VRef 2]).
Proof.
  exact (proj2 (continue_conversation_leaves_other_objects unit greeting greeted_client
                  [AzureAIAgentClient.entry (lit "assistant") (lit "hello") 1]
                  (lit "Which size?") 2 eq_refl) 3%nat eq_refl).
Defined.

(** X11. If an entry of the history lacks the key "role", or has it and
    lacks "content", [continue_conversation] raises the [KeyError] of the
    first such key as it is (not wrapped: the request is built before the
    [try]), and the service is not called. *)
Theorem continue_conversation_damaged_entry (R : Type) (CC : ChatCompletions R)
    (w : AzureAIAgentClient.World R) (hs : list (gmap pystr PyVal))
    (other_agent_response : pystr) (turn_number : Z) (k : pystr) :
  AzureAIAgentClient.internal_history w = Some hs →
  missing_key hs = Some k →
  let res := AzureAIAgentClient.continue_conversation other_agent_response turn_number w in
  fst res = Raised (Exc (lit "KeyError") (lit "'" ++ k ++ lit "'") None) ∧
  AzureAIAgentClient.remote (snd res) = AzureAIAgentClient.remote w.
Proof.
  intros Hhs Hk. cbv zeta.
  destruct (internal_history_inv w hs Hhs) as (items & Hhist & Hitems).
  rewrite (continue_conversation_missing_key w hs items _ _ k Hhist Hitems Hk).
  split; reflexivity.
Qed.

(** The theorem applied to [damaged_client]. *)
Lemma continue_conversation_damaged_entry_witness :
  fst (AzureAIAgentClient.continue_conversation (CC := greeting) (lit "hi") 2
         damaged_client)
  = Raised (Exc (lit "KeyError") (lit "'role'") None).
Proof.
  exact (proj1 (continue_conversation_damaged_entry unit greeting damaged_client
                  [damaged_entry] (lit "hi") 2 (lit "role") eq_refl eq_refl)).
Defined.

(** X12. When the request is sent and the service answers,
    [continue_conversation] returns the content of the first choice and
    ignores the others; an answer without any choice ends like a failed
    call, in the wrapping exception with an [IndexError] as cause. *)
Theorem continue_conversation_answer (R : Type) (CC : ChatCompletions R)
    (w : AzureAIAgentClient.World R) (hs : list (gmap pystr PyVal))
    (p : list ChatMessage.t) (other_agent_response : pystr) (turn_number : Z)
    (choices : list pystr) (r' : R) :
  AzureAIAgentClient.internal_history w = Some hs →
  chat_prompt (hs ++ [AzureAIAgentClient.entry (lit "user") other_agent_response turn_number])
    = Some p →
  create (AzureAIAgentClient.model (AzureAIAgentClient.this w))
    (continuation_request (AzureAIAgentClient.system_prompt (AzureAIAgentClient.this w))
       p turn_number)
    (AzureAIAgentClient.remote w) = (Returned choices, r') →
  let res := AzureAIAgentClient.continue_conversation other_agent_response turn_number w in
  fst res =
    match choices with
    | c :: _ => Returned c
    | [] => Raised (Exc (lit "Exception")
                      (lit "Failed to continue conversation: list index out of range")
                      (Some (Exc (lit "IndexError") (lit "list index out of range") None)))
    end ∧
  AzureAIAgentClient.remote (snd res) = r'.
Proof.
  intros Hhs Hp Hcreate. cbv zeta.
  destruct (internal_history_inv w hs Hhs) as (items & Hhist & Hitems).
  rewrite (continue_conversation_sent w hs items p _ _ _ r' Hhist Hitems Hp Hcreate).
  destruct choices; split; reflexivity.
Qed.

(** The theorem applied to a new client whose service answers without a
    choice. *)
Lemma continue_conversation_answer_witness :
  fst (AzureAIAgentClient.continue_conversation (CC := speechless) (lit "hi") 2 new_client)
  = Raised (Exc (lit "Exception")
              (lit "Failed to continue conversation: list index out of range")
              (Some (Exc (lit "IndexError") (lit "list index out of range") None))).
Proof.
  exact (proj1 (continue_conversation_answer unit speechless new_client []
                  [ChatMessage.Build (lit "user") (VStr (lit "hi"))] (lit "hi") 2 [] tt
                  eq_refl eq_refl eq_refl)).
Defined.

(* ================================================================== *)
(** * [start_conversation] and [reset_conversation] of the client *)
(* ================================================================== *)

Section ClientStart.
Context {R : Type} {CC : ChatCompletions R}.
Import AzureAIAgentClient.

(** What the client's [start_conversation] does, by the answer of the
    service. *)
Lemma client_start_conversation_run (w : World R) (initial_topic : option pystr) o r' :
  create (model (this w)) (start_request (system_prompt (this w)) initial_topic)
    (remote w) = (o, r') →
  start_conversation initial_topic w =
    let l := length (heap w) in
    let self := Build (model (this w)) (system_prompt (this w)) l in
    match o with
    | Returned (c :: _) =>
        (Returned c,
         MkWorld (<[l := OList [VRef (S l)]]>
                    ((heap w ++ [OList []]) ++ [ODict (entry (lit "assistant") c 1)]))
           self r')
    | Returned [] =>
        (Raised (start_failure (IndexError "list index out of range")),
         MkWorld (heap w ++ [OList []]) self r')
    | Raised x => (Raised (start_failure x), MkWorld (heap w ++ [OList []]) self r')
    | OutOfFuel => (OutOfFuel, MkWorld (heap w ++ [OList []]) self r')
    end.
Proof.
  intros Hcreate. unfold start_conversation.
  erewrite bind_returned by reflexivity.
  erewrite bind_returned by reflexivity.
  erewrite bind_returned by reflexivity.
  unfold try_except.
  erewrite bind_returned by reflexivity.
  cbn [this heap set_heap remote model system_prompt].
  assert (∀ h s, call_create (model (this w))
            (start_request (system_prompt (this w)) initial_topic)
            (MkWorld h s (remote w)) = (o, MkWorld h s r')) as Hcall.
  { intros h s. unfold call_create. cbn [heap this remote]. rewrite Hcreate.
    reflexivity. }
  destruct o as [[|c cs]|x|].
  - erewrite bind_returned by apply Hcall. reflexivity.
  - erewrite bind_returned by apply Hcall.
    erewrite bind_returned by reflexivity.
    erewrite bind_returned by reflexivity.
    erewrite bind_returned by reflexivity.
    erewrite bind_returned.
    2:{ apply (list_append_run _ _ []). cbn [heap set_heap this conversation_history].
        rewrite lookup_app_l by (rewrite length_app; simpl; lia).
        apply list_lookup_middle. reflexivity. }
    cbn [heap set_heap this remote ret conversation_history].
    rewrite length_app. simpl length.
    replace (length (heap w) + 1)%nat with (S (length (heap w))) by lia.
    reflexivity.
  - erewrite bind_raised by apply Hcall. reflexivity.
  - erewrite bind_out_of_fuel by apply Hcall. reflexivity.
Qed.
End ClientStart.

(** X13. The client's [start_conversation] discards the history, whatever
    it was: after the call the internal history holds the first message
    alone, as an "assistant" entry with turn 1, if the call returned it,
    and is empty in every other case (the service raised, which is
    reported in a wrapping exception, gave no choice, or did not answer).
    The objects that existed before are left as they were: the earlier
    history list is not emptied, a new list takes its place. *)
Theorem client_start_conversation_discards_history (R : Type) (CC : ChatCompletions R)
    (w : AzureAIAgentClient.World R) (initial_topic : option pystr)
    (o : outcome (list pystr)) (r' : R) :
  create (AzureAIAgentClient.model (AzureAIAgentClient.this w))
    (start_request (AzureAIAgentClient.system_prompt (AzureAIAgentClient.this w))
       initial_topic)
    (AzureAIAgentClient.remote w) = (o, r') →
  let res := AzureAIAgentClient.start_conversation initial_topic w in
  fst res =
    match o with
    | Returned (c :: _) => Returned c
    | Returned [] => Raised (start_failure (IndexError "list index out of range"))
    | Raised x => Raised (start_failure x)
    | OutOfFuel => OutOfFuel
    end ∧
  AzureAIAgentClient.internal_history (snd res) =
    Some (match o with
          | Returned (c :: _) => [AzureAIAgentClient.entry (lit "assistant") c 1]
          | _ => []
          end) ∧
  (∀ l : nat, (l < length (AzureAIAgentClient.heap w))%nat →
     AzureAIAgentClient.heap (snd res) !! l = AzureAIAgentClient.heap w !! l) ∧
  AzureAIAgentClient.remote (snd res) = r'.
Proof.
  intros Hcreate. cbv zeta.
  rewrite (client_start_conversation_run w initial_topic o r' Hcreate). cbv zeta.
  assert (AzureAIAgentClient.internal_history
            (AzureAIAgentClient.MkWorld (AzureAIAgentClient.heap w ++ [OList []])
               (AzureAIAgentClient.Build
                  (AzureAIAgentClient.model (AzureAIAgentClient.this w))
                  (AzureAIAgentClient.system_prompt (AzureAIAgentClient.this w))
                  (length (AzureAIAgentClient.heap w))) r') = Some []) as Hempty.
  { unfold AzureAIAgentClient.internal_history.
    cbn [AzureAIAgentClient.heap AzureAIAgentClient.this
         AzureAIAgentClient.conversation_history].
    rewrite list_lookup_middle by reflexivity. reflexivity. }
  destruct o as [[|c cs]|x|]; cbn [fst snd AzureAIAgentClient.heap AzureAIAgentClient.remote];
    (split; [reflexivity|]); (split; [|split; [|reflexivity]]);
    try exact Hempty; try (intros l Hl; apply lookup_app_l; exact Hl).
  - unfold AzureAIAgentClient.internal_history.
    cbn [AzureAIAgentClient.heap AzureAIAgentClient.this
         AzureAIAgentClient.conversation_history].
    rewrite list_lookup_insert_eq by (rewrite !length_app; simpl; lia).
    cbn [mapM AzureAIAgentClient.history_entry].
    rewrite list_lookup_insert_ne by lia.
    rewrite list_lookup_middle by (rewrite length_app; simpl; lia).
    reflexivity.
  - intros l Hl. rewrite list_lookup_insert_ne by lia.
    rewrite <- app_assoc. apply lookup_app_l. exact Hl.
Qed.

(** The theorem applied to [greeted_client] after one more exchange, and a
    service that refuses: the three entries are gone. *)
Lemma client_start_conversation_discards_history_witness :
  AzureAIAgentClient.internal_history
    (snd (AzureAIAgentClient.start_conversation (CC := refusing) (Some (lit "gloves"))
            (snd (AzureAIAgentClient.continue_conversation (CC := greeting)
                    (lit "Which size?") 2 greeted_client))))
  = Some [].
Proof.
  exact (proj1 (proj2 (client_start_conversation_discards_history unit refusing
           (snd (AzureAIAgentClient.continue_conversation (CC := greeting)
                   (lit "Which size?") 2 greeted_client))
           (Some (lit "gloves")) (Raised connection_error) tt eq_refl))).
Defined.

(** X14. [reset_conversation] puts a new, empty list in the place of the
    history: afterwards the internal history is empty and
    [get_conversation_history] returns a list without items, whatever the
    history was; every object that existed before, and so every list
    handed out earlier, is left as it was. *)
Theorem reset_conversation_starts_empty (R : Type) (w : AzureAIAgentClient.World R) :
  let w' := snd (AzureAIAgentClient.reset_conversation w) in
  AzureAIAgentClient.internal_history w' = Some [] ∧
  (∃ copy, fst (AzureAIAgentClient.get_conversation_history w') = Returned copy ∧
           AzureAIAgentClient.heap (snd (AzureAIAgentClient.get_conversation_history w'))
           !! copy = Some (OList [])) ∧
  (∀ l : nat, (l < length (AzureAIAgentClient.heap w))%nat →
     AzureAIAgentClient.heap w' !! l = AzureAIAgentClient.heap w !! l) ∧
  AzureAIAgentClient.remote w' = AzureAIAgentClient.remote w.
Proof.
  cbv zeta. unfold AzureAIAgentClient.reset_conversation.
  erewrite bind_returned by reflexivity.
  cbn [snd AzureAIAgentClient.set_conversation_history modify
       AzureAIAgentClient.heap AzureAIAgentClient.set_heap AzureAIAgentClient.this
       AzureAIAgentClient.remote].
  assert (∀ m s, (AzureAIAgentClient.heap w ++ [OList []]) !!
                 AzureAIAgentClient.conversation_history
                   (AzureAIAgentClient.Build m s (length (AzureAIAgentClient.heap w)))
                 = Some (OList [])) as Hl.
  { intros m s. apply list_lookup_middle. reflexivity. }
  split; [|split; [|split; [|reflexivity]]].
  - unfold AzureAIAgentClient.internal_history.
    cbn [AzureAIAgentClient.heap AzureAIAgentClient.this]. rewrite Hl. reflexivity.
  - eexists. erewrite get_conversation_history_run by apply Hl.
    split; [reflexivity|]. cbn [snd AzureAIAgentClient.heap AzureAIAgentClient.set_heap].
    apply list_lookup_middle. reflexivity.
  - intros l Hlt. apply lookup_app_l. exact Hlt.
Qed.

(** The theorem applied to [greeted_client]: its one entry is gone from
    the history. *)
Lemma reset_conversation_starts_empty_witness :
  AzureAIAgentClient.internal_history
    (snd (AzureAIAgentClient.reset_conversation greeted_client))
  = Some [].
Proof.
  pose proof (reset_conversation_starts_empty unit greeted_client) as H.
  cbv zeta in H. destruct H as [H _]. exact H.
Defined.

(* ================================================================== *)
(** * Construction of the client *)
(* ================================================================== *)

Lemma startswith_app (p s : pystr) : startswith (p ++ s) p = true.
Proof.
  induction p as [|c p IH]; [destruct s; reflexivity|].
  simpl. rewrite N.eqb_refl. exact IH.
Qed.

Lemma endswith_app (s p : pystr) : endswith (s ++ p) p = true.
Proof. unfold endswith. rewrite rev_app_distr. apply startswith_app. Qed.



(** X16. The SDK client of a new [AzureAIAgentClient]: for an endpoint
    that contains "azure.com", an [AzureOpenAI] client on the endpoint as
    it is; for any other, an [OpenAI] client whose base URL ends in "/v1"
    and is the endpoint itself if that already ends in "/v1", and the
    endpoint followed by "/v1" otherwise. The suffix is never doubled. *)
Theorem client_init_base_url (endpoint model api_key system_prompt : option pystr)
    (env : environ) (h h' : store) (c : ClientObject.t) :
  AzureAIAgentClient_init endpoint model api_key system_prompt env h = (Returned c, h') →
  match ClientObject.client c with
  | AzureOpenAI version azure_endpoint key =>
      str_contains (ClientObject.endpoint c) (lit "azure.com") = true ∧
      version = lit "2024-12-01-preview" ∧
      azure_endpoint = ClientObject.endpoint c ∧
      key = ClientObject.api_key c
  | OpenAI key base_url =>
      str_contains (ClientObject.endpoint c) (lit "azure.com") = false ∧
      key = ClientObject.api_key c ∧
      endswith base_url (lit "/v1") = true ∧
      base_url = (if endswith (ClientObject.endpoint c) (lit "/v1")
                  then ClientObject.endpoint c
                  else ClientObject.endpoint c ++ lit "/v1")
  end.
Proof.
  unfold AzureAIAgentClient_init.
  destruct (opt_or (opt_or api_key (env !! lit "GITHUB_TOKEN"))
              (env !! lit "AZURE_API_KEY")) as [[|x k]|]; cbn [str_bool negb];
    try discriminate.
  set (ep := opt_or_str endpoint _).
  unfold bind, alloc, ret. intros [= <- _].
  cbn [ClientObject.client ClientObject.endpoint ClientObject.api_key].
  destruct (str_contains ep (lit "azure.com")) eqn:Haz.
  - repeat split.
  - split; [reflexivity|]. split; [reflexivity|].
    destruct (endswith ep (lit "/v1")) eqn:Hend; cbn [negb].
    + change (lit "") with (@nil N). rewrite app_nil_r. split; [exact Hend|reflexivity].
    + split; [apply endswith_app|reflexivity].
Qed.

(** The theorem applied to [example_environ], whose endpoint already ends
    in "/v1". *)
Lemma client_init_base_url_witness :
  ∃ c, fst (AzureAIAgentClient_init None None None None example_environ []) = Returned c ∧
       match ClientObject.client c with
       | AzureOpenAI _ _ _ => False
       | OpenAI _ base_url =>
           endswith base_url (lit "/v1") = true ∧
           base_url = lit "https://models.github.ai/v1"
       end.
Proof.
  eexists. split; [vm_compute; reflexivity|].
  match goal with |- match ClientObject.client ?c with _ => _ end =>
    pose proof (client_init_base_url None None None None example_environ [] [OList []] c
                  ltac:(vm_compute; reflexivity)) as H
  end.
  cbn [ClientObject.client ClientObject.endpoint] in H |- *.
  destruct H as (_ & _ & Hend & Hurl). split; [exact Hend|].
  rewrite Hurl. vm_compute. reflexivity.
Defined.


(* ================================================================== *)
(** * The client's history after a conversation *)
(* ================================================================== *)

Section Deployed.
Context {R C : Type} {CC : ChatCompletions R}.
Variable copilot : pystr → M C (list (option Activity.t)).
Import AgentToAgentConversation.

Lemma tail_snoc {A} (l : list A) (x : A) : l ≠ [] → tail (l ++ [x]) = tail l ++ [x].
Proof. destruct l; [contradiction|reflexivity]. Qed.

Lemma entry_of_copilot_turn n m :
  entry_of_turn (Turn n copilot_studio m) = AzureAIAgentClient.entry (lit "user") m n.
Proof. reflexivity. Qed.

Lemma entry_of_azure_turn n m :
  entry_of_turn (Turn n azure_ai_agent m) = AzureAIAgentClient.entry (lit "assistant") m n.
Proof. reflexivity. Qed.

Lemma mirror_loop (hs0 : list (gmap pystr PyVal)) (fuel : nat)
    (r : Run (AzureAIAgentClient.World R * C)) :
  mirror_inv hs0 r →
  mirror_post hs0 (fst (while_loop (EP := deployed copilot) fuel r))
    (snd (while_loop (EP := deployed copilot) fuel r)).
Proof.
  apply (while_loop_rule (EP := deployed copilot) (mirror_inv hs0) (mirror_post hs0)).
  - intros r0 (Hcur & Hodd & Hcap & _) Hge. exfalso.
    apply (odd_length_not_MAX_TURNS _ Hodd). lia.
  - intros r0 _ _. discriminate.
  - intros r0 (Hcur & Hodd & Hcap & Hhist) Hlt.
    pose proof (even_false_nonempty _ Hodd) as Hne.
    destruct (last_is_Some _ Hne) as [t Hlast].
    rewrite (loop_body_run (EP := deployed copilot) r0 _ Hlast). cbv zeta.
    destruct (env r0) as [w c] eqn:Henv. cbn [ask_question deployed fst] in *.
    destruct (copilot (ConversationTurn.message t) c) as [[acts|x|] c'];
      [|discriminate..].
    set (resp := strip (fold_left receive acts [])).
    destruct (orb _ _) eqn:Hbrk.
    { intros _. cbn [self env turns fst].
      rewrite tail_snoc by exact Hne. rewrite removelast_last. exact Hhist. }
    destruct (Z.ltb_spec (current_turn (self r0) + 1) MAX_TURNS) as [Hlt'|Hge'].
    2:{ apply orb_false_iff in Hbrk as [Hbrk _]. apply Z.leb_gt in Hbrk. lia. }
    cbn [continue_conversation deployed].
    pose proof (continue_conversation_history w _ resp (current_turn (self r0) + 1) Hhist)
      as Hnext.
    destruct (AzureAIAgentClient.continue_conversation resp (current_turn (self r0) + 1) w)
      as [[next|x|] w']; [|discriminate..].
    cbn [fst snd] in Hnext.
    unfold mirror_inv. cbn [self env turns current_turn fst].
    rewrite !len_snoc, !length_snoc. split; [lia|]. split; [|split; [lia|]].
    + rewrite Nat.even_succ, <- Nat.negb_even, Nat.even_succ, <- Nat.negb_even.
      rewrite Hodd. reflexivity.
    + rewrite Hnext. f_equal.
      rewrite tail_snoc by (intros H; apply app_eq_nil in H; destruct H; discriminate).
      rewrite tail_snoc by exact Hne.
      rewrite !map_app, <- !app_assoc. cbn [map app].
      rewrite entry_of_copilot_turn, entry_of_azure_turn. reflexivity.
Qed.
End Deployed.

(** X18. When the orchestrator drives the client of
    [azure_ai_agent_client.py] and [start_conversation] returns, the
    client's internal history is the history it had before the call
    followed by one entry for each turn of the returned list except the
    first and the last: what Copilot Studio said as "user", what the client
    answered as "assistant", each with its turn number. So the history of
    an earlier conversation stays in front (the orchestrator never resets
    the client), and the topic, which is turn 1, never enters the client's
    history. *)
Theorem client_history_mirrors_conversation (R C : Type) (CC : ChatCompletions R)
    (copilot : pystr → M C (list (option Activity.t)))
    (initial_topic : pystr) (obj : AgentToAgentConversation.t)
    (w : AzureAIAgentClient.World R) (c : C)
    (hs0 : list (gmap pystr PyVal)) (l : list ConversationTurn.t) :
  AzureAIAgentClient.internal_history w = Some hs0 →
  let res := start_conversation (EP := deployed copilot) initial_topic
               (fresh_run obj (w, c)) in
  fst res = Returned l →
  AzureAIAgentClient.internal_history (fst (env (snd res))) =
    Some (hs0 ++ map entry_of_turn (removelast (tail l))).
Proof.
  intros Hhs. cbv zeta. intros Hl.
  rewrite (start_conversation_returned (EP := deployed copilot) initial_topic _ l Hl).
  revert Hl. rewrite (start_conversation_run (EP := deployed copilot)). cbv zeta.
  match goal with |- context [while_loop ?f ?r'] =>
    assert (mirror_inv hs0 r') as Hinv;
    [|pose proof (mirror_loop copilot hs0 f r' Hinv) as H; clear Hinv]
  end.
  { unfold mirror_inv. cbn [self env fst AgentToAgentConversation.turns
      AgentToAgentConversation.current_turn fresh_run tail map].
    rewrite app_nil_r. repeat split; try assumption.
    unfold len, MAX_TURNS. simpl. lia. }
  destruct (while_loop _ _) as [[[]|x|] r']; cbn [fst snd] in *; try discriminate.
  intros _. apply H. reflexivity.
Qed.

(** The theorem applied to [greeted_client], the greeting service and
    [one_question]: four turns are returned, and the two in the middle
    are added to the one entry the client had. *)
Lemma client_history_mirrors_conversation_witness :
  AzureAIAgentClient.internal_history
    (fst (env (snd (start_conversation (EP := deployed (CC := greeting) one_question)
                      (lit "Hello")
                      (fresh_run AgentToAgentConversation.init (greeted_client, 0%nat))))))
  = Some ([AzureAIAgentClient.entry (lit "assistant") (lit "hello") 1] ++
          map entry_of_turn
            (removelast (tail [Turn 1 azure_ai_agent (lit "Hello");
                               Turn 2 copilot_studio (lit "Which size?");
                               Turn 3 azure_ai_agent (lit "hello");
                               Turn 4 copilot_studio []]))).
Proof.
  apply (client_history_mirrors_conversation unit nat greeting one_question (lit "Hello")
           AgentToAgentConversation.init greeted_client 0%nat).
  - vm_compute. reflexivity.
  - vm_compute. reflexivity.
Defined.

(* ================================================================== *)
(** * The configuration check *)
(* ================================================================== *)

Section ScriptRun.
Context {R : Type} {CC : ChatCompletions R}.







End ScriptRun.



